(** * gateway-api: the Uniswap swap service, the Ethereum service and the
    Ethereum routes

    Shallow embedding of
      - src/services/uniswap.js   (class [Uniswap])
      - the Ethereum service      (class [Ethereum]: balances, approvals,
                                   gas price, token list and look-ups)
      - the Ethereum router       (handlers of POST /balances,
                                   POST /allowances, POST /approve and
                                   POST /poll)

    Promises are modelled by a small monad of our own: a computation reads
    its collaborators (chain node, wallet, clock) from a world value,
    appends every external interaction to a journal, and either returns a
    value or throws a JavaScript error.  [await] is monadic bind and
    [try { } catch (err) { }] is [try_catch]. *)

From Stdlib Require Import ZArith QArith List String Ascii Bool Lia.
From Stdlib Require Import DecimalString.
Import ListNotations.

Local Open Scope string_scope.
Local Open Scope Z_scope.

(* ================================================================== *)
(** ** JavaScript preliminaries *)
(* ================================================================== *)

Module Js.

(** An [Error] object: its class name, its message and the optional
    [reason] property that ethers attaches to the errors it raises. *)
Record JsError : Type := mkJsError {
  name    : string;
  message : string;
  reason  : option string
}.

(** [Error(msg)] *)
Definition Error (msg : string) : JsError :=
  {| name := "Error"; message := msg; reason := None |}.

(** Completion of a call: a value, or a thrown error. *)
Inductive outcome (A : Type) : Type :=
| Returns (a : A)
| Throws (e : JsError).
Arguments Returns {A} a.
Arguments Throws {A} e.

(** Truthiness of a value that is [undefined] or a string. *)
Definition truthy_string (v : option string) : bool :=
  match v with
  | Some s => negb (s =? EmptyString)%string
  | None => false
  end.

(** Truthiness of a value that is [undefined]/[null] or a number. *)
Definition truthy_number (v : option Z) : bool :=
  match v with
  | Some n => negb (n =? 0)%Z
  | None => false
  end.

(** [a || b] on strings that may be [undefined]. *)
Definition or_string (a : option string) (b : string) : string :=
  match a with
  | Some s => if (s =? EmptyString)%string then b else s
  | None => b
  end.

(** [ethers.constants.MaxUint256], the largest value of the contracts'
    256-bit unsigned integers. *)
Definition MaxUint256 : Z := 2 ^ 256 - 1.

(** Strings are sequences of code units.  The functions on letters below
    are those of JavaScript on ASCII strings, whose code units are below
    128, which is where token symbols and hexadecimal addresses live:
    there [toUpperCase] maps a to z to A to Z and leaves every other code
    unit as it is.  Upper-casing other code units takes the tables of
    Unicode; such strings are outside this model, which leaves those code
    units as they are. *)
Definition is_ascii_char (c : ascii) : bool :=
  (nat_of_ascii c <? 128)%nat.

Fixpoint is_ascii (s : string) : bool :=
  match s with
  | EmptyString => true
  | String c r => is_ascii_char c && is_ascii r
  end.

(** A letter from a to z. *)
Definition is_lower (c : ascii) : bool :=
  ((97 <=? nat_of_ascii c) && (nat_of_ascii c <=? 122))%nat.

Definition upper_char (c : ascii) : ascii :=
  if is_lower c then ascii_of_nat (nat_of_ascii c - 32) else c.

(** [String.prototype.toUpperCase], on ASCII strings. *)
Fixpoint toUpperCase (s : string) : string :=
  match s with
  | EmptyString => EmptyString
  | String c r => String (upper_char c) (toUpperCase r)
  end.

(** Whether a string has a letter from a to z. *)
Fixpoint has_lower (s : string) : bool :=
  match s with
  | EmptyString => false
  | String c r => is_lower c || has_lower r
  end.

End Js.
Export Js.

(* ================================================================== *)
(** ** The promise monad *)
(* ================================================================== *)

Section Promise.

(** [W]: the collaborators a computation talks to; [E]: the journal
    entries it leaves behind. *)
Context {W E : Type}.

(** What a running request has done so far: its journal, oldest entry
    first, and how many times it has read the clock. *)
Record Run : Type := mkRun {
  journal : list E;
  ticks   : nat
}.

Definition start : Run := {| journal := []; ticks := 0 |}.

Definition M (A : Type) : Type := W -> Run -> outcome A * Run.

Definition ret {A} (a : A) : M A := fun _ s => (Returns a, s).

Definition throw {A} (e : JsError) : M A := fun _ s => (Throws e, s).

Definition bind {A B} (m : M A) (k : A -> M B) : M B :=
  fun w s =>
    match m w s with
    | (Returns a, s') => k a w s'
    | (Throws e, s') => (Throws e, s')
    end.

(** [try { body } catch (err) { handler err }]: what the body did before
    it threw stays done. *)
Definition try_catch {A} (body : M A) (handler : JsError -> M A) : M A :=
  fun w s =>
    match body w s with
    | (Returns a, s') => (Returns a, s')
    | (Throws e, s') => handler e w s'
    end.

(** Record an interaction. *)
Definition emit (e : E) : M unit :=
  fun _ s => (Returns tt, {| journal := journal s ++ [e]; ticks := ticks s |}).

(** Ask a collaborator: record the question, then complete as it says. *)
Definition ask {A} (e : E) (answer : W -> outcome A) : M A :=
  fun w s =>
    (answer w, {| journal := journal s ++ [e]; ticks := ticks s |}).

(** Lift a synchronous call that may throw. *)
Definition lift {A} (o : outcome A) : M A := fun _ s => (o, s).

(** Complete as a collaborator says, without a journal entry of its own. *)
Definition lift_world {A} (answer : W -> outcome A) : M A :=
  fun w s => (answer w, s).

(** [Date.now()] / [new Date().getTime()]: the next reading of the
    clock, in milliseconds. *)
Definition Date_now (clock : W -> nat -> Z) : M Z :=
  fun w s =>
    (Returns (clock w (ticks s)),
     {| journal := journal s; ticks := S (ticks s) |}).

(** Run a request from scratch. *)
Definition exec {A} (m : M A) (w : W) : outcome A * Run := m w start.

Definition result_of {A} (m : M A) (w : W) : outcome A := fst (exec m w).
Definition trace_of {A} (m : M A) (w : W) : list E := journal (snd (exec m w)).
Definition clock_reads {A} (m : M A) (w : W) : nat := ticks (snd (exec m w)).

End Promise.

Arguments Run : clear implicits.
Arguments M : clear implicits.

Declare Scope promise_scope.
Delimit Scope promise_scope with promise.
Notation "x <- c1 ;; c2" := (bind c1 (fun x => c2))
  (at level 100, c1 at next level, right associativity) : promise_scope.
Local Open Scope promise_scope.

(* ================================================================== *)
(** ** The exchange SDK, as far as the service uses it

    [uni] is the package [@uniswap/sdk], which uniswap.js imports and which
    is not part of the repository's sources.  Its data and operations are
    modelled from the specification (sections 3 and 4). *)
(* ================================================================== *)

Module uni.

(** Modelled from the spec: the SDK's enumeration [uni.ChainId] (not under
    src/), the "chain identifier" of section 7; the service uses
    [uni.ChainId.KOVAN] and [uni.ChainId.MAINNET]. *)
Inductive ChainId : Type := MAINNET | ROPSTEN | RINKEBY | GOERLI | KOVAN.

Definition chain_number (c : ChainId) : Z :=
  match c with
  | MAINNET => 1 | ROPSTEN => 3 | RINKEBY => 4 | GOERLI => 5 | KOVAN => 42
  end.

Definition chain_eqb (a b : ChainId) : bool := chain_number a =? chain_number b.

(** Modelled from the spec: the SDK's [Token] (not under src/).  Section 3,
    "Asset: {chainId, address, symbol, decimals}. Immutable once resolved.
    Identity = (chainId, address)."  A token fetched from the chain carries
    no symbol. *)
Record Token : Type := mkToken {
  chainId  : ChainId;
  address  : string;
  decimals : Z;
  symbol   : option string
}.

Definition equals (a b : Token) : bool :=
  chain_eqb (chainId a) (chainId b) && (address a =? address b)%string.

(** Modelled from the spec: the SDK's table [uni.WETH] (not under src/), "a
    fixed bridge asset (the chain's canonical wrapped native asset)". *)
Definition WETH (c : ChainId) : Token :=
  let at_ (a : string) :=
    {| chainId := c; address := a; decimals := 18; symbol := Some "WETH" |} in
  match c with
  | MAINNET => at_ "0xC02aaA39b223FE8D0A0e5C4F27eAD9083C756Cc2"
  | ROPSTEN => at_ "0xc778417E063141139Fce010982780140Aa0cD5Ab"
  | RINKEBY => at_ "0xc778417E063141139Fce010982780140Aa0cD5Ab"
  | GOERLI  => at_ "0xB4FBF271143F4FBf7B91A5ded31805e42b2208d6"
  | KOVAN   => at_ "0xd0A1E359811322d97991E03f863a0C30C2cF029C"
  end.

(** The native asset, or a token. *)
Inductive Currency : Type :=
| ETHER
| TOKEN (t : Token).

Definition currencyEquals (a b : Currency) : bool :=
  match a, b with
  | TOKEN x, TOKEN y => equals x y
  | ETHER, ETHER => true
  | _, _ => false
  end.

Definition is_ether (c : Currency) : bool :=
  match c with ETHER => true | TOKEN _ => false end.

Definition wrapped (c : Currency) (chain : ChainId) : Token :=
  match c with
  | ETHER => WETH chain
  | TOKEN t => t
  end.

(** A broken precondition of an SDK operation is an error. *)
Definition invariant (cond : bool) (msg : string) : outcome unit :=
  if cond then Returns tt else Throws (Error ("Invariant failed: " ++ msg)).

(** Modelled from the spec: the SDK's [Pair] (not under src/).  Section 3,
    "Pair: {assetA, assetB, reserveA, reserveB}, reserves as
    arbitrary-precision unsigned integers." *)
Record Pair : Type := mkPair {
  assetA   : Token;
  assetB   : Token;
  reserveA : Z;
  reserveB : Z
}.

Definition involvesToken (p : Pair) (t : Token) : bool :=
  equals t (assetA p) || equals t (assetB p).

Definition reserveOf (p : Pair) (t : Token) : Z :=
  if equals t (assetA p) then reserveA p else reserveB p.

Definition other_asset (p : Pair) (t : Token) : Token :=
  if equals t (assetA p) then assetB p else assetA p.

(** Modelled from the spec: the SDK's [Route] (not under src/).  Section 3,
    "Route: ordered sequence of 1 or 2 Pairs forming a connected path from
    inputAsset to outputAsset; invariant: consecutive pairs share exactly
    one asset, and the full chain connects inputAsset -> (bridgeAsset) ->
    outputAsset."  [path] is the sequence of assets the route visits. *)
Record Route : Type := mkRoute {
  pairs  : list Pair;
  path   : list Token;
  input  : Currency;
  output : Currency
}.

(** Follow the pairs from [current]: each pair must hold the asset reached
    so far ("consecutive pairs share exactly one asset") and leads to its
    other asset. *)
Fixpoint walk (current : Token) (ps : list Pair) : outcome (list Token) :=
  match ps with
  | [] => Returns []
  | p :: rest =>
      if involvesToken p current then
        match walk (other_asset p current) rest with
        | Returns tl => Returns (other_asset p current :: tl)
        | Throws e => Throws e
        end
      else Throws (Error "Invariant failed: PATH")
  end.

(** Modelled from the spec: the SDK's constructor
    [new uni.Route(pairs, input, output)] (not under src/).  It enforces
    the invariant of section 3: there is at least one pair, all pairs are
    on one chain, the first pair holds the input asset, the last pair holds
    the output asset, and the pairs form a connected path.  The native
    asset stands for its wrapped token. *)
Definition new_Route (ps : list Pair) (inp out : Currency) : outcome Route :=
  match ps with
  | [] => Throws (Error "Invariant failed: PAIRS")
  | p0 :: _ =>
      let chain := chainId (assetA p0) in
      if negb (forallb (fun p => chain_eqb (chainId (assetA p)) chain) ps)
      then Throws (Error "Invariant failed: CHAIN_IDS")
      else if negb (involvesToken p0 (wrapped inp chain))
      then Throws (Error "Invariant failed: INPUT")
      else if negb (involvesToken (last ps p0) (wrapped out chain))
      then Throws (Error "Invariant failed: OUTPUT")
      else
        match walk (wrapped inp chain) ps with
        | Returns tl =>
            Returns {| pairs := ps; path := wrapped inp chain :: tl;
                       input := inp; output := out |}
        | Throws e => Throws e
        end
  end.

Definition hops (r : Route) : nat := List.length (pairs r).

(** *** Trade calculator (specification, section 4.2) *)

(** An amount of a currency, in its smallest unit. *)
Record CurrencyAmount : Type := mkAmount {
  currency : Currency;
  raw      : Z
}.

(** Modelled from the spec: the SDK's [TokenAmount] constructor (not under
    src/).  Section 4.2, "all amounts are arbitrary-precision unsigned
    integers scaled by the asset's decimal precision"; the amount has to
    fit the contract's 256-bit unsigned integers. *)
Definition new_TokenAmount (t : Token) (amount : Z) : outcome CurrencyAmount :=
  if (0 <=? amount) && (amount <=? MaxUint256)
  then Returns {| currency := TOKEN t; raw := amount |}
  else Throws (Error "Invariant failed: not a uint256").

Definition InsufficientReservesError : JsError :=
  {| name := "InsufficientReservesError"; message := EmptyString; reason := None |}.

Definition InsufficientInputAmountError : JsError :=
  {| name := "InsufficientInputAmountError"; message := EmptyString; reason := None |}.

(** Modelled from the spec: the SDK's [Pair.getOutputAmount] (not under
    src/).  Section 4.2, "apply the constant-product invariant (x.y=k) with
    the pool's standard fee deduction to convert an input amount to an
    output amount (ExactIn)"; "division truncates toward zero"; section 8,
    "fee 0.3% ... fee deduction applied to the input leg". *)
Definition getOutputAmount (p : Pair) (t : Token) (amount : Z)
  : outcome (Token * Z) :=
  if negb (involvesToken p t) then Throws (Error "Invariant failed: TOKEN")
  else if (reserveA p =? 0) || (reserveB p =? 0)
  then Throws InsufficientReservesError
  else
    let inputReserve := reserveOf p t in
    let outputReserve := reserveOf p (other_asset p t) in
    let inputAmountWithFee := amount * 997 in
    let numerator := inputAmountWithFee * outputReserve in
    let denominator := inputReserve * 1000 + inputAmountWithFee in
    let out := Z.quot numerator denominator in
    if out =? 0 then Throws InsufficientInputAmountError
    else Returns (other_asset p t, out).

(** Modelled from the spec: the SDK's [Pair.getInputAmount] (not under
    src/).  Section 4.2, "... or an output amount to a required input
    amount (ExactOut)"; "Fails with InsufficientLiquidity if a hop's output
    would exceed or equal the pool's full reserve". *)
Definition getInputAmount (p : Pair) (t : Token) (amount : Z)
  : outcome (Token * Z) :=
  if negb (involvesToken p t) then Throws (Error "Invariant failed: TOKEN")
  else if (reserveA p =? 0) || (reserveB p =? 0)
          || (reserveOf p t <=? amount)
  then Throws InsufficientReservesError
  else
    let outputReserve := reserveOf p t in
    let inputReserve := reserveOf p (other_asset p t) in
    let numerator := inputReserve * amount * 1000 in
    let denominator := (outputReserve - amount) * 997 in
    Returns (other_asset p t, Z.quot numerator denominator + 1).

(** Chain the hops, "in order for ExactIn and in reverse order for
    ExactOut". *)
Fixpoint forwards (ps : list Pair) (t : Token) (amount : Z)
  : outcome (Token * Z) :=
  match ps with
  | [] => Returns (t, amount)
  | p :: rest =>
      match getOutputAmount p t amount with
      | Returns (t', amount') => forwards rest t' amount'
      | Throws e => Throws e
      end
  end.

Fixpoint backwards (reversed : list Pair) (t : Token) (amount : Z)
  : outcome (Token * Z) :=
  match reversed with
  | [] => Returns (t, amount)
  | p :: rest =>
      match getInputAmount p t amount with
      | Returns (t', amount') => backwards rest t' amount'
      | Throws e => Throws e
      end
  end.

Inductive TradeType : Type := EXACT_INPUT | EXACT_OUTPUT.

(** Modelled from the spec: the SDK's [Trade] (not under src/).  Section 3,
    "TradeSpec: {route, direction, amount, assetBound}. Direction decides
    which side is user-fixed and which is computed."  For EXACT_INPUT the
    computed counter-amount is [outputAmount], for EXACT_OUTPUT it is
    [inputAmount]. *)
Record Trade : Type := mkTrade {
  route        : Route;
  tradeType    : TradeType;
  inputAmount  : CurrencyAmount;
  outputAmount : CurrencyAmount
}.

Definition counterAmount (t : Trade) : Z :=
  match tradeType t with
  | EXACT_INPUT => raw (outputAmount t)
  | EXACT_OUTPUT => raw (inputAmount t)
  end.

Definition as_currency (c : Currency) (t : Token) : Currency :=
  match c with ETHER => ETHER | TOKEN _ => TOKEN t end.

Definition route_chainId (r : Route) : outcome ChainId :=
  match pairs r with
  | p0 :: _ => Returns (chainId (assetA p0))
  | [] => Throws {| name := "TypeError";
                    message := "Cannot read property 'chainId' of undefined";
                    reason := None |}
  end.

(** Modelled from the spec: the SDK's [Trade.exactIn(route, amountIn)] (not
    under src/).  Section 4.2, "computeTrade(route, direction, amount)":
    the amount must be of the route's input asset; the hops are chained in
    order. *)
Definition exactIn (r : Route) (amountIn : CurrencyAmount) : outcome Trade :=
  if negb (currencyEquals (currency amountIn) (input r))
  then Throws (Error "Invariant failed: INPUT")
  else
    match route_chainId r with
    | Throws e => Throws e
    | Returns chain =>
        match forwards (pairs r) (wrapped (currency amountIn) chain)
                       (raw amountIn) with
        | Throws e => Throws e
        | Returns (t, out) =>
            Returns {| route := r; tradeType := EXACT_INPUT;
                       inputAmount := amountIn;
                       outputAmount :=
                         {| currency := as_currency (output r) t;
                            raw := out |} |}
        end
    end.

(** Modelled from the spec: the SDK's [Trade.exactOut(route, amountOut)]
    (not under src/).  Section 4.2: the amount must be of the route's
    output asset; the hops are chained in reverse order. *)
Definition exactOut (r : Route) (amountOut : CurrencyAmount) : outcome Trade :=
  if negb (currencyEquals (currency amountOut) (output r))
  then Throws (Error "Invariant failed: OUTPUT")
  else
    match route_chainId r with
    | Throws e => Throws e
    | Returns chain =>
        match backwards (rev (pairs r)) (wrapped (currency amountOut) chain)
                        (raw amountOut) with
        | Throws e => Throws e
        | Returns (t, inp) =>
            Returns {| route := r; tradeType := EXACT_OUTPUT;
                       inputAmount :=
                         {| currency := as_currency (input r) t;
                            raw := inp |};
                       outputAmount := amountOut |}
        end
    end.

(** [new uni.Percent(numerator, denominator)]: the fraction
    numerator/denominator. *)
Record Percent : Type := mkPercent {
  numerator   : Z;
  denominator : Z
}.

(** Modelled from the spec: the SDK's [Trade.minimumAmountOut] (not under
    src/).  Section 4.2, "minOut = counterAmount x (1 - tolerance) for
    ExactIn"; an ExactOut trade fixes its output. *)
Definition minimumAmountOut (t : Trade) (tolerance : Percent) : CurrencyAmount :=
  match tradeType t with
  | EXACT_OUTPUT => outputAmount t
  | EXACT_INPUT =>
      {| currency := currency (outputAmount t);
         raw := Z.quot (raw (outputAmount t)
                        * (denominator tolerance - numerator tolerance))
                       (denominator tolerance) |}
  end.

(** Modelled from the spec: the SDK's [Trade.maximumAmountIn] (not under
    src/).  Section 4.2, "maxIn = counterAmount x (1 + tolerance) for
    ExactOut"; an ExactIn trade fixes its input. *)
Definition maximumAmountIn (t : Trade) (tolerance : Percent) : CurrencyAmount :=
  match tradeType t with
  | EXACT_INPUT => inputAmount t
  | EXACT_OUTPUT =>
      {| currency := currency (inputAmount t);
         raw := Z.quot (raw (inputAmount t)
                        * (denominator tolerance + numerator tolerance))
                       (denominator tolerance) |}
  end.

(** The slippage-bounded limit amount of a trade: the minimum output of an
    ExactIn trade, the maximum input of an ExactOut trade. *)
Definition boundAmount (t : Trade) (tolerance : Percent) : Z :=
  match tradeType t with
  | EXACT_INPUT => raw (minimumAmountOut t tolerance)
  | EXACT_OUTPUT => raw (maximumAmountIn t tolerance)
  end.

(** *** Transaction builder (specification, section 4.3) *)

Record TradeOptions : Type := mkOptions {
  ttl             : Z;
  recipient       : string;
  allowedSlippage : Percent
}.

(** An argument of the router contract's swap methods. *)
Inductive Arg : Type :=
| Uint (n : Z)
| AddressList (l : list string)
| Address (a : string).

(** Modelled from the spec: the SDK's [SwapParameters] (not under src/).
    Section 3, "SwapCallParameters: {methodSelector, encodedArgs,
    nativeValue}". *)
Record SwapParameters : Type := mkSwapParameters {
  methodName : string;
  args       : list Arg;
  value      : Z
}.

(** Modelled from the spec: the method, arguments and native value that
    [Router.swapCallParameters] (not under src/) builds for a trade that
    has to be included by [deadline].  Section 4.3, "four variants -
    token-for-token, native-for-token, token-for-native exact-in, and the
    exact-out equivalents". *)
Definition encode (trade : Trade) (options : TradeOptions) (deadline : Z)
  : SwapParameters :=
  let etherIn := is_ether (currency (inputAmount trade)) in
  let etherOut := is_ether (currency (outputAmount trade)) in
  let to := Address (recipient options) in
  let maxIn := raw (maximumAmountIn trade (allowedSlippage options)) in
  let minOut := raw (minimumAmountOut trade (allowedSlippage options)) in
  let amountIn := Uint maxIn in
  let amountOut := Uint minOut in
  let path := AddressList (map address (path (route trade))) in
  let deadline := Uint deadline in
  match tradeType trade with
  | EXACT_INPUT =>
      if etherIn then
        {| methodName := "swapExactETHForTokens";
           args := [amountOut; path; to; deadline];
           value := maxIn |}
      else if etherOut then
        {| methodName := "swapExactTokensForETH";
           args := [amountIn; amountOut; path; to; deadline];
           value := 0 |}
      else
        {| methodName := "swapExactTokensForTokens";
           args := [amountIn; amountOut; path; to; deadline];
           value := 0 |}
  | EXACT_OUTPUT =>
      if etherIn then
        {| methodName := "swapETHForExactTokens";
           args := [amountOut; path; to; deadline];
           value := maxIn |}
      else if etherOut then
        {| methodName := "swapTokensForExactETH";
           args := [amountOut; amountIn; path; to; deadline];
           value := 0 |}
      else
        {| methodName := "swapTokensForExactTokens";
           args := [amountOut; amountIn; path; to; deadline];
           value := 0 |}
  end.

Section Router.

Context {W E : Type} (clock : W -> nat -> Z).

(** Modelled from the spec: the SDK's [Router.swapCallParameters] (not under
    src/).  Section 4.3, "Selects the router method matching (direction,
    whether the input or output asset is the native asset) ... Encodes the
    route's asset address sequence, the bound amount, the recipient, and
    the deadline as call arguments. Sets nativeValue to the trade's input
    amount only when the input asset is the chain's native asset; otherwise
    zero."  Section 4.2, "deadline = currentTime + TTL", the current time
    being read from the clock in milliseconds and the deadline counted in
    seconds. *)
Definition swapCallParameters (trade : Trade) (options : TradeOptions)
  : M W E SwapParameters :=
  let etherIn := is_ether (currency (inputAmount trade)) in
  let etherOut := is_ether (currency (outputAmount trade)) in
  _ <- lift (invariant (negb (etherIn && etherOut)) "ETHER_IN_OUT") ;;
  _ <- lift (invariant (0 <? ttl options) "TTL") ;;
  now <- Date_now clock ;;
  ret (encode trade options (now / 1000 + ttl options)).

End Router.


Definition uint_at (i : nat) (l : list Arg) : option Z :=
  match nth_error l i with
  | Some (Uint n) => Some n
  | _ => None
  end.

Definition bound_of (method : string) (l : list Arg) (native : Z) : option Z :=
  if (method =? "swapExactETHForTokens")%string then uint_at 0 l
  else if (method =? "swapETHForExactTokens")%string then Some native
  else if (method =? "swapExactTokensForETH")%string
          || (method =? "swapExactTokensForTokens")%string
          || (method =? "swapTokensForExactETH")%string
          || (method =? "swapTokensForExactTokens")%string
  then uint_at 1 l
  else None.


End uni.
Export uni.

(* ================================================================== *)
(** ** ethers: what a node hands back *)
(* ================================================================== *)

Module ethers.

(** The receipt of a transaction.  [blockNumber] is the block that holds
    the transaction; a node may answer with a receipt that has none yet.
    [status] is 1 for success and 0 for a revert. *)
Record TransactionReceipt : Type := mkReceipt {
  transactionHash : string;
  blockNumber     : option Z;
  status          : option Z
}.

(** What a contract call resolves to once the node has accepted the signed
    transaction into its pending pool: the hash, and [wait()], which
    resolves with the receipt once the transaction is included (or
    rejects). *)
Record TransactionResponse : Type := mkResponse {
  hash : string;
  wait : outcome TransactionReceipt
}.

(** A signer. *)
Record Wallet : Type := mkWallet {
  wallet_address : string
}.

(** A value a submit operation may hand to its caller: the handle of the
    broadcast transaction, or the receipt of its inclusion. *)
Inductive TxValue : Type :=
| Handle (tx : TransactionResponse)
| Receipt (r : TransactionReceipt).

End ethers.
Export ethers.

(* ================================================================== *)
(** ** src/services/uniswap.js *)
(* ================================================================== *)

Module Uniswap.

Definition GAS_LIMIT : Z := 1200000.
Definition TTL : Z := 60.

(** [process.env] *)
Record Env : Type := mkEnv {
  ETHEREUM_RPC_URL : option string;
  ETHEREUM_CHAIN   : option string;
  UNISWAP_ROUTER   : option string
}.

(** [new ethers.providers.JsonRpcProvider(url)] only stores the endpoint. *)
Record JsonRpcProvider : Type := mkProvider {
  url : option string
}.

(** The fields of a [Uniswap] object. *)
Record Instance : Type := mkInstance {
  network         : option string;
  chainID         : ChainId;
  provider        : JsonRpcProvider;
  router          : option string;
  allowedSlippage : Percent
}.

Definition set_chainID (this : Instance) (c : ChainId) : Instance :=
  {| network := network this; chainID := c; provider := provider this;
     router := router this; allowedSlippage := allowedSlippage this |}.

(** [constructor (network = 'kovan')]: [None] is an omitted argument. *)
Definition constructor (env : Env) (network_arg : option string)
  : outcome Instance :=
  let network_ := match network_arg with Some n => n | None => "kovan" end in
  let this :=
    {| network := ETHEREUM_CHAIN env;
       chainID := KOVAN;
       provider := {| url := ETHEREUM_RPC_URL env |};
       router := UNISWAP_ROUTER env;
       allowedSlippage := {| numerator := 0; denominator := 100 |} |} in
  if (network_ =? "kovan")%string then Returns (set_chainID this KOVAN)
  else if (network_ =? "mainnet")%string then Returns (set_chainID this MAINNET)
  else Throws (Error ("Invalid network " ++ network_)).

(** A call of a method of the router contract, as handed to the signer. *)
Record ContractCall : Type := mkCall {
  call_contract : string;
  call_signer   : Wallet;
  call_method   : string;
  call_args     : list Arg;
  call_gasPrice : Z;
  call_gasLimit : Z;
  call_value    : Z
}.

(** The collaborators of the service: the clock, the chain behind the
    SDK's fetcher, and the node that takes signed transactions. *)
Record World : Type := mkWorld {
  clock    : nat -> Z;
  decimals_on_chain : ChainId -> string -> outcome Z;
  reserves_on_chain : Token -> Token -> outcome (Z * Z);
  send     : ContractCall -> outcome TransactionResponse
}.

(** The journal of a request. *)
Inductive Event : Type :=
| FetchTokenData (c : ChainId) (a : string)
| FetchPairData (a b : Token)
| ConsoleLog (s : string)
| DebugLog (s : string)
| SendTransaction (c : ContractCall)
| WaitForReceipt (h : string).

Definition Promise : Type -> Type := M World Event.

(** Modelled from the spec: the SDK's [Fetcher.fetchTokenData] (not under
    src/).  Section 2, "Asset Directory (leaf): resolves a symbol/address
    to chain-qualified asset metadata (address, decimal precision)". *)
Definition fetchTokenData (c : ChainId) (a : string) : Promise Token :=
  d <- ask (FetchTokenData c a) (fun w => decimals_on_chain w c a) ;;
  ret {| chainId := c; address := a; decimals := d; symbol := None |}.

(** Modelled from the spec: the SDK's [Fetcher.fetchPairData] (not under
    src/).  Section 2, "Pair Data Fetcher: retrieves on-chain reserve state
    for a given asset pair; fails when no liquidity pool exists for that
    pair."  No pool joins assets of two chains, or an asset with itself. *)
Definition fetchPairData (a b : Token) : Promise Pair :=
  _ <- emit (FetchPairData a b) ;;
  _ <- lift (invariant (chain_eqb (chainId a) (chainId b)) "CHAIN_ID") ;;
  _ <- lift (invariant (negb (address a =? address b)%string) "ADDRESSES") ;;
  r <- lift_world (fun w => reserves_on_chain w a b) ;;
  ret {| assetA := a; assetB := b; reserveA := fst r; reserveB := snd r |}.

(** [fetch_route(tokenIn, tokenOut)] *)
Definition fetch_route (this : Instance) (tokenIn tokenOut : string)
  : Promise Route :=
  tIn <- fetchTokenData (chainID this) tokenIn ;;
  tOut <- fetchTokenData (chainID this) tokenOut ;;
  try_catch
    (pair <- fetchPairData tIn tOut ;;
     lift (new_Route [pair] (TOKEN tIn) (TOKEN tOut)))
    (fun err =>
     _ <- emit (ConsoleLog "Trying alternative/indirect route.") ;;
     pairOne <- fetchPairData tIn (WETH (chainID this)) ;;
     pairTwo <- fetchPairData tOut (WETH (chainID this)) ;;
     lift (new_Route [pairOne; pairTwo] (TOKEN tIn) (TOKEN tOut))).

(** [new ethers.Contract(address, abi, wallet)]: refused without an
    address. *)
Definition new_Contract (addr : option string) : outcome string :=
  match addr with
  | Some a => Returns a
  | None =>
      Throws {| name := "Error";
                message := "invalid contract address or ENS name";
                reason := Some "invalid contract address or ENS name" |}
  end.

(** The call made by
    [contract[result.methodName](...result.args,
       { gasPrice: gasPrice * 1e9, gasLimit: GAS_LIMIT, value: result.value })],
    for a gas price in whole gwei. *)
Definition router_call (contract : string) (wallet : Wallet)
  (result : SwapParameters) (gasPrice : Z) : ContractCall :=
  {| call_contract := contract;
     call_signer := wallet;
     call_method := methodName result;
     call_args := args result;
     call_gasPrice := gasPrice * 10 ^ 9;
     call_gasLimit := GAS_LIMIT;
     call_value := value result |}.

(** The lines both swaps end with: connect the router contract to the
    wallet, call the method named by the SDK, log the hash, wait for the
    transaction and return what the wait gives. *)
Definition call_router (this : Instance) (wallet : Wallet)
  (result : SwapParameters) (gasPrice : Z) : Promise TxValue :=
  contract <- lift (new_Contract (router this)) ;;
  let call := router_call contract wallet result gasPrice in
  tx <- ask (SendTransaction call) (fun w => send w call) ;;
  _ <- emit (DebugLog ("Tx Hash: " ++ hash tx)) ;;
  txObj <- ask (WaitForReceipt (hash tx)) (fun _ => wait tx) ;;
  ret (Receipt txObj).

(** The options both swaps hand to the SDK:
    [{ ttl: TTL, recipient: wallet.address,
       allowedSlippage: this.allowedSlippage }]. *)
Definition options (this : Instance) (wallet : Wallet) : TradeOptions :=
  {| ttl := TTL; recipient := wallet_address wallet;
     uni.allowedSlippage := allowedSlippage this |}.

(** [swapExactIn(wallet, route, tokenAddress, amountIn, gasPrice)] *)
Definition swapExactIn (this : Instance) (wallet : Wallet) (route : Route)
  (tokenAddress : string) (amountIn gasPrice : Z) : Promise TxValue :=
  tIn <- fetchTokenData (chainID this) tokenAddress ;;
  tokenAmountIn <- lift (new_TokenAmount tIn amountIn) ;;
  trade <- lift (exactIn route tokenAmountIn) ;;
  result <- swapCallParameters clock trade (options this wallet) ;;
  call_router this wallet result gasPrice.

(** [swapExactOut(wallet, route, tokenAddress, amountOut, gasPrice)] *)
Definition swapExactOut (this : Instance) (wallet : Wallet) (route : Route)
  (tokenAddress : string) (amountOut gasPrice : Z) : Promise TxValue :=
  tOut <- fetchTokenData (chainID this) tokenAddress ;;
  tokenAmountOut <- lift (new_TokenAmount tOut amountOut) ;;
  trade <- lift (exactOut route tokenAmountOut) ;;
  result <- swapCallParameters clock trade (options this wallet) ;;
  call_router this wallet result gasPrice.

(** The calls a request handed to the node. *)
Fixpoint sent_calls (trace : list Event) : list ContractCall :=
  match trace with
  | [] => []
  | SendTransaction c :: rest => c :: sent_calls rest
  | _ :: rest => sent_calls rest
  end.

(** How many pairs a request asked the fetcher for. *)
Definition pair_fetches (trace : list Event) : nat :=
  List.length
    (filter (fun e => match e with FetchPairData _ _ => true | _ => false end)
            trace).

End Uniswap.

(* ================================================================== *)
(** ** The Ethereum service (class [Ethereum]) *)
(* ================================================================== *)

Module Ethereum.

(** An entry of the token list. *)
Record TokenInfo : Type := mkTokenInfo {
  symbol   : string;
  address  : string;
  decimals : Z
}.

(** [erc20TokenList]: starts as the empty object, whose [tokens] property
    is undefined, and holds the parsed list once it is loaded. *)
Record TokenList : Type := mkTokenList {
  tokens : option (list TokenInfo)
}.

Record Instance : Type := mkInstance {
  network           : string;
  erc20TokenListURL : option string;
  erc20TokenList    : TokenList
}.

(** An ERC-20 [approve] and a WETH [deposit], as handed to the signer. *)
Record ApproveCall : Type := mkApprove {
  approve_token    : string;
  approve_signer   : Wallet;
  approve_spender  : string;
  approve_amount   : Z;
  approve_gasPrice : Z;
  approve_gasLimit : Z
}.

Record DepositCall : Type := mkDeposit {
  deposit_token    : string;
  deposit_signer   : Wallet;
  deposit_value    : Z;
  deposit_gasPrice : Z;
  deposit_gasLimit : Z
}.

(** The collaborators: the configured gas limit, the wallet's view of the
    chain and the token contracts.  [new_Contract] is
    [new ethers.Contract(address, abi, signerOrProvider)], which may refuse
    the address. *)
Record World : Type := mkWorld {
  ETH_APPROVAL_GAS_LIMIT : option Z;
  new_Contract       : string -> outcome unit;
  wallet_getBalance  : Wallet -> outcome Z;
  contract_balanceOf : string -> string -> outcome Z;
  contract_allowance : string -> string -> string -> outcome Z;
  contract_approve   : ApproveCall -> outcome TransactionResponse;
  contract_deposit   : DepositCall -> outcome TransactionResponse
}.

Inductive Event : Type :=
| GetBalance (w : Wallet)
| BalanceOf (token owner : string)
| Allowance (token owner spender : string)
| Approve (c : ApproveCall)
| Deposit (c : DepositCall)
| LoggerError (e : JsError).

Definition Promise : Type -> Type := M World Event.

(** What the operations resolve to: a big number, a transaction, or a
    string. *)
Inductive Answer : Type :=
| Number (n : Z)
| Transaction (tx : TransactionResponse)
| Text (s : string).

(** [globalConfig.getConfig('ETH_APPROVAL_GAS_LIMIT') || 50000] *)
Definition APPROVAL_GAS_LIMIT (w : World) : Z :=
  match ETH_APPROVAL_GAS_LIMIT w with
  | Some n => if n =? 0 then 50000 else n
  | None => 50000
  end.

(** The handler every operation ends with:
    [logger.error(err); err.reason ? (reason = err.reason) : (reason = dflt);
     return reason]. *)
Definition return_reason (dflt : string) (err : JsError) : Promise Answer :=
  _ <- emit (LoggerError err) ;;
  ret (Text (or_string (reason err) dflt)).

(** [Math.pow(10, decimals).toString()] read back as a big number: a plain
    numeral up to twenty decimals, otherwise not a numeral [BigNumber]
    accepts. *)
Definition pow10_divisor (decimals : Z) : outcome Z :=
  if (0 <=? decimals) && (decimals <=? 20) then Returns (10 ^ decimals)
  else Throws {| name := "Error"; message := "invalid BigNumber string";
                 reason := Some "invalid BigNumber string" |}.

(** [getETHBalance(wallet)] *)
Definition getETHBalance (wallet : Wallet) : Promise Answer :=
  try_catch
    (balance <- ask (GetBalance wallet) (fun w => wallet_getBalance w wallet) ;;
     ret (Number (Z.quot balance (10 ^ 18))))
    (return_reason "error ETH balance lookup").

(** [getERC20Balance(wallet, tokenAddress, decimals = 18)] *)
Definition getERC20Balance (wallet : Wallet) (tokenAddress : string)
  (decimals : option Z) : Promise Answer :=
  let decimals := match decimals with Some d => d | None => 18 end in
  _ <- lift_world (fun w => new_Contract w tokenAddress) ;;
  try_catch
    (balance <- ask (BalanceOf tokenAddress (wallet_address wallet))
                  (fun w => contract_balanceOf w tokenAddress
                              (wallet_address wallet)) ;;
     divisor <- lift (pow10_divisor decimals) ;;
     ret (Number (Z.quot balance divisor)))
    (return_reason "error balance lookup").

(** [getERC20Allowance(wallet, spender, tokenAddress, decimals = 18)] *)
Definition getERC20Allowance (wallet : Wallet) (spender tokenAddress : string)
  (decimals : option Z) : Promise Answer :=
  let decimals := match decimals with Some d => d | None => 18 end in
  _ <- lift_world (fun w => new_Contract w tokenAddress) ;;
  try_catch
    (allowance <- ask (Allowance tokenAddress (wallet_address wallet) spender)
                    (fun w => contract_allowance w tokenAddress
                                (wallet_address wallet) spender) ;;
     divisor <- lift (pow10_divisor decimals) ;;
     ret (Number (Z.quot allowance divisor)))
    (return_reason "error allowance lookup").

(** [approveERC20(wallet, spender, tokenAddress, amount, gasPrice)] *)
Definition approveERC20 (wallet : Wallet) (spender tokenAddress : string)
  (amount gasPrice : Z) : Promise Answer :=
  try_catch
    (approvalGasLimit <- lift_world (fun w => Returns (APPROVAL_GAS_LIMIT w)) ;;
     _ <- lift_world (fun w => new_Contract w tokenAddress) ;;
     let call :=
       {| approve_token := tokenAddress; approve_signer := wallet;
          approve_spender := spender; approve_amount := amount;
          approve_gasPrice := gasPrice * 10 ^ 9;
          approve_gasLimit := approvalGasLimit |} in
     tx <- ask (Approve call) (fun w => contract_approve w call) ;;
     ret (Transaction tx))
    (return_reason "error approval").

(** [deposit(wallet, tokenAddress, amount, gasPrice)] *)
Definition deposit (wallet : Wallet) (tokenAddress : string)
  (amount gasPrice : Z) : Promise Answer :=
  try_catch
    (gasLimit <- lift_world (fun w => Returns (APPROVAL_GAS_LIMIT w)) ;;
     _ <- lift_world (fun w => new_Contract w tokenAddress) ;;
     let call :=
       {| deposit_token := tokenAddress; deposit_signer := wallet;
          deposit_value := amount; deposit_gasPrice := gasPrice * 10 ^ 9;
          deposit_gasLimit := gasLimit |} in
     tx <- ask (Deposit call) (fun w => contract_deposit w call) ;;
     ret (Transaction tx))
    (return_reason "error deposit").

(** [this.erc20TokenList.tokens.filter(pred)[0]]: reading [filter] off an
    undefined [tokens] is a [TypeError]; the first element of an empty
    array is [undefined], here [None]. *)
Definition first_match (this : Instance) (pred : TokenInfo -> bool)
  : outcome (option TokenInfo) :=
  match tokens (erc20TokenList this) with
  | None =>
      Throws {| name := "TypeError";
                message := "Cannot read property 'filter' of undefined";
                reason := None |}
  | Some l => Returns (hd_error (filter pred l))
  end.

(** [getERC20TokenAddresses(tokenSymbol)] *)
Definition getERC20TokenAddresses (this : Instance) (tokenSymbol : string)
  : outcome (option TokenInfo) :=
  first_match this
    (fun obj => (symbol obj =? toUpperCase tokenSymbol)%string).

(** [getERC20TokenByAddress(tokenAddress)] *)
Definition getERC20TokenByAddress (this : Instance) (tokenAddress : string)
  : outcome (option TokenInfo) :=
  first_match this
    (fun obj =>
       (toUpperCase (address obj) =? toUpperCase tokenAddress)%string).

(** An entry of the list whose symbol and address are ASCII strings. *)
Definition ascii_token (t : TokenInfo) : bool :=
  is_ascii (symbol t) && is_ascii (address t).

End Ethereum.

(* ================================================================== *)
(** ** The Ethereum router: POST /approve and POST /poll *)
(* ================================================================== *)

Module Routes.

(** [TokenERC20Info], declared in '../services/ethereum'. *)
Record TokenERC20Info : Type := mkInfo {
  symbol   : string;
  address  : string;
  decimals : Z
}.

(** What [approval] may hold: whatever the service's [approveERC20]
    resolved to, or the error it threw. *)
Inductive Approval : Type :=
| Approved (tx : TransactionResponse)
| Refused (s : string)
| Thrown (e : JsError).

(** [req.body]: every field may be missing; the amount, when present, is a
    decimal string and the gas price a number. *)
Record Body : Type := mkBody {
  connector  : option string;
  privateKey : option string;
  token      : option string;
  gasPrice   : option Z;
  amount     : option string;
  txHash     : option string
}.

(** The [receipt] field of a poll response: the receipt, or [{}]. *)
Inductive ReceiptField : Type :=
| EmptyObject
| Full (r : TransactionReceipt).

Record ApproveResponse : Type := mkApproveResponse {
  a_network      : string;
  a_timestamp    : Z;
  a_latency      : Q;
  a_tokenAddress : string;
  a_spender      : option string;
  a_amount       : string;
  a_approval     : Approval
}.

Record PollResponse : Type := mkPollResponse {
  p_network   : string;
  p_timestamp : Z;
  p_latency   : Q;
  p_txHash    : option string;
  p_confirmed : bool;
  p_receipt   : ReceiptField
}.

Inductive Payload : Type :=
| Plain (s : string)
| ApproveJson (r : ApproveResponse)
| PollJson (r : PollResponse).

(** The collaborators of the router.  [EthereumService], the configuration
    and the fee service live in modules that are not among the sources;
    their operations are taken as they are called.  [parseUnits] is
    [ethers.utils.parseUnits]. *)
Record World : Type := mkWorld {
  clock        : nat -> Z;
  networkName  : string;
  spenders     : option string -> option string;
  ethGasPrice  : Z;
  getWallet    : option string -> outcome Wallet;
  getERC20TokenAddress : option string -> outcome (option TokenERC20Info);
  approveERC20 : Wallet -> option string -> string -> Z -> Z -> outcome Approval;
  getTransactionReceipt : option string -> outcome (option TransactionReceipt);
  parseUnits   : string -> Z -> outcome Z;
  bigNumberWithDecimalToStr : Z -> Z -> string
}.

Inductive Event : Type :=
| GetWallet (key : option string)
| GetERC20TokenAddress (sym : option string)
| ApproveERC20 (wallet : Wallet) (spender : option string)
    (tokenAddress : string) (amount gasPrice : Z)
| GetTransactionReceipt (h : option string)
| LoggerError (e : JsError)
| Respond (status : Z) (payload : Payload).

Definition Handler : Type -> Type := M World Event.

(** [latency(startTime, endTime)]: seconds, as a fraction. *)
Definition latency (startTime endTime : Z) : Q :=
  Qmake (endTime - startTime) 1000.

Definition is_response (e : Event) : bool :=
  match e with Respond _ _ => true | _ => false end.

(** [res.status(code).send(body)] and [res.status(code).json(body)]: a
    response can be sent once; a second attempt throws. *)
Definition respond (status : Z) (payload : Payload) : Handler unit :=
  fun w s =>
    if existsb is_response (journal s)
    then (Throws {| name := "Error";
                    message := "Cannot set headers after they are sent to the client";
                    reason := None |}, s)
    else emit (Respond status payload) w s.

(** A value interpolated into a template literal. *)
Definition interpolate (v : option string) : string :=
  match v with Some s => s | None => "undefined" end.

Definition dquote : string := String "034"%char EmptyString.

(** [req.body.gasPrice || fees.ethGasPrice] *)
Definition gasPrice_or_default (w : World) (req : Body) : Z :=
  match gasPrice req with
  | Some g => if g =? 0 then ethGasPrice w else g
  | None => ethGasPrice w
  end.

(** The amount to approve:
    [let amount = ethers.constants.MaxUint256;
     if (req.body.amount) amount = ethers.utils.parseUnits(req.body.amount,
                                     tokenContractInfo.decimals)] *)
Definition approval_amount (req : Body) (info : TokenERC20Info) : Handler Z :=
  match amount req with
  | Some a =>
      if (a =? EmptyString)%string then ret MaxUint256
      else lift_world (fun w => parseUnits w a (decimals info))
  | None => ret MaxUint256
  end.

(** [router.post('/approve', ...)] *)
Definition approve (req : Body) : Handler unit :=
  initTime <- Date_now clock ;;
  spender <- lift_world (fun w => Returns (spenders w (connector req))) ;;
  _ <- (if negb (truthy_string spender)
        then respond 500 (Plain "Wrong connector") else ret tt) ;;
  try_catch
    (wallet <- ask (GetWallet (privateKey req))
                 (fun w => getWallet w (privateKey req)) ;;
     tokenContractInfo <- ask (GetERC20TokenAddress (token req))
                            (fun w => getERC20TokenAddress w (token req)) ;;
     match tokenContractInfo with
     | None =>
         respond 500
           (Plain ("Token " ++ dquote ++ interpolate (token req) ++ dquote
                   ++ " is not supported"))
     | Some info =>
         let tokenAddress := address info in
         gasPrice <- lift_world (fun w => Returns (gasPrice_or_default w req)) ;;
         amount <- approval_amount req info ;;
         approval <-
           try_catch
             (ask (ApproveERC20 wallet spender tokenAddress amount gasPrice)
                  (fun w => approveERC20 w wallet spender tokenAddress
                              amount gasPrice))
             (fun err => ret (Thrown err)) ;;
         network <- lift_world (fun w => Returns (networkName w)) ;;
         endTime <- Date_now clock ;;
         shown <- lift_world (fun w =>
                    Returns (bigNumberWithDecimalToStr w amount (decimals info))) ;;
         respond 200
           (ApproveJson
              {| a_network := network;
                 a_timestamp := initTime;
                 a_latency := latency initTime endTime;
                 a_tokenAddress := tokenAddress;
                 a_spender := spender;
                 a_amount := shown;
                 a_approval := approval |})
     end)
    (fun err =>
     _ <- emit (LoggerError err) ;;
     respond 500 (Plain "Error getting wallet")).

(** [receipt && receipt.blockNumber ? true : false] *)
Definition is_confirmed (receipt : option TransactionReceipt) : bool :=
  match receipt with
  | Some r => truthy_number (blockNumber r)
  | None => false
  end.

(** [router.post('/poll', ...)] *)
Definition poll (req : Body) : Handler unit :=
  initTime <- Date_now clock ;;
  receipt <- ask (GetTransactionReceipt (txHash req))
               (fun w => getTransactionReceipt w (txHash req)) ;;
  let confirmed := is_confirmed receipt in
  network <- lift_world (fun w => Returns (networkName w)) ;;
  endTime <- Date_now clock ;;
  respond 200
    (PollJson
       {| p_network := network;
          p_timestamp := initTime;
          p_latency := latency initTime endTime;
          p_txHash := txHash req;
          p_confirmed := confirmed;
          p_receipt := match receipt with
                       | Some r => if confirmed then Full r else EmptyObject
                       | None => EmptyObject
                       end |}).

(** The response a request ended with. *)
Definition response_of (trace : list Event) : option (Z * Payload) :=
  match filter is_response trace with
  | Respond status payload :: _ => Some (status, payload)
  | _ => None
  end.

Definition poll_response (w : World) (req : Body) : option PollResponse :=
  match response_of (trace_of (poll req) w) with
  | Some (_, PollJson r) => Some r
  | _ => None
  end.

(** The amounts the handler asked the service to approve. *)
Fixpoint approved_amounts (trace : list Event) : list Z :=
  match trace with
  | [] => []
  | ApproveERC20 _ _ _ amount _ :: rest => amount :: approved_amounts rest
  | _ :: rest => approved_amounts rest
  end.

End Routes.

(* ================================================================== *)
(** ** The Ethereum service: the gas price and the token list *)
(* ================================================================== *)

Module EthereumState.

(** What the field [erc20TokenList] may hold: it starts as the empty
    object and is assigned parsed JSON, or the body of a response, which
    is parsed JSON or, when it does not parse, the text itself.  [Object]
    stands for an object or an array, with what its [tokens] property
    holds. *)
Inductive ListValue : Type :=
| Undefined
| Null
| Boolean (b : bool)
| Number (n : Q)
| Text (s : string)
| Object (l : Ethereum.TokenList).

(** The fields of an [Ethereum] object that the loader reads and writes.
    [erc20TokenListURL] is [None] when the configuration has no (or a
    null) ETHEREUM_TOKEN_LIST_URL. *)
Record Instance : Type := mkInstance {
  network           : string;
  erc20TokenListURL : option string;
  erc20TokenList    : ListValue
}.

Definition set_erc20TokenList (this : Instance) (v : ListValue) : Instance :=
  {| network := network this;
     erc20TokenListURL := erc20TokenListURL this;
     erc20TokenList := v |}.

(** The object the look-ups of [Ethereum] work on, when the list is one. *)
Definition as_service (this : Instance) : option Ethereum.Instance :=
  match erc20TokenList this with
  | Object l =>
      Some {| Ethereum.network := network this;
              Ethereum.erc20TokenListURL := erc20TokenListURL this;
              Ethereum.erc20TokenList := l |}
  | _ => None
  end.

(** An axios response. *)
Record AxiosResponse : Type := mkResponse {
  status : Z;
  data   : ListValue
}.

(** The collaborators.  [provider_getGasPrice] is the call
    [this.provider.getGasPrice()]: it throws at once, or returns a promise
    that later settles with the price or with an error.
    [read_token_file] is [JSON.parse(fs.readFileSync(path))].
    [http_get] is the request axios makes: the reply of the server,
    whatever its status, or the error of a request that got no reply. *)
Record World : Type := mkWorld {
  provider_getGasPrice : outcome (outcome Z);
  read_token_file      : string -> outcome ListValue;
  http_get             : option string -> outcome AxiosResponse
}.

(** The error axios rejects a reply with; it has no [reason]. *)
Definition request_failed (status : Z) : JsError :=
  {| name := "Error";
     message := "Request failed with status code "
                ++ NilZero.string_of_int (Z.to_int status);
     reason := None |}.

(** [axios.get(url)] with the default [validateStatus] of axios: the
    promise resolves with a reply whose status is from 200 to 299 and
    rejects with any other. *)
Definition axios_get (w : World) (url : option string)
  : outcome AxiosResponse :=
  match http_get w url with
  | Returns response =>
      if (200 <=? status response) && (status response <? 300)
      then Returns response
      else Throws (request_failed (status response))
  | Throws e => Throws e
  end.

Inductive Event : Type :=
| GetGasPrice
| ReadFile (path : string)
| AxiosGet (source : option string)
| LoggerError (e : JsError)
| LoggerErrorMessage (title message : string)
| ConsoleLog (args : list (option string))
| ConsoleLogError (e : JsError).

Definition Promise : Type -> Type := M World Event.

(** [getCurrentGasPrice()]: the promise of the provider is given a
    continuation but is neither awaited nor returned, so the [try] block
    ends without a value; only a call that throws at once reaches the
    [catch]. *)
Definition getCurrentGasPrice : Promise (option string) :=
  try_catch
    (_ <- ask GetGasPrice
            (fun w => match provider_getGasPrice w with
                      | Returns _ => Returns tt
                      | Throws e => Throws e
                      end) ;;
     ret None)
    (fun err =>
     _ <- emit (LoggerError err) ;;
     ret (Some (or_string (reason err) "error gas lookup"))).

(** [v === {}]: no value is identical to the object a literal creates. *)
Definition is_fresh_object (v : ListValue) : bool := false.

(** [this.erc20TokenList === undefined || this.erc20TokenList === null
     || this.erc20TokenList === {}] *)
Definition list_is_missing (v : ListValue) : bool :=
  match v with
  | Undefined => true
  | Null => true
  | _ => is_fresh_object v
  end.

(** Truthiness of [response.data]: [undefined], [null], [false], 0 and
    the empty string are falsy, every other value is truthy. *)
Definition truthy_data (v : ListValue) : bool :=
  match v with
  | Undefined => false
  | Null => false
  | Boolean b => b
  | Number n => negb (Qeq_bool n 0)
  | Text s => negb (s =? EmptyString)%string
  | Object _ => true
  end.

Definition kovan_token_file : string := "src/static/erc20_tokens_kovan.json".

(** The [try] block of [getERC20TokenList()]: the object as it leaves the
    block. *)
Definition load_token_list (this : Instance) : Promise Instance :=
  loaded <-
    (if (network this =? "kovan")%string then
       let tokenListSource := kovan_token_file in
       parsed <- ask (ReadFile tokenListSource)
                   (fun w => read_token_file w tokenListSource) ;;
       ret (set_erc20TokenList this parsed, Some tokenListSource)
     else if (network this =? "mainnet")%string then
       let tokenListSource := erc20TokenListURL this in
       _ <- (match tokenListSource with
             | None =>
                 _ <- emit (LoggerErrorMessage "ERC20 Token List Error"
                              "Token List source not found") ;;
                 emit (ConsoleLog [Some "eth - Error: ";
                                   Some "Token List source not found"])
             | Some _ => ret tt
             end) ;;
       this' <-
         (if list_is_missing (erc20TokenList this) then
            response <- ask (AxiosGet tokenListSource)
                          (fun w => axios_get w tokenListSource) ;;
            if (status response =? 200) && truthy_data (data response)
            then ret (set_erc20TokenList this (data response))
            else ret this
          else ret this) ;;
       ret (this', tokenListSource)
     else throw (Error ("Invalid network " ++ network this))) ;;
  _ <- emit (ConsoleLog [Some "get ERC20 Token List"; Some (network this);
                         Some "source"; snd loaded]) ;;
  ret (fst loaded).

(** [getERC20TokenList()]: the object afterwards, and what the call
    resolves to ([None] is [undefined]). *)
Definition getERC20TokenList (this : Instance)
  : Promise (Instance * option string) :=
  try_catch
    (this' <- load_token_list this ;;
     ret (this', None))
    (fun err =>
     _ <- emit (ConsoleLogError err) ;;
     _ <- emit (LoggerError err) ;;
     ret (this, Some (or_string (reason err) "error ERC 20 Token List"))).

End EthereumState.

(* ================================================================== *)
(** ** The Ethereum router: POST /balances and POST /allowances *)
(* ================================================================== *)

Module Listing.

(** A JavaScript object used as a map from token symbols to values: its
    keys are enumerated in the order in which they were first assigned,
    and assigning to a key it has keeps the key's place.  (Keys that are
    array indices or __proto__ behave differently; token symbols are
    neither.) *)
Definition object (V : Type) : Type := list (string * V).

Fixpoint set {V : Type} (key : string) (v : V) (o : object V) : object V :=
  match o with
  | [] => [(key, v)]
  | (k, v') :: rest =>
      if (k =? key)%string then (key, v) :: rest
      else (k, v') :: set key v rest
  end.

Fixpoint get {V : Type} (o : object V) (key : string) : option V :=
  match o with
  | [] => None
  | (k, v) :: rest => if (k =? key)%string then Some v else get rest key
  end.

(** [req.body] of both requests.  [tokenList] is what
    [JSON.parse(req.body.tokenList)] and the iteration over it give: the
    symbols in order, or the error thrown. *)
Record Body : Type := mkBody {
  connector  : option string;
  privateKey : option string;
  tokenList  : outcome (list string)
}.

Record AllowancesResponse : Type := mkAllowancesResponse {
  al_network   : string;
  al_timestamp : Z;
  al_latency   : Q;
  al_spender   : option string;
  al_approvals : object string
}.

Record BalancesResponse : Type := mkBalancesResponse {
  ba_network   : string;
  ba_timestamp : Z;
  ba_latency   : Q;
  ba_balances  : object string
}.

Inductive Payload : Type :=
| Plain (s : string)
| Failure (e : JsError)
| AllowancesJson (r : AllowancesResponse)
| BalancesJson (r : BalancesResponse).

(** The collaborators.  The operations of [EthereumService] are not among
    the sources and are taken as they are called; balances and allowances
    come back as strings. *)
Record World : Type := mkWorld {
  clock        : nat -> Z;
  networkName  : string;
  spenders     : option string -> option string;
  getWallet    : option string -> outcome Wallet;
  getERC20TokenAddress : string -> outcome (option Routes.TokenERC20Info);
  getETHBalance : Wallet -> outcome string;
  getERC20Balance : Wallet -> string -> Z -> outcome string;
  getERC20Allowance : Wallet -> option string -> string -> Z -> outcome string
}.

Inductive Event : Type :=
| GetWallet (key : option string)
| GetERC20TokenAddress (sym : string)
| GetETHBalance (wallet : Wallet)
| GetERC20Balance (wallet : Wallet) (tokenAddress : string) (decimals : Z)
| GetERC20Allowance (wallet : Wallet) (spender : option string)
    (tokenAddress : string) (decimals : Z)
| LoggerError (e : JsError)
| Respond (status : Z) (payload : Payload).

Definition Handler : Type -> Type := M World Event.

Definition is_response (e : Event) : bool :=
  match e with Respond _ _ => true | _ => false end.

(** [res.status(code).send(body)] and [res.status(code).json(body)]: a
    response can be sent once; a second attempt throws. *)
Definition respond (status : Z) (payload : Payload) : Handler unit :=
  fun w s =>
    if existsb is_response (journal s)
    then (Throws {| name := "Error";
                    message := "Cannot set headers after they are sent to the client";
                    reason := None |}, s)
    else emit (Respond status payload) w s.

(** The loop both handlers share:
    [for (const symbol of ...) {
       const tokenContractInfo = ethereumService.getERC20TokenAddress(symbol);
       if (!tokenContractInfo) continue;
       tokenContractList[symbol] = tokenContractInfo; }] *)
Fixpoint collect (symbols : list string)
  (tokenContractList : object Routes.TokenERC20Info)
  : Handler (object Routes.TokenERC20Info) :=
  match symbols with
  | [] => ret tokenContractList
  | symbol :: rest =>
      tokenContractInfo <- ask (GetERC20TokenAddress symbol)
                             (fun w => getERC20TokenAddress w symbol) ;;
      match tokenContractInfo with
      | None => collect rest tokenContractList
      | Some info => collect rest (set symbol info tokenContractList)
      end
  end.

(** [Object.keys(tokenContractList).map(async (symbol) => ...)]: every
    callback runs up to its [await], so all the calls are made, in the
    order of the keys, before any of them settles.  The result pairs each
    key with how its call settles. *)
Fixpoint start_all (call : string -> Routes.TokenERC20Info -> Event)
  (answer : World -> string -> Routes.TokenERC20Info -> outcome string)
  (tokenContractList : object Routes.TokenERC20Info)
  : Handler (object (outcome string)) :=
  match tokenContractList with
  | [] => ret []
  | (symbol, info) :: rest =>
      settles <- (fun w s => (Returns (answer w symbol info),
                              {| journal := journal s ++ [call symbol info];
                                 ticks := ticks s |})) ;;
      others <- start_all call answer rest ;;
      ret ((symbol, settles) :: others)
  end.

(** The callbacks of /allowances settle, in the order in which they were
    started:
    [try { approvals[symbol] = await ...getERC20Allowance(...) }
     catch (err) { logger.error(err); approvals[symbol] = 'invalid ENS name' }] *)
Fixpoint settle_allowances (settled : object (outcome string))
  (approvals : object string) : Handler (object string) :=
  match settled with
  | [] => ret approvals
  | (symbol, Returns allowance) :: rest =>
      settle_allowances rest (set symbol allowance approvals)
  | (symbol, Throws err) :: rest =>
      _ <- emit (LoggerError err) ;;
      settle_allowances rest (set symbol "invalid ENS name" approvals)
  end.

(** The callbacks of /balances settle, in the order in which they were
    started: [balances[symbol] = await ...getERC20Balance(...)].  The first
    one that fails rejects the [Promise.all] the handler awaits. *)
Fixpoint settle_balances (settled : object (outcome string))
  (balances : object string) : Handler (object string) :=
  match settled with
  | [] => ret balances
  | (symbol, Returns balance) :: rest =>
      settle_balances rest (set symbol balance balances)
  | (symbol, Throws err) :: rest => throw err
  end.

(** [router.post('/allowances', ...)] *)
Definition allowances (req : Body) : Handler unit :=
  initTime <- Date_now clock ;;
  spender <- lift_world (fun w => Returns (spenders w (connector req))) ;;
  _ <- (if negb (truthy_string spender)
        then respond 500 (Plain "Wrong connector") else ret tt) ;;
  try_catch
    (wallet <- ask (GetWallet (privateKey req))
                 (fun w => getWallet w (privateKey req)) ;;
     symbols <- lift (tokenList req) ;;
     tokenContractList <- collect symbols [] ;;
     settled <- start_all
                  (fun _ info =>
                     GetERC20Allowance wallet spender (Routes.address info)
                       (Routes.decimals info))
                  (fun w _ info =>
                     getERC20Allowance w wallet spender (Routes.address info)
                       (Routes.decimals info))
                  tokenContractList ;;
     approvals <- settle_allowances settled [] ;;
     network <- lift_world (fun w => Returns (networkName w)) ;;
     endTime <- Date_now clock ;;
     respond 200
       (AllowancesJson
          {| al_network := network;
             al_timestamp := initTime;
             al_latency := Routes.latency initTime endTime;
             al_spender := spender;
             al_approvals := approvals |}))
    (fun err =>
     _ <- emit (LoggerError err) ;;
     respond 500 (Plain "Error getting wallet")).

(** [router.post('/balances', ...)] *)
Definition balances (req : Body) : Handler unit :=
  initTime <- Date_now clock ;;
  try_catch
    (let key := Some (or_string (privateKey req) EmptyString) in
     wallet <- ask (GetWallet key) (fun w => getWallet w key) ;;
     symbols <- lift (tokenList req) ;;
     tokenContractList <- collect symbols [] ;;
     eth <- ask (GetETHBalance wallet) (fun w => getETHBalance w wallet) ;;
     settled <- start_all
                  (fun _ info =>
                     GetERC20Balance wallet (Routes.address info)
                       (Routes.decimals info))
                  (fun w _ info =>
                     getERC20Balance w wallet (Routes.address info)
                       (Routes.decimals info))
                  tokenContractList ;;
     balances <- settle_balances settled (set "ETH" eth []) ;;
     network <- lift_world (fun w => Returns (networkName w)) ;;
     endTime <- Date_now clock ;;
     respond 200
       (BalancesJson
          {| ba_network := network;
             ba_timestamp := initTime;
             ba_latency := Routes.latency initTime endTime;
             ba_balances := balances |}))
    (fun err =>
     _ <- emit (LoggerError err) ;;
     respond 500 (Failure err)).

(** The response a request ended with. *)
Definition response_of (trace : list Event) : option (Z * Payload) :=
  match filter is_response trace with
  | Respond status payload :: _ => Some (status, payload)
  | _ => None
  end.

(** Abbreviations for stating what the handlers do. *)

(** What the service knows about a symbol. *)
Definition known (w : World) (sym : string)
  : option Routes.TokenERC20Info :=
  match getERC20TokenAddress w sym with
  | Returns info => info
  | Throws _ => None
  end.

Definition collected (w : World) (symbols : list string)
  (acc : object Routes.TokenERC20Info)
  : object Routes.TokenERC20Info :=
  fold_left (fun o sym => match known w sym with
                          | Some info => set sym info o
                          | None => o
                          end) symbols acc.

(** The value a settled call leaves in the response. *)
Definition value_or (dflt : string) (r : outcome string) : string :=
  match r with
  | Returns v => v
  | Throws _ => dflt
  end.

Definition rejections (settled : object (outcome string))
  : list Event :=
  flat_map (fun kv => match snd kv with
                      | Returns _ => []
                      | Throws e => [LoggerError e]
                      end) settled.

End Listing.

(* ================================================================== *)
(** ** The specification's vocabulary *)
(* ================================================================== *)

Module Spec.

(** Modelled from the spec: the error [NoLiquidity] of section 7 (no such
    error is declared under src/), "NoLiquidity - neither a direct nor a
    bridged pair exists; surfaced to caller as 'no route found'".  A failed
    resolution surfaces it when the error it throws is named NoLiquidity or
    reads 'no route found'. *)
Definition surfaces_NoLiquidity {A : Type} (o : outcome A) : Prop :=
  exists e, o = Throws e
            /\ (name e = "NoLiquidity" \/ message e = "no route found").

(** Modelled from the spec: section 4.4, "submit(signer, callParams,
    gasPriceGwei) -> TransactionHandle ... Returns the handle as soon as
    the node accepts the transaction into its pending pool".  A submit
    operation returns the handle when the value it resolves to is the
    response of the accepted transaction. *)
Definition returns_handle (o : outcome TxValue) (tx : TransactionResponse)
  : Prop :=
  o = Returns (Handle tx).

(** Modelled from the spec: section 7, "every failure path returns a typed
    result, never a generic string" (no type of failures is declared under
    src/).  What an operation resolves to respects this when it is not a
    bare string. *)
Definition typed_failures (o : outcome Ethereum.Answer) : Prop :=
  forall s, o <> Returns (Ethereum.Text s).

End Spec.

(* ================================================================== *)
(** ** Concrete scenarios *)
(* ================================================================== *)

Module Scenario.

(** The environment of a Kovan deployment. *)
Definition env0 : Uniswap.Env :=
  {| Uniswap.ETHEREUM_RPC_URL := Some "http://localhost:8545";
     Uniswap.ETHEREUM_CHAIN := Some "kovan";
     Uniswap.UNISWAP_ROUTER := Some "0x7a250d5630B4cF539739dF2C5dAcb4c659F2488D" |}.

(** A token list with one well-formed and one lower-case entry. *)
Definition DAI : Ethereum.TokenInfo :=
  {| Ethereum.symbol := "DAI";
     Ethereum.address := "0x4F96Fe3b7A6Cf9725f59d353F723c1bDb64CA6Aa";
     Ethereum.decimals := 18 |}.

Definition weth_lower : Ethereum.TokenInfo :=
  {| Ethereum.symbol := "wEth";
     Ethereum.address := "0xd0A1E359811322d97991E03f863a0C30C2cF029C";
     Ethereum.decimals := 18 |}.

Definition eth_kovan : Ethereum.Instance :=
  {| Ethereum.network := "kovan";
     Ethereum.erc20TokenListURL := None;
     Ethereum.erc20TokenList :=
       {| Ethereum.tokens := Some [DAI; weth_lower] |} |}.

(** The service on Kovan, as its constructor makes it from [env0], and
    two tokens. *)
Definition this_kovan : Uniswap.Instance :=
  {| Uniswap.network := Some "kovan";
     Uniswap.chainID := KOVAN;
     Uniswap.provider := {| Uniswap.url := Some "http://localhost:8545" |};
     Uniswap.router := Some "0x7a250d5630B4cF539739dF2C5dAcb4c659F2488D";
     Uniswap.allowedSlippage := {| numerator := 0; denominator := 100 |} |}.

Definition dai_address : string := "0x4F96Fe3b7A6Cf9725f59d353F723c1bDb64CA6Aa".
Definition mkr_address : string := "0xAaF64BFCC32d0F15873a02163e7E500671a4ffcD".

Definition dai : Token := mkToken KOVAN dai_address 18 None.
Definition mkr : Token := mkToken KOVAN mkr_address 18 None.

(** What the fetcher gets back from an address without a pool contract. *)
Definition no_pool : JsError :=
  {| name := "Error"; message := "call revert exception";
     reason := Some "call revert exception" |}.

Definition receipt7 : TransactionReceipt :=
  {| transactionHash := "0xabc"; blockNumber := Some 7; status := Some 1 |}.

(** The node accepts every transaction under hash 0xabc and includes it in
    block 7. *)
Definition accept_and_include (c : Uniswap.ContractCall)
  : outcome TransactionResponse :=
  Returns {| hash := "0xabc"; wait := Returns receipt7 |}.

(** Three views of the chain; in each, every token has 18 decimals.
    First: every pair has a pool with reserves 1,000,000 and 2,000,000. *)
Definition chain_direct : Uniswap.World :=
  {| Uniswap.clock := fun _ => 1600000000123;
     Uniswap.decimals_on_chain := fun _ _ => Returns 18;
     Uniswap.reserves_on_chain := fun _ _ => Returns (1000000, 2000000);
     Uniswap.send := accept_and_include |}.

(** Only pairs with the wrapped native asset have a pool. *)
Definition chain_bridged : Uniswap.World :=
  {| Uniswap.clock := fun _ => 1600000000123;
     Uniswap.decimals_on_chain := fun _ _ => Returns 18;
     Uniswap.reserves_on_chain := fun a b =>
       if equals a (WETH KOVAN) || equals b (WETH KOVAN)
       then Returns (1000000, 2000000) else Throws no_pool;
     Uniswap.send := accept_and_include |}.

(** No pair has a pool. *)
Definition chain_dry : Uniswap.World :=
  {| Uniswap.clock := fun _ => 1600000000123;
     Uniswap.decimals_on_chain := fun _ _ => Returns 18;
     Uniswap.reserves_on_chain := fun _ _ => Throws no_pool;
     Uniswap.send := accept_and_include |}.

(** A signer, the single-hop route over the DAI/MKR pool, and the call a
    swap of 1,000 DAI units along it makes at 1 gwei: 1,992 MKR units come
    out of reserves 1,000,000 and 2,000,000 after the 0.3% fee. *)
Definition wallet0 : Wallet :=
  {| wallet_address := "0x66f820a414680B5bcda5eECA5dea238543F42054" |}.

Definition route_dai_mkr : Route :=
  {| pairs := [mkPair dai mkr 1000000 2000000];
     path := [dai; mkr];
     input := TOKEN dai; output := TOKEN mkr |}.

Definition tx_abc : TransactionResponse :=
  {| hash := "0xabc"; wait := Returns receipt7 |}.

Definition call_dai_mkr : Uniswap.ContractCall :=
  {| Uniswap.call_contract := "0x7a250d5630B4cF539739dF2C5dAcb4c659F2488D";
     Uniswap.call_signer := wallet0;
     Uniswap.call_method := "swapExactTokensForTokens";
     Uniswap.call_args :=
       [Uint 1000; Uint 1992; AddressList [dai_address; mkr_address];
        Address (wallet_address wallet0); Uint 1600000060];
     Uniswap.call_gasPrice := 1000000000;
     Uniswap.call_gasLimit := 1200000;
     Uniswap.call_value := 0 |}.

(** The same swap the other way round: 1,992 MKR units out need 1,000 DAI
    units in. *)
Definition call_mkr_exact : Uniswap.ContractCall :=
  {| Uniswap.call_contract := "0x7a250d5630B4cF539739dF2C5dAcb4c659F2488D";
     Uniswap.call_signer := wallet0;
     Uniswap.call_method := "swapTokensForExactTokens";
     Uniswap.call_args :=
       [Uint 1992; Uint 1000; AddressList [dai_address; mkr_address];
        Address (wallet_address wallet0); Uint 1600000060];
     Uniswap.call_gasPrice := 1000000000;
     Uniswap.call_gasLimit := 1200000;
     Uniswap.call_value := 0 |}.

(** The swap of 1,000 DAI units for MKR at 1 gwei. *)
Definition swap_1000_dai : Uniswap.Promise TxValue :=
  Uniswap.swapExactIn this_kovan wallet0 route_dai_mkr dai_address 1000 1.

(** An error a wait ends with when the transaction does not make it. *)
Definition wait_failed : JsError :=
  {| name := "Error"; message := "transaction failed";
     reason := Some "transaction failed" |}.

Definition tx_lost : TransactionResponse :=
  {| hash := "0xdef"; wait := Throws wait_failed |}.

(** The node accepts the transaction, but waiting for it fails. *)
Definition chain_lossy : Uniswap.World :=
  {| Uniswap.clock := fun _ => 1600000000123;
     Uniswap.decimals_on_chain := fun _ _ => Returns 18;
     Uniswap.reserves_on_chain := fun _ _ => Returns (1000000, 2000000);
     Uniswap.send := fun _ => Returns tx_lost |}.

(** A node that cannot be reached: every call of the Ethereum service fails
    with a plain connection error, which has no [reason]. *)
Definition connection_refused : JsError :=
  {| name := "Error"; message := "connect ECONNREFUSED 127.0.0.1:8545";
     reason := None |}.

Definition eth_down : Ethereum.World :=
  {| Ethereum.ETH_APPROVAL_GAS_LIMIT := None;
     Ethereum.new_Contract := fun _ => Returns tt;
     Ethereum.wallet_getBalance := fun _ => Throws connection_refused;
     Ethereum.contract_balanceOf := fun _ _ => Throws connection_refused;
     Ethereum.contract_allowance := fun _ _ _ => Throws connection_refused;
     Ethereum.contract_approve := fun _ => Throws connection_refused;
     Ethereum.contract_deposit := fun _ => Throws connection_refused |}.

(** The router's collaborators on Kovan.  [parseUnits] is given on whole
    numerals, where it multiplies by ten to the number of decimals; the
    node's answer to a receipt query is a parameter of the scenario. *)
Definition digit (c : ascii) : option Z :=
  let n := nat_of_ascii c in
  if ((48 <=? n) && (n <=? 57))%nat then Some (Z.of_nat (n - 48)) else None.

Fixpoint numeral (acc : Z) (s : string) : option Z :=
  match s with
  | EmptyString => Some acc
  | String c r =>
      match digit c with
      | Some d => numeral (10 * acc + d) r
      | None => None
      end
  end.

Definition parseUnits_whole (s : string) (decimals : Z) : outcome Z :=
  match numeral 0 s with
  | Some n => Returns (n * 10 ^ decimals)
  | None =>
      Throws {| name := "Error"; message := "invalid decimal value";
                reason := Some "invalid decimal value" |}
  end.

Definition dai_info : Routes.TokenERC20Info :=
  {| Routes.symbol := "DAI";
     Routes.address := dai_address;
     Routes.decimals := 18 |}.

Definition uniswap_router : string :=
  "0x7a250d5630B4cF539739dF2C5dAcb4c659F2488D".

Definition api (node_says : option TransactionReceipt) : Routes.World :=
  {| Routes.clock := fun n => 1600000000000 + 25 * Z.of_nat n;
     Routes.networkName := "kovan";
     Routes.spenders := fun connector =>
       match connector with
       | Some c => if (c =? "uniswap")%string then Some uniswap_router else None
       | None => None
       end;
     Routes.ethGasPrice := 50;
     Routes.getWallet := fun _ => Returns wallet0;
     Routes.getERC20TokenAddress := fun sym =>
       match sym with
       | Some s => if (s =? "DAI")%string then Returns (Some dai_info)
                   else Returns None
       | None => Returns None
       end;
     Routes.approveERC20 := fun _ _ _ _ _ => Returns (Routes.Approved tx_abc);
     Routes.getTransactionReceipt := fun _ => Returns node_says;
     Routes.parseUnits := parseUnits_whole;
     Routes.bigNumberWithDecimalToStr := fun _ _ => "(amount)" |}.

Definition poll_abc : Routes.Body :=
  {| Routes.connector := None; Routes.privateKey := None;
     Routes.token := None; Routes.gasPrice := None; Routes.amount := None;
     Routes.txHash := Some "0xabc" |}.

Definition approve_dai (amount : option string) : Routes.Body :=
  {| Routes.connector := Some "uniswap";
     Routes.privateKey := Some "0xkey";
     Routes.token := Some "DAI";
     Routes.gasPrice := None;
     Routes.amount := amount;
     Routes.txHash := None |}.


(** The service without a configured router address. *)
Definition this_no_router : Uniswap.Instance :=
  {| Uniswap.network := Some "kovan";
     Uniswap.chainID := KOVAN;
     Uniswap.provider := {| Uniswap.url := Some "http://localhost:8545" |};
     Uniswap.router := None;
     Uniswap.allowedSlippage := {| numerator := 0; denominator := 100 |} |}.

(** A node that refuses every transaction. *)
Definition insufficient_funds : JsError :=
  {| name := "Error";
     message := "insufficient funds for intrinsic transaction cost";
     reason := Some "insufficient funds for intrinsic transaction cost" |}.

Definition chain_refusing : Uniswap.World :=
  {| Uniswap.clock := fun _ => 1600000000123;
     Uniswap.decimals_on_chain := fun _ _ => Returns 18;
     Uniswap.reserves_on_chain := fun _ _ => Returns (1000000, 2000000);
     Uniswap.send := fun _ => Throws insufficient_funds |}.

(** A chain on which no address is a token contract. *)
Definition no_contract : JsError :=
  {| name := "Error"; message := "call revert exception";
     reason := Some "call revert exception" |}.

Definition chain_empty : Uniswap.World :=
  {| Uniswap.clock := fun _ => 1600000000123;
     Uniswap.decimals_on_chain := fun _ _ => Throws no_contract;
     Uniswap.reserves_on_chain := fun _ _ => Throws no_pool;
     Uniswap.send := accept_and_include |}.

(** A wallet holding 1.5 ETH and 2,500,000 units of a six-decimal token. *)
Definition eth_funded : Ethereum.World :=
  {| Ethereum.ETH_APPROVAL_GAS_LIMIT := None;
     Ethereum.new_Contract := fun _ => Returns tt;
     Ethereum.wallet_getBalance := fun _ => Returns 1500000000000000000;
     Ethereum.contract_balanceOf := fun _ _ => Returns 2500000;
     Ethereum.contract_allowance := fun _ _ _ => Returns MaxUint256;
     Ethereum.contract_approve := fun _ => Returns tx_abc;
     Ethereum.contract_deposit := fun _ => Returns tx_abc |}.

(** A list in which two entries share a symbol and an address up to case. *)
Definition dai_copy : Ethereum.TokenInfo :=
  {| Ethereum.symbol := "DAI";
     Ethereum.address := "0x4f96fe3b7a6cf9725f59d353f723c1bdb64ca6aa";
     Ethereum.decimals := 6 |}.

Definition MKR : Ethereum.TokenInfo :=
  {| Ethereum.symbol := "MKR";
     Ethereum.address := "0xAaF64BFCC32d0F15873a02163e7E500671a4ffcD";
     Ethereum.decimals := 18 |}.

Definition eth_duplicates : Ethereum.Instance :=
  {| Ethereum.network := "kovan";
     Ethereum.erc20TokenListURL := None;
     Ethereum.erc20TokenList :=
       {| Ethereum.tokens := Some [MKR; DAI; dai_copy] |} |}.

(** The router's collaborators when the wallet service refuses the key,
    and when the approval itself throws. *)
Definition bad_key : JsError :=
  {| name := "Error"; message := "invalid hexlify value";
     reason := Some "invalid hexlify value" |}.

Definition api_bad_key : Routes.World :=
  {| Routes.clock := Routes.clock (api None);
     Routes.networkName := "kovan";
     Routes.spenders := Routes.spenders (api None);
     Routes.ethGasPrice := 50;
     Routes.getWallet := fun _ => Throws bad_key;
     Routes.getERC20TokenAddress := Routes.getERC20TokenAddress (api None);
     Routes.approveERC20 := Routes.approveERC20 (api None);
     Routes.getTransactionReceipt := fun _ => Throws connection_refused;
     Routes.parseUnits := parseUnits_whole;
     Routes.bigNumberWithDecimalToStr := fun _ _ => "(amount)" |}.

Definition api_throwing : Routes.World :=
  {| Routes.clock := Routes.clock (api None);
     Routes.networkName := "kovan";
     Routes.spenders := Routes.spenders (api None);
     Routes.ethGasPrice := 50;
     Routes.getWallet := fun _ => Returns wallet0;
     Routes.getERC20TokenAddress := Routes.getERC20TokenAddress (api None);
     Routes.approveERC20 := fun _ _ _ _ _ => Throws insufficient_funds;
     Routes.getTransactionReceipt := fun _ => Returns None;
     Routes.parseUnits := parseUnits_whole;
     Routes.bigNumberWithDecimalToStr := fun _ _ => "(amount)" |}.

Definition approve_unknown : Routes.Body :=
  {| Routes.connector := Some "uniswap";
     Routes.privateKey := Some "0xkey";
     Routes.token := Some "XYZ";
     Routes.gasPrice := None;
     Routes.amount := None;
     Routes.txHash := None |}.

Definition approve_elsewhere : Routes.Body :=
  {| Routes.connector := Some "balancer";
     Routes.privateKey := Some "0xkey";
     Routes.token := Some "DAI";
     Routes.gasPrice := Some 7;
     Routes.amount := None;
     Routes.txHash := None |}.

(** The Ethereum object as its field initialisers leave it on mainnet, and
    on Kovan; a world whose token file holds DAI and MKR and whose token
    list server answers 404 with a page of text. *)
Definition fresh_mainnet : EthereumState.Instance :=
  {| EthereumState.network := "mainnet";
     EthereumState.erc20TokenListURL := Some "https://tokens.example/list.json";
     EthereumState.erc20TokenList :=
       EthereumState.Object {| Ethereum.tokens := None |} |}.

(** What the look-ups see of [fresh_mainnet]. *)
Definition eth_unloaded : Ethereum.Instance :=
  {| Ethereum.network := "mainnet";
     Ethereum.erc20TokenListURL := Some "https://tokens.example/list.json";
     Ethereum.erc20TokenList := {| Ethereum.tokens := None |} |}.

Definition fresh_kovan : EthereumState.Instance :=
  {| EthereumState.network := "kovan";
     EthereumState.erc20TokenListURL := None;
     EthereumState.erc20TokenList :=
       EthereumState.Object {| Ethereum.tokens := None |} |}.

Definition fresh_ropsten : EthereumState.Instance :=
  {| EthereumState.network := "ropsten";
     EthereumState.erc20TokenListURL := None;
     EthereumState.erc20TokenList :=
       EthereumState.Object {| Ethereum.tokens := None |} |}.

Definition unset_mainnet : EthereumState.Instance :=
  {| EthereumState.network := "mainnet";
     EthereumState.erc20TokenListURL := Some "https://tokens.example/list.json";
     EthereumState.erc20TokenList := EthereumState.Null |}.

Definition files_and_server : EthereumState.World :=
  {| EthereumState.provider_getGasPrice := Returns (Returns 20000000000);
     EthereumState.read_token_file := fun _ =>
       Returns (EthereumState.Object {| Ethereum.tokens := Some [DAI; MKR] |});
     EthereumState.http_get := fun _ =>
       Returns {| EthereumState.status := 404;
                  EthereumState.data := EthereumState.Text "Not Found" |} |}.

(** The list of DAI and MKR, and a world whose token list server answers
    with a given status and body. *)
Definition listed_tokens : EthereumState.ListValue :=
  EthereumState.Object {| Ethereum.tokens := Some [DAI; MKR] |}.

Definition token_server (status : Z) (data : EthereumState.ListValue)
  : EthereumState.World :=
  {| EthereumState.provider_getGasPrice := Returns (Returns 20000000000);
     EthereumState.read_token_file := fun _ => Throws no_contract;
     EthereumState.http_get := fun _ =>
       Returns {| EthereumState.status := status;
                  EthereumState.data := data |} |}.

(** The collaborators of the listing requests: DAI and MKR are known, the
    wallet holds 1.5 ETH and 250 DAI, and the MKR contract does not answer. *)
Definition mkr_info : Routes.TokenERC20Info :=
  {| Routes.symbol := "MKR";
     Routes.address := mkr_address;
     Routes.decimals := 18 |}.

Definition listing : Listing.World :=
  {| Listing.clock := fun n => 1600000000000 + 25 * Z.of_nat n;
     Listing.networkName := "kovan";
     Listing.spenders := fun connector =>
       match connector with
       | Some c => if (c =? "uniswap")%string then Some uniswap_router else None
       | None => None
       end;
     Listing.getWallet := fun _ => Returns wallet0;
     Listing.getERC20TokenAddress := fun sym =>
       if (sym =? "DAI")%string then Returns (Some dai_info)
       else if (sym =? "MKR")%string then Returns (Some mkr_info)
       else Returns None;
     Listing.getETHBalance := fun _ => Returns "1.5";
     Listing.getERC20Balance := fun _ a _ =>
       if (a =? dai_address)%string then Returns "250"
       else Throws no_contract;
     Listing.getERC20Allowance := fun _ _ a _ =>
       if (a =? dai_address)%string then Returns "1000"
       else Throws no_contract |}.

Definition list_request (symbols : list string) : Listing.Body :=
  {| Listing.connector := Some "uniswap";
     Listing.privateKey := Some "0xkey";
     Listing.tokenList := Returns symbols |}.

Definition unparsable : JsError :=
  {| name := "SyntaxError";
     message := "Unexpected token o in JSON at position 1";
     reason := None |}.

Definition bad_list_request : Listing.Body :=
  {| Listing.connector := Some "uniswap";
     Listing.privateKey := None;
     Listing.tokenList := Throws unparsable |}.

Definition elsewhere_request : Listing.Body :=
  {| Listing.connector := Some "balancer";
     Listing.privateKey := Some "0xkey";
     Listing.tokenList := Returns ["DAI"] |}.

End Scenario.
Import Scenario.

(* ================================================================== *)
(** * Properties *)
(* ================================================================== *)

(** Unfold the promise monad down to the collaborators' answers. *)
Ltac run :=
  unfold result_of, trace_of, clock_reads, exec, start,
         bind, try_catch, ask, emit, lift, lift_world, ret, throw, Date_now;
  cbn.

(** ** Strings and lists *)

Lemma upper_char_not_lower (c : ascii) : is_lower (upper_char c) = false.
Proof.
  destruct c as [[] [] [] [] [] [] [] []]; reflexivity.
Qed.

Lemma toUpperCase_no_lower (s : string) : has_lower (toUpperCase s) = false.
Proof.
  induction s as [| c r IH]; cbn.
  - reflexivity.
  - rewrite upper_char_not_lower, IH. reflexivity.
Qed.

Lemma toUpperCase_idempotent (s : string) :
  toUpperCase (toUpperCase s) = toUpperCase s.
Proof.
  induction s as [| c r IH]; cbn; [reflexivity |].
  rewrite IH. f_equal.
  unfold upper_char at 1. rewrite upper_char_not_lower. reflexivity.
Qed.

Section FirstOfFilter.

Context {A : Type} (p : A -> bool).

Lemma first_of_filter_some (l : list A) (x : A) :
  hd_error (filter p l) = Some x -> In x l /\ p x = true.
Proof.
  intros H.
  assert (Hin : In x (filter p l)).
  { destruct (filter p l) as [| y tl]; inversion H; subst. now left. }
  apply filter_In in Hin. exact Hin.
Qed.

Lemma first_of_filter_none (l : list A) :
  hd_error (filter p l) = None <-> (forall x, In x l -> p x = false).
Proof.
  split.
  - intros H x Hx. destruct (p x) eqn:Hp; [| reflexivity].
    assert (Hin : In x (filter p l)) by (apply filter_In; now split).
    destruct (filter p l); [contradiction | discriminate].
  - intros H. induction l as [| y tl IH]; cbn; [reflexivity |].
    rewrite (H y (or_introl eq_refl)). apply IH.
    intros x Hx. apply H. now right.
Qed.

Lemma first_of_filter_found (l : list A) (x : A) :
  In x l -> p x = true -> exists y, hd_error (filter p l) = Some y.
Proof.
  intros Hin Hp.
  destruct (hd_error (filter p l)) as [y |] eqn:Hhd; [now exists y |].
  rewrite first_of_filter_none in Hhd. rewrite (Hhd x Hin) in Hp. discriminate.
Qed.

End FirstOfFilter.

(** ** Construction of the swap service *)

(** C5. Constructing the service with a network other than 'kovan' and
    'mainnet' throws [Invalid network <name>] and yields no object on which
    an operation could run; with 'kovan' it succeeds with chain id 42
    (KOVAN), with 'mainnet' with chain id 1 (MAINNET). *)
Theorem constructor_checks_network :
  forall (env : Uniswap.Env) (n : string),
    (n <> "kovan" -> n <> "mainnet" ->
     Uniswap.constructor env (Some n)
     = Throws (Error ("Invalid network " ++ n)))
    /\ (exists this,
          Uniswap.constructor env (Some "kovan") = Returns this
          /\ Uniswap.chainID this = KOVAN
          /\ chain_number (Uniswap.chainID this) = 42)
    /\ (exists this,
          Uniswap.constructor env (Some "mainnet") = Returns this
          /\ Uniswap.chainID this = MAINNET
          /\ chain_number (Uniswap.chainID this) = 1).
Proof.
  intros env n. split; [| split].
  - intros Hk Hm. unfold Uniswap.constructor.
    destruct (String.eqb_spec n "kovan") as [-> | _]; [contradiction |].
    destruct (String.eqb_spec n "mainnet") as [-> | _]; [contradiction |].
    reflexivity.
  - eexists. cbn. repeat split.
  - eexists. cbn. repeat split.
Qed.

Lemma constructor_checks_network_witness :
  Uniswap.constructor env0 (Some "ropsten")
  = Throws (Error "Invalid network ropsten").
Proof.
  apply (proj1 (constructor_checks_network env0 "ropsten")); discriminate.
Defined.

(** ** Token look-ups *)

(** C10, as the code has it. As long as the token list is not loaded,
    both look-ups throw a [TypeError], whatever is asked.  With a loaded
    list, of ASCII symbols and addresses, and an ASCII query: look-up by
    address compares the upper-cased stored address with the upper-cased
    query, so it does not depend on the case of either; look-up by symbol
    compares the stored symbol as it is with the upper-cased query, so a
    token whose stored symbol has a letter from a to z is never returned;
    and both return undefined ([None]), without throwing, when no token
    matches. *)
Theorem token_lookup_case_rules :
  forall (this : Ethereum.Instance),
    (* no list yet: both look-ups throw *)
    (Ethereum.tokens (Ethereum.erc20TokenList this) = None ->
     forall q,
       (exists e, Ethereum.getERC20TokenAddresses this q = Throws e
                  /\ name e = "TypeError")
       /\ (exists e, Ethereum.getERC20TokenByAddress this q = Throws e
                     /\ name e = "TypeError"))
    /\ (forall l,
          Ethereum.tokens (Ethereum.erc20TokenList this) = Some l ->
          forallb Ethereum.ascii_token l = true ->
          (* by address: the case of the query does not matter *)
          (forall q q',
              is_ascii q = true -> is_ascii q' = true ->
              toUpperCase q = toUpperCase q' ->
              Ethereum.getERC20TokenByAddress this q
              = Ethereum.getERC20TokenByAddress this q')
          (* by address: a stored address matches in any case *)
          /\ (forall t q,
                 is_ascii q = true -> In t l ->
                 toUpperCase (Ethereum.address t) = toUpperCase q ->
                 exists t',
                   Ethereum.getERC20TokenByAddress this q = Returns (Some t')
                   /\ In t' l
                   /\ toUpperCase (Ethereum.address t') = toUpperCase q)
          (* by symbol: what is found has exactly the upper-cased query as
             symbol *)
          /\ (forall t q,
                 is_ascii q = true ->
                 Ethereum.getERC20TokenAddresses this q = Returns (Some t) ->
                 In t l /\ Ethereum.symbol t = toUpperCase q)
          /\ (forall t q,
                 is_ascii q = true -> In t l ->
                 Ethereum.symbol t = toUpperCase q ->
                 exists t',
                   Ethereum.getERC20TokenAddresses this q = Returns (Some t'))
          (* by symbol: a stored letter from a to z hides the token *)
          /\ (forall t q,
                 is_ascii q = true ->
                 has_lower (Ethereum.symbol t) = true ->
                 Ethereum.getERC20TokenAddresses this q <> Returns (Some t))
          (* no match: undefined, not an error *)
          /\ (forall q,
                 is_ascii q = true ->
                 (forall t, In t l -> Ethereum.symbol t <> toUpperCase q) ->
                 Ethereum.getERC20TokenAddresses this q = Returns None)
          /\ (forall q,
                 is_ascii q = true ->
                 (forall t, In t l ->
                    toUpperCase (Ethereum.address t) <> toUpperCase q) ->
                 Ethereum.getERC20TokenByAddress this q = Returns None)).
Proof.
  intros this.
  unfold Ethereum.getERC20TokenByAddress, Ethereum.getERC20TokenAddresses,
         Ethereum.first_match.
  split.
  { intros Hnone q. rewrite Hnone. split; eexists; split; reflexivity. }
  intros l Hl _. rewrite Hl.
  split; [| split; [| split; [| split; [| split; [| split]]]]].
  - intros q q' _ _ Hq. rewrite Hq. reflexivity.
  - intros t q _ Hin Heq.
    destruct (first_of_filter_found
                (fun obj => (toUpperCase (Ethereum.address obj)
                             =? toUpperCase q)%string) l t Hin)
      as [t' Ht'].
    { now apply String.eqb_eq. }
    exists t'. split; [now rewrite Ht' |].
    apply first_of_filter_some in Ht'. destruct Ht' as [Hin' Hp].
    split; [exact Hin' | now apply String.eqb_eq].
  - intros t q _ H. inversion H as [Hhd].
    apply first_of_filter_some in Hhd. destruct Hhd as [Hin Hp].
    split; [exact Hin | now apply String.eqb_eq].
  - intros t q _ Hin Heq.
    destruct (first_of_filter_found
                (fun obj => (Ethereum.symbol obj =? toUpperCase q)%string)
                l t Hin) as [t' Ht'].
    { now apply String.eqb_eq. }
    exists t'. now rewrite Ht'.
  - intros t q _ Hlow Hfound. inversion Hfound as [Hhd].
    apply first_of_filter_some in Hhd. destruct Hhd as [_ Hp].
    apply String.eqb_eq in Hp. rewrite Hp, toUpperCase_no_lower in Hlow.
    discriminate.
  - intros q _ Hno. f_equal. apply first_of_filter_none.
    intros t Hin. apply String.eqb_neq. now apply Hno.
  - intros q _ Hno. f_equal. apply first_of_filter_none.
    intros t Hin. apply String.eqb_neq. now apply Hno.
Qed.

Lemma token_lookup_case_rules_witness :
  Ethereum.getERC20TokenByAddress eth_kovan
    "0x4f96fe3b7a6cf9725f59d353f723c1bdb64ca6aa"
  = Ethereum.getERC20TokenByAddress eth_kovan
      "0X4F96FE3B7A6CF9725F59D353F723C1BDB64CA6AA"
  /\ Ethereum.getERC20TokenAddresses eth_kovan "weth" <> Returns (Some weth_lower)
  /\ Ethereum.getERC20TokenAddresses eth_kovan "usdc" = Returns None
  /\ exists e, Ethereum.getERC20TokenAddresses eth_unloaded "usdc" = Throws e
               /\ name e = "TypeError".
Proof.
  pose proof (proj2 (token_lookup_case_rules eth_kovan)
                    [DAI; weth_lower] eq_refl eq_refl)
    as (Hcase & _ & _ & _ & Hhidden & Hnone & _).
  split; [| split; [| split]].
  - apply Hcase; reflexivity.
  - apply Hhidden; reflexivity.
  - apply Hnone; [reflexivity |].
    intros t [<- | [<- | []]]; discriminate.
  - exact (proj1 (proj1 (token_lookup_case_rules eth_unloaded) eq_refl
                        "usdc")).
Defined.

(** C10, as it is worded, fails for the object a mainnet service starts
    with and keeps: its list holds no token, so no token matches, yet the
    look-ups throw a [TypeError] where the claim has them return
    undefined. *)
Lemma token_lookup_throws_on_unloaded_list :
  result_of (EthereumState.getERC20TokenList fresh_mainnet) files_and_server
  = Returns (fresh_mainnet, None)
  /\ EthereumState.as_service fresh_mainnet = Some eth_unloaded
  /\ Ethereum.getERC20TokenAddresses eth_unloaded "DAI" <> Returns None
  /\ Ethereum.getERC20TokenByAddress eth_unloaded
       "0x4F96Fe3b7A6Cf9725f59d353F723c1bDb64CA6Aa" <> Returns None
  /\ (exists e, Ethereum.getERC20TokenAddresses eth_unloaded "DAI" = Throws e
                /\ name e = "TypeError")
  /\ (exists e, Ethereum.getERC20TokenByAddress eth_unloaded
                  "0x4F96Fe3b7A6Cf9725f59d353F723c1bDb64CA6Aa" = Throws e
                /\ name e = "TypeError").
Proof.
  split; [vm_compute; reflexivity |].
  split; [reflexivity |].
  split; [discriminate |]. split; [discriminate |].
  split; eexists; split; reflexivity.
Qed.

(** ** Route resolution *)

Lemma chain_eqb_refl (c : ChainId) : chain_eqb c c = true.
Proof. unfold chain_eqb. apply Z.eqb_refl. Qed.

Lemma equals_refl (t : Token) : equals t t = true.
Proof. unfold equals. now rewrite chain_eqb_refl, String.eqb_refl. Qed.

Lemma WETH_chainId (c : ChainId) : chainId (WETH c) = c.
Proof. destruct c; reflexivity. Qed.

Lemma equals_address (a b : Token) :
  (address a =? address b)%string = false -> equals a b = false.
Proof. intros H. unfold equals. rewrite H. apply andb_false_r. Qed.

(** A pair fetch leaves one journal entry and completes the same way
    whatever happened before it. *)
Lemma fetchPairData_run (a b : Token) (w : Uniswap.World)
  (s : Run Uniswap.Event) :
  Uniswap.fetchPairData a b w s
  = (result_of (Uniswap.fetchPairData a b) w,
     {| journal := journal s ++ [Uniswap.FetchPairData a b];
        ticks := ticks s |}).
Proof.
  unfold Uniswap.fetchPairData. run.
  destruct (invariant (chain_eqb (chainId a) (chainId b)) "CHAIN_ID");
    [| reflexivity].
  destruct (invariant (negb (address a =? address b)%string) "ADDRESSES");
    [| reflexivity].
  destruct (Uniswap.reserves_on_chain w a b); reflexivity.
Qed.

(** A fetched pair holds the two assets asked for, which are distinct
    assets of one chain. *)
Lemma fetchPairData_returns (a b : Token) (w : Uniswap.World) (p : Pair) :
  result_of (Uniswap.fetchPairData a b) w = Returns p ->
  assetA p = a /\ assetB p = b
  /\ chain_eqb (chainId a) (chainId b) = true
  /\ (address a =? address b)%string = false.
Proof.
  unfold Uniswap.fetchPairData. run.
  destruct (chain_eqb (chainId a) (chainId b)); cbn; [| discriminate].
  destruct (address a =? address b)%string; cbn; [discriminate |].
  destruct (Uniswap.reserves_on_chain w a b) as [r | e]; cbn; [| discriminate].
  intros H. inversion H; subst. cbn. repeat split.
Qed.

Lemma fetchTokenData_run (c : ChainId) (a : string) (w : Uniswap.World)
  (s : Run Uniswap.Event) :
  Uniswap.fetchTokenData c a w s
  = (match Uniswap.decimals_on_chain w c a with
     | Returns d => Returns (mkToken c a d None)
     | Throws e => Throws e
     end,
     {| journal := journal s ++ [Uniswap.FetchTokenData c a];
        ticks := ticks s |}).
Proof.
  unfold Uniswap.fetchTokenData. run.
  destruct (Uniswap.decimals_on_chain w c a); reflexivity.
Qed.

Lemma involvesToken_left (a b : Token) (ra rb : Z) :
  involvesToken (mkPair a b ra rb) a = true.
Proof. unfold involvesToken. cbn. now rewrite equals_refl. Qed.

Lemma involvesToken_right (a b : Token) (ra rb : Z) :
  involvesToken (mkPair a b ra rb) b = true.
Proof. unfold involvesToken. cbn. now rewrite equals_refl, orb_true_r. Qed.

Lemma other_asset_left (a b : Token) (ra rb : Z) :
  other_asset (mkPair a b ra rb) a = b.
Proof. unfold other_asset. cbn. now rewrite equals_refl. Qed.

Lemma other_asset_right (a b : Token) (ra rb : Z) :
  equals b a = false -> other_asset (mkPair a b ra rb) b = a.
Proof. intros H. unfold other_asset. cbn. now rewrite H. Qed.

(** A route over the pair fetched for its two end points. *)
Lemma new_Route_direct (a b : Token) (ra rb : Z) :
  new_Route [mkPair a b ra rb] (TOKEN a) (TOKEN b)
  = Returns {| pairs := [mkPair a b ra rb]; path := [a; b];
               input := TOKEN a; output := TOKEN b |}.
Proof.
  unfold new_Route. cbn.
  rewrite chain_eqb_refl, involvesToken_left, involvesToken_right,
          other_asset_left.
  reflexivity.
Qed.

(** A route over two pairs that share the bridge asset. *)
Lemma new_Route_bridged (a b m : Token) (ra rm rb rm' : Z) :
  chainId a = chainId m -> chainId b = chainId m ->
  (address b =? address m)%string = false ->
  new_Route [mkPair a m ra rm; mkPair b m rb rm'] (TOKEN a) (TOKEN b)
  = Returns {| pairs := [mkPair a m ra rm; mkPair b m rb rm'];
               path := [a; m; b];
               input := TOKEN a; output := TOKEN b |}.
Proof.
  intros Ha Hb Hbm.
  assert (Hmb : equals m b = false).
  { unfold equals. rewrite String.eqb_sym, Hbm. apply andb_false_r. }
  unfold new_Route. cbn.
  rewrite Hb, <- Ha, chain_eqb_refl, involvesToken_left, involvesToken_left,
          other_asset_left, involvesToken_right,
          (other_asset_right _ _ _ _ Hmb).
  reflexivity.
Qed.

Lemma new_Route_pairs (ps : list Pair) (inp out : Currency) (r : Route) :
  new_Route ps inp out = Returns r -> pairs r = ps.
Proof.
  unfold new_Route. destruct ps as [| p0 tl]; [discriminate |].
  destruct (negb (forallb _ _)); [discriminate |].
  destruct (negb (involvesToken p0 _)); [discriminate |].
  destruct (negb (involvesToken (last _ _) _)); [discriminate |].
  destruct (walk _ _); [| discriminate].
  intros H. inversion H. reflexivity.
Qed.

(** How a resolution runs once both tokens are resolved, by the outcome of
    the three pair fetches. *)
Lemma fetch_route_run (w : Uniswap.World) (this : Uniswap.Instance)
  (tokenIn tokenOut : string) (dIn dOut : Z) :
  let c := Uniswap.chainID this in
  let bridge := WETH c in
  let tIn := mkToken c tokenIn dIn None in
  let tOut := mkToken c tokenOut dOut None in
  let resolved := [Uniswap.FetchTokenData c tokenIn;
                   Uniswap.FetchTokenData c tokenOut;
                   Uniswap.FetchPairData tIn tOut] in
  let fallback := [Uniswap.ConsoleLog "Trying alternative/indirect route.";
                   Uniswap.FetchPairData tIn bridge] in
  Uniswap.decimals_on_chain w c tokenIn = Returns dIn ->
  Uniswap.decimals_on_chain w c tokenOut = Returns dOut ->
  exec (Uniswap.fetch_route this tokenIn tokenOut) w
  = match result_of (Uniswap.fetchPairData tIn tOut) w with
    | Returns p =>
        (new_Route [p] (TOKEN tIn) (TOKEN tOut),
         {| journal := resolved; ticks := 0 |})
    | Throws _ =>
        match result_of (Uniswap.fetchPairData tIn bridge) w with
        | Throws e1 =>
            (Throws e1,
             {| journal := (resolved ++ fallback)%list; ticks := 0 |})
        | Returns p1 =>
            (match result_of (Uniswap.fetchPairData tOut bridge) w with
             | Returns p2 => new_Route [p1; p2] (TOKEN tIn) (TOKEN tOut)
             | Throws e2 => Throws e2
             end,
             {| journal := (resolved ++ fallback
                            ++ [Uniswap.FetchPairData tOut bridge])%list;
                ticks := 0 |})
        end
    end.
Proof.
  intros c bridge tIn tOut resolved fallback HIn HOut.
  unfold Uniswap.fetch_route, exec, bind, try_catch.
  rewrite fetchTokenData_run. fold c. rewrite HIn.
  rewrite fetchTokenData_run. rewrite HOut.
  fold tIn tOut bridge.
  rewrite fetchPairData_run.
  destruct (result_of (Uniswap.fetchPairData tIn tOut) w) as [p | e] eqn:Hp.
  - apply fetchPairData_returns in Hp.
    destruct p as [a b ra rb]. cbn in Hp. destruct Hp as (-> & -> & _ & _).
    unfold lift. rewrite new_Route_direct. reflexivity.
  - unfold emit. cbn [journal ticks app start].
    rewrite fetchPairData_run.
    destruct (result_of (Uniswap.fetchPairData tIn bridge) w) as [p1 | e1];
      [| reflexivity].
    rewrite fetchPairData_run.
    destruct (result_of (Uniswap.fetchPairData tOut bridge) w) as [p2 | e2];
      reflexivity.
Qed.

(** A resolution that cannot resolve one of its tokens fetches no pair. *)
Lemma fetch_route_unresolved (w : Uniswap.World) (this : Uniswap.Instance)
  (tokenIn tokenOut : string) :
  let c := Uniswap.chainID this in
  (forall e, Uniswap.decimals_on_chain w c tokenIn = Throws e ->
     exec (Uniswap.fetch_route this tokenIn tokenOut) w
     = (Throws e, {| journal := [Uniswap.FetchTokenData c tokenIn];
                     ticks := 0 |}))
  /\ (forall d e,
        Uniswap.decimals_on_chain w c tokenIn = Returns d ->
        Uniswap.decimals_on_chain w c tokenOut = Throws e ->
        exec (Uniswap.fetch_route this tokenIn tokenOut) w
        = (Throws e, {| journal := [Uniswap.FetchTokenData c tokenIn;
                                    Uniswap.FetchTokenData c tokenOut];
                        ticks := 0 |})).
Proof.
  intros c. split.
  - intros e He.
    unfold Uniswap.fetch_route, exec, bind.
    rewrite fetchTokenData_run. fold c. rewrite He. reflexivity.
  - intros d e Hd He.
    unfold Uniswap.fetch_route, exec, bind.
    rewrite fetchTokenData_run. fold c. rewrite Hd.
    rewrite fetchTokenData_run. rewrite He. reflexivity.
Qed.

(** C2. Once both tokens are resolved, the first pair fetched is the direct
    one.  If that fetch succeeds, the route is the single hop over it and
    nothing else is fetched.  Only if it fails are the legs (input, WETH)
    and (output, WETH) of the service's chain fetched, in that order, and
    if both succeed the route has exactly these two hops and visits input,
    WETH, output: both pairs hold WETH, which is neither end point.  No
    route has more than two hops and no resolution fetches more than three
    pairs. *)
Theorem fetch_route_direct_then_bridge :
  forall (w : Uniswap.World) (this : Uniswap.Instance)
         (tokenIn tokenOut : string),
    let c := Uniswap.chainID this in
    let bridge := WETH c in
    let resolution := Uniswap.fetch_route this tokenIn tokenOut in
    (forall dIn dOut,
        Uniswap.decimals_on_chain w c tokenIn = Returns dIn ->
        Uniswap.decimals_on_chain w c tokenOut = Returns dOut ->
        let tIn := mkToken c tokenIn dIn None in
        let tOut := mkToken c tokenOut dOut None in
        let resolved := [Uniswap.FetchTokenData c tokenIn;
                         Uniswap.FetchTokenData c tokenOut] in
        (* a direct pool: one hop, no fall-back *)
        (forall p,
            result_of (Uniswap.fetchPairData tIn tOut) w = Returns p ->
            result_of resolution w
            = Returns {| pairs := [p]; path := [tIn; tOut];
                         input := TOKEN tIn; output := TOKEN tOut |}
            /\ trace_of resolution w
               = (resolved ++ [Uniswap.FetchPairData tIn tOut])%list)
        (* no direct pool: the two bridge legs, after the direct attempt *)
        /\ (forall e,
               result_of (Uniswap.fetchPairData tIn tOut) w = Throws e ->
               (exists rest,
                   trace_of resolution w
                   = (resolved
                      ++ [Uniswap.FetchPairData tIn tOut;
                          Uniswap.ConsoleLog "Trying alternative/indirect route.";
                          Uniswap.FetchPairData tIn bridge] ++ rest)%list
                   /\ (rest = [] \/ rest = [Uniswap.FetchPairData tOut bridge]))
               /\ (forall p1 p2,
                      result_of (Uniswap.fetchPairData tIn bridge) w
                      = Returns p1 ->
                      result_of (Uniswap.fetchPairData tOut bridge) w
                      = Returns p2 ->
                      result_of resolution w
                      = Returns {| pairs := [p1; p2];
                                   path := [tIn; bridge; tOut];
                                   input := TOKEN tIn; output := TOKEN tOut |}
                      /\ involvesToken p1 bridge = true
                      /\ involvesToken p2 bridge = true
                      /\ equals tIn bridge = false
                      /\ equals tOut bridge = false)))
    (* never more than two hops, never more than three pair fetches *)
    /\ (forall r, result_of resolution w = Returns r -> (hops r <= 2)%nat)
    /\ (Uniswap.pair_fetches (trace_of resolution w) <= 3)%nat.
Proof.
  intros w this tokenIn tokenOut c bridge resolution.
  split; [| split].
  - intros dIn dOut HIn HOut tIn tOut resolved.
    pose proof (fetch_route_run w this tokenIn tokenOut dIn dOut HIn HOut)
      as Hrun.
    fold c bridge resolution tIn tOut in Hrun.
    split.
    + intros p Hp. unfold result_of at 1, trace_of. rewrite Hrun, Hp. cbn.
      apply fetchPairData_returns in Hp.
      destruct p as [a b ra rb]. cbn in Hp. destruct Hp as (-> & -> & _ & _).
      split; [apply new_Route_direct | reflexivity].
    + intros e He. split.
      * unfold trace_of. rewrite Hrun, He.
        destruct (result_of (Uniswap.fetchPairData tIn bridge) w).
        -- exists [Uniswap.FetchPairData tOut bridge]. cbn.
           split; [reflexivity | now right].
        -- exists []. cbn. split; [reflexivity | now left].
      * intros p1 p2 Hp1 Hp2.
        unfold result_of at 1. rewrite Hrun, He, Hp1, Hp2. cbn.
        apply fetchPairData_returns in Hp1, Hp2.
        destruct p1 as [a1 b1 ra1 rb1], p2 as [a2 b2 ra2 rb2]. cbn in Hp1, Hp2.
        destruct Hp1 as (-> & -> & _ & Hd1), Hp2 as (-> & -> & _ & Hd2).
        split; [| split; [| split; [| split]]].
        -- apply new_Route_bridged; [| | exact Hd2];
             unfold bridge; now rewrite WETH_chainId.
        -- apply involvesToken_right.
        -- apply involvesToken_right.
        -- now apply equals_address.
        -- now apply equals_address.
  - intros r. unfold result_of.
    destruct (fetch_route_unresolved w this tokenIn tokenOut) as [HnoIn HnoOut].
    fold c resolution in HnoIn, HnoOut.
    destruct (Uniswap.decimals_on_chain w c tokenIn) as [dIn | e] eqn:HIn;
      [| rewrite (HnoIn e eq_refl); discriminate].
    destruct (Uniswap.decimals_on_chain w c tokenOut) as [dOut | e] eqn:HOut;
      [| rewrite (HnoOut dIn e eq_refl eq_refl); discriminate].
    unfold resolution.
    rewrite (fetch_route_run w this tokenIn tokenOut dIn dOut HIn HOut).
    destruct (result_of (Uniswap.fetchPairData _ _) w) as [p | e].
    + cbn [fst]. intros H. apply new_Route_pairs in H. unfold hops.
      rewrite H. cbn. lia.
    + destruct (result_of (Uniswap.fetchPairData _ _) w) as [p1 | e1];
        [| discriminate].
      destruct (result_of (Uniswap.fetchPairData _ _) w) as [p2 | e2];
        [| discriminate].
      cbn [fst]. intros H. apply new_Route_pairs in H. unfold hops.
      rewrite H. cbn. lia.
  - unfold trace_of.
    destruct (fetch_route_unresolved w this tokenIn tokenOut) as [HnoIn HnoOut].
    fold c resolution in HnoIn, HnoOut.
    destruct (Uniswap.decimals_on_chain w c tokenIn) as [dIn | e] eqn:HIn;
      [| rewrite (HnoIn e eq_refl); cbn; lia].
    destruct (Uniswap.decimals_on_chain w c tokenOut) as [dOut | e] eqn:HOut;
      [| rewrite (HnoOut dIn e eq_refl eq_refl); cbn; lia].
    unfold resolution.
    rewrite (fetch_route_run w this tokenIn tokenOut dIn dOut HIn HOut).
    destruct (result_of (Uniswap.fetchPairData _ _) w) as [p | e];
      [cbn; lia |].
    destruct (result_of (Uniswap.fetchPairData _ _) w) as [p1 | e1];
      cbn; lia.
Qed.

Lemma fetch_route_direct_then_bridge_witness :
  result_of (Uniswap.fetch_route this_kovan dai_address mkr_address)
            chain_direct
  = Returns {| pairs := [mkPair dai mkr 1000000 2000000];
               path := [dai; mkr];
               input := TOKEN dai; output := TOKEN mkr |}
  /\ result_of (Uniswap.fetch_route this_kovan dai_address mkr_address)
               chain_bridged
     = Returns {| pairs := [mkPair dai (WETH KOVAN) 1000000 2000000;
                            mkPair mkr (WETH KOVAN) 1000000 2000000];
                  path := [dai; WETH KOVAN; mkr];
                  input := TOKEN dai; output := TOKEN mkr |}.
Proof.
  split.
  - destruct (fetch_route_direct_then_bridge
                chain_direct this_kovan dai_address mkr_address) as [H _].
    destruct (H 18 18 eq_refl eq_refl) as [Hdirect _].
    exact (proj1 (Hdirect (mkPair dai mkr 1000000 2000000) eq_refl)).
  - destruct (fetch_route_direct_then_bridge
                chain_bridged this_kovan dai_address mkr_address) as [H _].
    destruct (H 18 18 eq_refl eq_refl) as [_ Hbridge].
    destruct (Hbridge no_pool eq_refl) as [_ Hlegs].
    exact (proj1 (Hlegs (mkPair dai (WETH KOVAN) 1000000 2000000)
                        (mkPair mkr (WETH KOVAN) 1000000 2000000)
                        eq_refl eq_refl)).
Defined.

(** C3, as the code has it. When the direct fetch fails and a bridge leg
    fails, the resolution fails with the very error of the first bridge leg
    that failed: the (input, WETH) fetch if it fails, otherwise the
    (output, WETH) fetch.  The error of the direct fetch is dropped, and no
    error of the resolver's own is made. *)
Theorem fetch_route_propagates_leg_error :
  forall (w : Uniswap.World) (this : Uniswap.Instance)
         (tokenIn tokenOut : string) (dIn dOut : Z) (e : JsError),
    let c := Uniswap.chainID this in
    let bridge := WETH c in
    let tIn := mkToken c tokenIn dIn None in
    let tOut := mkToken c tokenOut dOut None in
    Uniswap.decimals_on_chain w c tokenIn = Returns dIn ->
    Uniswap.decimals_on_chain w c tokenOut = Returns dOut ->
    result_of (Uniswap.fetchPairData tIn tOut) w = Throws e ->
    (forall e1,
        result_of (Uniswap.fetchPairData tIn bridge) w = Throws e1 ->
        result_of (Uniswap.fetch_route this tokenIn tokenOut) w = Throws e1)
    /\ (forall p1 e2,
           result_of (Uniswap.fetchPairData tIn bridge) w = Returns p1 ->
           result_of (Uniswap.fetchPairData tOut bridge) w = Throws e2 ->
           result_of (Uniswap.fetch_route this tokenIn tokenOut) w = Throws e2).
Proof.
  intros w this tokenIn tokenOut dIn dOut e c bridge tIn tOut HIn HOut He.
  pose proof (fetch_route_run w this tokenIn tokenOut dIn dOut HIn HOut)
    as Hrun.
  fold c bridge tIn tOut in Hrun.
  split.
  - intros e1 H1. unfold result_of at 1. now rewrite Hrun, He, H1.
  - intros p1 e2 H1 H2. unfold result_of at 1. now rewrite Hrun, He, H1, H2.
Qed.

Lemma fetch_route_propagates_leg_error_witness :
  result_of (Uniswap.fetch_route this_kovan dai_address mkr_address) chain_dry
  = Throws no_pool.
Proof.
  exact (proj1 (fetch_route_propagates_leg_error
                  chain_dry this_kovan dai_address mkr_address 18 18 no_pool
                  eq_refl eq_refl eq_refl)
               no_pool eq_refl).
Defined.

(** C3, as the specification words it, fails: on a chain without pools the
    direct fetch and both bridge legs fail, and what the resolution throws
    is the node's "call revert exception", which is no [NoLiquidity] error
    and does not read "no route found". *)
Lemma fetch_route_no_NoLiquidity :
  result_of (Uniswap.fetchPairData dai mkr) chain_dry = Throws no_pool
  /\ result_of (Uniswap.fetchPairData dai (WETH KOVAN)) chain_dry
     = Throws no_pool
  /\ result_of (Uniswap.fetch_route this_kovan dai_address mkr_address)
               chain_dry
     = Throws no_pool
  /\ ~ Spec.surfaces_NoLiquidity
         (result_of (Uniswap.fetch_route this_kovan dai_address mkr_address)
                    chain_dry).
Proof.
  assert (Hrun : result_of (Uniswap.fetch_route this_kovan dai_address
                              mkr_address) chain_dry = Throws no_pool)
    by reflexivity.
  split; [reflexivity |]. split; [reflexivity |]. split; [exact Hrun |].
  intros (e & He & Hkind).
  rewrite Hrun in He. inversion He; subst e.
  destruct Hkind as [H | H]; discriminate H.
Qed.

(** ** Building and submitting a swap *)

Lemma new_TokenAmount_returns (t : Token) (n : Z) (a : CurrencyAmount) :
  new_TokenAmount t n = Returns a -> a = mkAmount (TOKEN t) n.
Proof.
  unfold new_TokenAmount.
  destruct ((0 <=? n) && (n <=? MaxUint256)); [| discriminate].
  intros H. now inversion H.
Qed.

Lemma exactIn_shape (r : Route) (a : CurrencyAmount) (t : Trade) :
  exactIn r a = Returns t ->
  route t = r /\ tradeType t = EXACT_INPUT /\ inputAmount t = a.
Proof.
  unfold exactIn.
  destruct (negb (currencyEquals (currency a) (input r))); [discriminate |].
  destruct (route_chainId r) as [chain | e]; [| discriminate].
  destruct (forwards _ _ _) as [[tok out] | e]; [| discriminate].
  intros H. inversion H. cbn. repeat split.
Qed.

Lemma exactOut_shape (r : Route) (a : CurrencyAmount) (t : Trade) :
  exactOut r a = Returns t ->
  route t = r /\ tradeType t = EXACT_OUTPUT /\ outputAmount t = a.
Proof.
  unfold exactOut.
  destruct (negb (currencyEquals (currency a) (output r))); [discriminate |].
  destruct (route_chainId r) as [chain | e]; [| discriminate].
  destruct (backwards _ _ _) as [[tok inp] | e]; [| discriminate].
  intros H. inversion H. cbn. repeat split.
Qed.

(** Building the call reads the clock once and cannot fail for a trade with
    a token on one side and a positive time to live. *)
Lemma swapCallParameters_run {W E : Type} (clock : W -> nat -> Z)
  (trade : Trade) (options : TradeOptions) (w : W) (s : Run E) :
  is_ether (currency (inputAmount trade))
  && is_ether (currency (outputAmount trade)) = false ->
  0 < ttl options ->
  swapCallParameters clock trade options w s
  = (Returns (encode trade options (clock w (ticks s) / 1000 + ttl options)),
     {| journal := journal s; ticks := S (ticks s) |}).
Proof.
  intros Hether Httl. unfold swapCallParameters, bind, lift, invariant.
  rewrite Hether. cbn [negb].
  destruct (Z.ltb_spec 0 (ttl options)) as [_ | Hle]; [| lia].
  reflexivity.
Qed.


Lemma bound_of_encode (trade : Trade) (options : TradeOptions) (d : Z) :
  bound_of (methodName (encode trade options d))
           (args (encode trade options d))
           (value (encode trade options d))
  = Some (boundAmount trade (allowedSlippage options)).
Proof.
  unfold encode, boundAmount.
  destruct (tradeType trade),
           (is_ether (currency (inputAmount trade))),
           (is_ether (currency (outputAmount trade))); reflexivity.
Qed.

(** With tolerance 0/100 the bound is the counter-amount. *)
Lemma boundAmount_zero_tolerance (trade : Trade) :
  boundAmount trade {| numerator := 0; denominator := 100 |}
  = counterAmount trade.
Proof.
  unfold boundAmount, counterAmount, minimumAmountOut, maximumAmountIn.
  destruct (tradeType trade); cbn [raw numerator denominator].
  - replace (100 - 0) with 100 by lia. apply Z.quot_mul. lia.
  - replace (100 + 0) with 100 by lia. apply Z.quot_mul. lia.
Qed.

(** The same holds when the tolerance is applied by dividing by
    (1 + tolerance), as the SDK rounds a minimum output. *)
Remark zero_tolerance_by_division (amount : Z) :
  Z.quot (amount * 100) (100 + 0) = amount.
Proof. replace (100 + 0) with 100 by lia. apply Z.quot_mul. lia. Qed.

(** What the closing lines of a swap do with a configured router. *)
Lemma call_router_run (this : Uniswap.Instance) (wallet : Wallet)
  (params : SwapParameters) (gasPrice : Z) (contract : string)
  (w : Uniswap.World) (s : Run Uniswap.Event) :
  Uniswap.router this = Some contract ->
  let call := Uniswap.router_call contract wallet params gasPrice in
  Uniswap.call_router this wallet params gasPrice w s
  = match Uniswap.send w call with
    | Throws e =>
        (Throws e,
         {| journal := (journal s ++ [Uniswap.SendTransaction call])%list;
            ticks := ticks s |})
    | Returns tx =>
        (match wait tx with
         | Returns r => Returns (Receipt r)
         | Throws e => Throws e
         end,
         {| journal := (journal s
                        ++ [Uniswap.SendTransaction call;
                            Uniswap.DebugLog ("Tx Hash: " ++ hash tx);
                            Uniswap.WaitForReceipt (hash tx)])%list;
            ticks := ticks s |})
    end.
Proof.
  intros Hrouter call. unfold Uniswap.call_router. rewrite Hrouter. run.
  fold call. destruct (Uniswap.send w call) as [tx | e]; [| reflexivity].
  cbn. rewrite <- !app_assoc. cbn.
  destruct (wait tx); reflexivity.
Qed.

Lemma call_router_unconfigured (this : Uniswap.Instance) (wallet : Wallet)
  (params : SwapParameters) (gasPrice : Z)
  (w : Uniswap.World) (s : Run Uniswap.Event) :
  Uniswap.router this = None ->
  exists e, Uniswap.call_router this wallet params gasPrice w s = (Throws e, s).
Proof.
  intros Hrouter. unfold Uniswap.call_router. rewrite Hrouter. run.
  eexists. reflexivity.
Qed.

(** How a swap runs: it stops before anything is sent, with the clock
    unread, or it builds the call for the trade from one reading of the
    clock and goes on to the router. *)
Lemma swapExactIn_cases (w : Uniswap.World) (this : Uniswap.Instance)
  (wallet : Wallet) (route : Route) (tokenAddress : string)
  (amountIn gasPrice : Z) :
  let c := Uniswap.chainID this in
  let swap := Uniswap.swapExactIn this wallet route tokenAddress
                amountIn gasPrice in
  (exists e,
      exec swap w
      = (Throws e, {| journal := [Uniswap.FetchTokenData c tokenAddress];
                      ticks := 0 |}))
  \/ (exists d trade,
         Uniswap.decimals_on_chain w c tokenAddress = Returns d
         /\ exactIn route (mkAmount (TOKEN (mkToken c tokenAddress d None))
                                    amountIn) = Returns trade
         /\ exec swap w
            = Uniswap.call_router this wallet
                (encode trade (Uniswap.options this wallet)
                        (Uniswap.clock w 0 / 1000 + Uniswap.TTL))
                gasPrice w
                {| journal := [Uniswap.FetchTokenData c tokenAddress];
                   ticks := 1 |}).
Proof.
  intros c swap. unfold swap, Uniswap.swapExactIn, exec, bind.
  rewrite fetchTokenData_run. fold c.
  destruct (Uniswap.decimals_on_chain w c tokenAddress) as [d | e];
    [| left; now exists e].
  unfold lift. cbv beta iota.
  destruct (new_TokenAmount _ amountIn) as [a | e] eqn:Ha;
    [| left; now exists e].
  apply new_TokenAmount_returns in Ha. subst a.
  destruct (exactIn route _) as [trade | e] eqn:Htrade;
    [| left; now exists e].
  right. exists d, trade. split; [reflexivity |].
  split; [first [reflexivity | exact Htrade] |].
  pose proof (exactIn_shape _ _ _ Htrade) as (_ & _ & Hin).
  rewrite swapCallParameters_run.
  - reflexivity.
  - rewrite Hin. reflexivity.
  - reflexivity.
Qed.

Lemma swapExactOut_cases (w : Uniswap.World) (this : Uniswap.Instance)
  (wallet : Wallet) (route : Route) (tokenAddress : string)
  (amountOut gasPrice : Z) :
  let c := Uniswap.chainID this in
  let swap := Uniswap.swapExactOut this wallet route tokenAddress
                amountOut gasPrice in
  (exists e,
      exec swap w
      = (Throws e, {| journal := [Uniswap.FetchTokenData c tokenAddress];
                      ticks := 0 |}))
  \/ (exists d trade,
         Uniswap.decimals_on_chain w c tokenAddress = Returns d
         /\ exactOut route (mkAmount (TOKEN (mkToken c tokenAddress d None))
                                     amountOut) = Returns trade
         /\ exec swap w
            = Uniswap.call_router this wallet
                (encode trade (Uniswap.options this wallet)
                        (Uniswap.clock w 0 / 1000 + Uniswap.TTL))
                gasPrice w
                {| journal := [Uniswap.FetchTokenData c tokenAddress];
                   ticks := 1 |}).
Proof.
  intros c swap. unfold swap, Uniswap.swapExactOut, exec, bind.
  rewrite fetchTokenData_run. fold c.
  destruct (Uniswap.decimals_on_chain w c tokenAddress) as [d | e];
    [| left; now exists e].
  unfold lift. cbv beta iota.
  destruct (new_TokenAmount _ amountOut) as [a | e] eqn:Ha;
    [| left; now exists e].
  apply new_TokenAmount_returns in Ha. subst a.
  destruct (exactOut route _) as [trade | e] eqn:Htrade;
    [| left; now exists e].
  right. exists d, trade. split; [reflexivity |].
  split; [first [reflexivity | exact Htrade] |].
  pose proof (exactOut_shape _ _ _ Htrade) as (_ & _ & Hout).
  rewrite swapCallParameters_run.
  - reflexivity.
  - rewrite Hout. apply andb_false_r.
  - reflexivity.
Qed.

Section SwapSummary.

(** What follows from the two ways a swap can run, whichever swap it is:
    [made d trade] says where the trade came from. *)
Variables (w : Uniswap.World) (this : Uniswap.Instance) (wallet : Wallet)
          (tokenAddress : string) (gasPrice : Z)
          (swap : Uniswap.Promise TxValue) (made : Z -> Trade -> Prop).

Let c := Uniswap.chainID this.
Let deadline := Uniswap.clock w 0 / 1000 + Uniswap.TTL.
Let built (trade : Trade) := encode trade (Uniswap.options this wallet) deadline.

Hypothesis swap_cases :
  (exists e,
      exec swap w
      = (Throws e, {| journal := [Uniswap.FetchTokenData c tokenAddress];
                      ticks := 0 |}))
  \/ (exists d trade,
         made d trade
         /\ exec swap w
            = Uniswap.call_router this wallet (built trade) gasPrice w
                {| journal := [Uniswap.FetchTokenData c tokenAddress];
                   ticks := 1 |}).

Lemma swap_sent (call : Uniswap.ContractCall) :
  In call (Uniswap.sent_calls (trace_of swap w)) ->
  exists d trade contract,
    made d trade
    /\ Uniswap.router this = Some contract
    /\ call = Uniswap.router_call contract wallet (built trade) gasPrice
    /\ clock_reads swap w = 1%nat
    /\ exists rest,
         trace_of swap w
         = ([Uniswap.FetchTokenData c tokenAddress;
             Uniswap.SendTransaction call] ++ rest)%list
         /\ (rest = []
             \/ exists tx,
                  Uniswap.send w call = Returns tx
                  /\ rest = [Uniswap.DebugLog ("Tx Hash: " ++ hash tx);
                             Uniswap.WaitForReceipt (hash tx)]).
Proof.
  unfold trace_of, clock_reads.
  destruct swap_cases as [[e ->] | (d & trade & Hmade & ->)].
  - cbn. contradiction.
  - destruct (Uniswap.router this) as [contract |] eqn:Hrouter.
    + rewrite (call_router_run _ _ _ _ contract _ _ Hrouter).
      destruct (Uniswap.send w _) as [tx | e] eqn:Hsend; cbn.
      * intros [<- | []]. exists d, trade, contract.
        repeat split; try assumption; try reflexivity.
        eexists. split; [reflexivity |].
        right. exists tx. split; [exact Hsend | reflexivity].
      * intros [<- | []]. exists d, trade, contract.
        repeat split; try assumption; try reflexivity.
        exists []. split; [reflexivity | now left].
    + destruct (call_router_unconfigured this wallet (built trade) gasPrice w
                  {| journal := [Uniswap.FetchTokenData c tokenAddress];
                     ticks := 1 |} Hrouter) as [e ->].
      cbn. contradiction.
Qed.

Lemma swap_returns (v : TxValue) :
  result_of swap w = Returns v ->
  exists call tx r,
    Uniswap.send w call = Returns tx
    /\ wait tx = Returns r
    /\ v = Receipt r
    /\ trace_of swap w
       = [Uniswap.FetchTokenData c tokenAddress;
          Uniswap.SendTransaction call;
          Uniswap.DebugLog ("Tx Hash: " ++ hash tx);
          Uniswap.WaitForReceipt (hash tx)].
Proof.
  unfold result_of, trace_of.
  destruct swap_cases as [[e ->] | (d & trade & Hmade & ->)];
    [discriminate |].
  destruct (Uniswap.router this) as [contract |] eqn:Hrouter.
  - rewrite (call_router_run _ _ _ _ contract _ _ Hrouter).
    destruct (Uniswap.send w _) as [tx | e] eqn:Hsend; [| discriminate].
    destruct (wait tx) as [r | e] eqn:Hwait; [| discriminate].
    cbn. intros H. inversion H; subst v.
    eexists _, tx, r. repeat split; [exact Hsend | exact Hwait].
  - destruct (call_router_unconfigured this wallet (built trade) gasPrice w
                {| journal := [Uniswap.FetchTokenData c tokenAddress];
                   ticks := 1 |} Hrouter) as [e ->].
    discriminate.
Qed.

Lemma swap_wait_fails (call : Uniswap.ContractCall)
  (tx : TransactionResponse) (e : JsError) :
  In call (Uniswap.sent_calls (trace_of swap w)) ->
  Uniswap.send w call = Returns tx ->
  wait tx = Throws e ->
  result_of swap w = Throws e
  /\ In (Uniswap.WaitForReceipt (hash tx)) (trace_of swap w).
Proof.
  unfold result_of, trace_of.
  destruct swap_cases as [[e0 ->] | (d & trade & Hmade & ->)];
    [cbn; contradiction |].
  destruct (Uniswap.router this) as [contract |] eqn:Hrouter.
  - rewrite (call_router_run _ _ _ _ contract _ _ Hrouter).
    destruct (Uniswap.send w _) as [tx' | e'] eqn:Hsend; cbn.
    + intros [<- | []] Hsend' Hwait. rewrite Hsend in Hsend'.
      inversion Hsend'; subst tx'. rewrite Hwait. split; [reflexivity |].
      right. right. right. now left.
    + intros [<- | []] Hsend'. rewrite Hsend in Hsend'. discriminate.
  - destruct (call_router_unconfigured this wallet (built trade) gasPrice w
                {| journal := [Uniswap.FetchTokenData c tokenAddress];
                   ticks := 1 |} Hrouter) as [e0 ->].
    cbn. contradiction.
Qed.

End SwapSummary.

(** C1, as the code has it. A swap that resolves has sent its call, had it
    accepted by the node, waited for the transaction and resolves to the
    receipt the wait gave; and when the node accepts the call but the wait
    fails, the swap fails with the error of the wait. *)
Theorem swap_waits_and_returns_receipt :
  forall (w : Uniswap.World) (this : Uniswap.Instance) (wallet : Wallet)
         (route : Route) (tokenAddress : string) (amount gasPrice : Z),
    let c := Uniswap.chainID this in
    let swapIn := Uniswap.swapExactIn this wallet route tokenAddress
                    amount gasPrice in
    let swapOut := Uniswap.swapExactOut this wallet route tokenAddress
                     amount gasPrice in
    let waited_for (swap : Uniswap.Promise TxValue) :=
      (forall v,
          result_of swap w = Returns v ->
          exists call tx r,
            Uniswap.send w call = Returns tx
            /\ wait tx = Returns r
            /\ v = Receipt r
            /\ trace_of swap w
               = [Uniswap.FetchTokenData c tokenAddress;
                  Uniswap.SendTransaction call;
                  Uniswap.DebugLog ("Tx Hash: " ++ hash tx);
                  Uniswap.WaitForReceipt (hash tx)])
      /\ (forall call tx e,
             In call (Uniswap.sent_calls (trace_of swap w)) ->
             Uniswap.send w call = Returns tx ->
             wait tx = Throws e ->
             result_of swap w = Throws e
             /\ In (Uniswap.WaitForReceipt (hash tx)) (trace_of swap w)) in
    waited_for swapIn /\ waited_for swapOut.
Proof.
  intros w this wallet route tokenAddress amount gasPrice c swapIn swapOut
         waited_for.
  split; split.
  - intros v.
    eapply swap_returns with (made := fun _ _ => True).
    destruct (swapExactIn_cases w this wallet route tokenAddress amount
                gasPrice) as [H | (d & trade & _ & _ & H)];
      [left; exact H | right; exists d, trade; split; [exact I | exact H]].
  - intros call tx e.
    eapply swap_wait_fails with (made := fun _ _ => True).
    destruct (swapExactIn_cases w this wallet route tokenAddress amount
                gasPrice) as [H | (d & trade & _ & _ & H)];
      [left; exact H | right; exists d, trade; split; [exact I | exact H]].
  - intros v.
    eapply swap_returns with (made := fun _ _ => True).
    destruct (swapExactOut_cases w this wallet route tokenAddress amount
                gasPrice) as [H | (d & trade & _ & _ & H)];
      [left; exact H | right; exists d, trade; split; [exact I | exact H]].
  - intros call tx e.
    eapply swap_wait_fails with (made := fun _ _ => True).
    destruct (swapExactOut_cases w this wallet route tokenAddress amount
                gasPrice) as [H | (d & trade & _ & _ & H)];
      [left; exact H | right; exists d, trade; split; [exact I | exact H]].
Qed.

Lemma swap_waits_and_returns_receipt_witness :
  result_of (Uniswap.swapExactIn this_kovan wallet0 route_dai_mkr
               dai_address 1000 1) chain_lossy
  = Throws wait_failed
  /\ In (Uniswap.WaitForReceipt "0xdef")
        (trace_of (Uniswap.swapExactIn this_kovan wallet0 route_dai_mkr
                     dai_address 1000 1) chain_lossy).
Proof.
  apply (proj2 (proj1 (swap_waits_and_returns_receipt
                         chain_lossy this_kovan wallet0 route_dai_mkr
                         dai_address 1000 1))
               call_dai_mkr tx_lost wait_failed).
  - vm_compute. left. reflexivity.
  - reflexivity.
  - reflexivity.
Defined.

(** C1, as the specification words it, fails: the node accepts the call of
    a 1,000-unit swap under hash 0xabc, yet the swap goes on to wait for
    that transaction and resolves to the receipt of block 7, not to the
    handle. *)
Lemma swapExactIn_returns_receipt_not_handle :
  Uniswap.sent_calls (trace_of swap_1000_dai chain_direct) = [call_dai_mkr]
  /\ Uniswap.send chain_direct call_dai_mkr = Returns tx_abc
  /\ In (Uniswap.WaitForReceipt "0xabc") (trace_of swap_1000_dai chain_direct)
  /\ result_of swap_1000_dai chain_direct = Returns (Receipt receipt7)
  /\ ~ Spec.returns_handle (result_of swap_1000_dai chain_direct) tx_abc.
Proof.
  assert (Hresult : result_of swap_1000_dai chain_direct
                    = Returns (Receipt receipt7))
    by (vm_compute; reflexivity).
  split; [| split; [| split; [| split]]].
  - vm_compute. reflexivity.
  - reflexivity.
  - vm_compute. right. right. right. left. reflexivity.
  - exact Hresult.
  - unfold Spec.returns_handle. rewrite Hresult. discriminate.
Qed.



(** A swap whose token resolves, whose amount fits and whose trade can be
    computed hands exactly one call to the router it is configured with:
    the one the SDK built for the trade. *)
Lemma swapExactIn_sends (w : Uniswap.World) (this : Uniswap.Instance)
  (wallet : Wallet) (route : Route) (tokenAddress : string)
  (amountIn gasPrice d : Z) (trade : Trade) (contract : string) :
  let c := Uniswap.chainID this in
  Uniswap.router this = Some contract ->
  Uniswap.decimals_on_chain w c tokenAddress = Returns d ->
  0 <= amountIn <= MaxUint256 ->
  exactIn route (mkAmount (TOKEN (mkToken c tokenAddress d None)) amountIn)
  = Returns trade ->
  Uniswap.sent_calls
    (trace_of (Uniswap.swapExactIn this wallet route tokenAddress amountIn
                 gasPrice) w)
  = [Uniswap.router_call contract wallet
       (encode trade (Uniswap.options this wallet)
               (Uniswap.clock w 0 / 1000 + Uniswap.TTL))
       gasPrice].
Proof.
  intros c Hrouter Hd Hrange Htrade.
  unfold trace_of, Uniswap.swapExactIn, exec, bind.
  rewrite fetchTokenData_run. fold c. rewrite Hd.
  unfold lift at 1. cbv beta iota.
  unfold new_TokenAmount.
  replace ((0 <=? amountIn) && (amountIn <=? MaxUint256)) with true
    by (symmetry; apply andb_true_intro; split; apply Z.leb_le; lia).
  unfold lift at 1. cbv beta iota.
  change {| currency := TOKEN (mkToken c tokenAddress d None);
            raw := amountIn |}
    with (mkAmount (TOKEN (mkToken c tokenAddress d None)) amountIn).
  rewrite Htrade. cbv beta iota.
  pose proof (exactIn_shape _ _ _ Htrade) as (_ & _ & Hin).
  rewrite swapCallParameters_run;
    [| rewrite Hin; reflexivity | reflexivity].
  rewrite (call_router_run _ _ _ _ contract _ _ Hrouter).
  destruct (Uniswap.send w _) as [tx | e]; reflexivity.
Qed.

Lemma swapExactOut_sends (w : Uniswap.World) (this : Uniswap.Instance)
  (wallet : Wallet) (route : Route) (tokenAddress : string)
  (amountOut gasPrice d : Z) (trade : Trade) (contract : string) :
  let c := Uniswap.chainID this in
  Uniswap.router this = Some contract ->
  Uniswap.decimals_on_chain w c tokenAddress = Returns d ->
  0 <= amountOut <= MaxUint256 ->
  exactOut route (mkAmount (TOKEN (mkToken c tokenAddress d None)) amountOut)
  = Returns trade ->
  Uniswap.sent_calls
    (trace_of (Uniswap.swapExactOut this wallet route tokenAddress amountOut
                 gasPrice) w)
  = [Uniswap.router_call contract wallet
       (encode trade (Uniswap.options this wallet)
               (Uniswap.clock w 0 / 1000 + Uniswap.TTL))
       gasPrice].
Proof.
  intros c Hrouter Hd Hrange Htrade.
  unfold trace_of, Uniswap.swapExactOut, exec, bind.
  rewrite fetchTokenData_run. fold c. rewrite Hd.
  unfold lift at 1. cbv beta iota.
  unfold new_TokenAmount.
  replace ((0 <=? amountOut) && (amountOut <=? MaxUint256)) with true
    by (symmetry; apply andb_true_intro; split; apply Z.leb_le; lia).
  unfold lift at 1. cbv beta iota.
  change {| currency := TOKEN (mkToken c tokenAddress d None);
            raw := amountOut |}
    with (mkAmount (TOKEN (mkToken c tokenAddress d None)) amountOut).
  rewrite Htrade. cbv beta iota.
  pose proof (exactOut_shape _ _ _ Htrade) as (_ & _ & Hout).
  rewrite swapCallParameters_run;
    [| rewrite Hout; apply andb_false_r | reflexivity].
  rewrite (call_router_run _ _ _ _ contract _ _ Hrouter).
  destruct (Uniswap.send w _) as [tx | e]; reflexivity.
Qed.

(** C7. A service made by the constructor has tolerance 0/100.  Every
    call its swaps hand to the node carries as its bound exactly the
    counter-amount of the trade; and a swap of such a service whose token
    resolves, whose amount fits 256 bits and whose trade can be computed
    does hand one call to its router, with that bound: an exact-in swap
    the computed output as the minimum output, an exact-out swap the
    computed input as the maximum input. *)
Theorem zero_slippage_bound_is_counter_amount :
  forall (env : Uniswap.Env) (network_arg : option string)
         (this : Uniswap.Instance),
    Uniswap.constructor env network_arg = Returns this ->
    Uniswap.allowedSlippage this = {| numerator := 0; denominator := 100 |}
    /\ forall (w : Uniswap.World) (wallet : Wallet) (route : Route)
              (tokenAddress : string) (amount gasPrice : Z),
         let c := Uniswap.chainID this in
         let bound (call : Uniswap.ContractCall) :=
           bound_of (Uniswap.call_method call) (Uniswap.call_args call)
                    (Uniswap.call_value call) in
         let swapIn := Uniswap.swapExactIn this wallet route tokenAddress
                         amount gasPrice in
         let swapOut := Uniswap.swapExactOut this wallet route tokenAddress
                          amount gasPrice in
         let token d := mkAmount (TOKEN (mkToken c tokenAddress d None))
                                 amount in
         (* every call of an exact-in swap *)
         (forall call,
             In call (Uniswap.sent_calls (trace_of swapIn w)) ->
             exists d trade,
               Uniswap.decimals_on_chain w c tokenAddress = Returns d
               /\ exactIn route (token d) = Returns trade
               /\ counterAmount trade = raw (outputAmount trade)
               /\ bound call = Some (counterAmount trade))
         (* every call of an exact-out swap *)
         /\ (forall call,
                In call (Uniswap.sent_calls (trace_of swapOut w)) ->
                exists d trade,
                  Uniswap.decimals_on_chain w c tokenAddress = Returns d
                  /\ exactOut route (token d) = Returns trade
                  /\ counterAmount trade = raw (inputAmount trade)
                  /\ bound call = Some (counterAmount trade))
         (* an exact-in swap that gets as far as its trade sends one *)
         /\ (forall d trade contract,
                Uniswap.router this = Some contract ->
                Uniswap.decimals_on_chain w c tokenAddress = Returns d ->
                0 <= amount <= MaxUint256 ->
                exactIn route (token d) = Returns trade ->
                exists call,
                  Uniswap.sent_calls (trace_of swapIn w) = [call]
                  /\ Uniswap.call_contract call = contract
                  /\ bound call = Some (raw (outputAmount trade)))
         (* and so does an exact-out swap *)
         /\ (forall d trade contract,
                Uniswap.router this = Some contract ->
                Uniswap.decimals_on_chain w c tokenAddress = Returns d ->
                0 <= amount <= MaxUint256 ->
                exactOut route (token d) = Returns trade ->
                exists call,
                  Uniswap.sent_calls (trace_of swapOut w) = [call]
                  /\ Uniswap.call_contract call = contract
                  /\ bound call = Some (raw (inputAmount trade))).
Proof.
  intros env network_arg this Hnew.
  assert (Hzero : Uniswap.allowedSlippage this
                  = {| numerator := 0; denominator := 100 |}).
  { unfold Uniswap.constructor in Hnew.
    destruct (_ =? "kovan")%string; [now inversion Hnew |].
    destruct (_ =? "mainnet")%string; [now inversion Hnew | discriminate]. }
  split; [exact Hzero |].
  intros w wallet route tokenAddress amount gasPrice c bound swapIn swapOut
         token.
  assert (Hbuilt : forall contract trade d,
             bound (Uniswap.router_call contract wallet
                      (encode trade (Uniswap.options this wallet) d)
                      gasPrice)
             = Some (counterAmount trade)).
  { intros contract trade d. unfold bound.
    cbn [Uniswap.router_call Uniswap.call_method Uniswap.call_args
         Uniswap.call_value].
    rewrite bound_of_encode.
    cbn [Uniswap.options allowedSlippage]. rewrite Hzero.
    now rewrite boundAmount_zero_tolerance. }
  split; [| split; [| split]].
  - intros call Hsent.
    destruct (swap_sent w this wallet tokenAddress gasPrice swapIn
                (fun d trade =>
                   Uniswap.decimals_on_chain w c tokenAddress = Returns d
                   /\ exactIn route (token d) = Returns trade))
      with (call := call)
      as (d & trade & contract & [Hd Htrade] & _ & Hcall & _).
    + destruct (swapExactIn_cases w this wallet route tokenAddress amount
                  gasPrice) as [H | (d & trade & Hd & Htrade & H)];
        [left; exact H | right; exists d, trade; repeat split; assumption].
    + exact Hsent.
    + exists d, trade. split; [exact Hd |]. split; [exact Htrade |].
      pose proof (exactIn_shape _ _ _ Htrade) as (_ & Htype & _).
      split; [unfold counterAmount; now rewrite Htype |].
      rewrite Hcall. apply Hbuilt.
  - intros call Hsent.
    destruct (swap_sent w this wallet tokenAddress gasPrice swapOut
                (fun d trade =>
                   Uniswap.decimals_on_chain w c tokenAddress = Returns d
                   /\ exactOut route (token d) = Returns trade))
      with (call := call)
      as (d & trade & contract & [Hd Htrade] & _ & Hcall & _).
    + destruct (swapExactOut_cases w this wallet route tokenAddress amount
                  gasPrice) as [H | (d & trade & Hd & Htrade & H)];
        [left; exact H | right; exists d, trade; repeat split; assumption].
    + exact Hsent.
    + exists d, trade. split; [exact Hd |]. split; [exact Htrade |].
      pose proof (exactOut_shape _ _ _ Htrade) as (_ & Htype & _).
      split; [unfold counterAmount; now rewrite Htype |].
      rewrite Hcall. apply Hbuilt.
  - intros d trade contract Hrouter Hd Hrange Htrade.
    eexists. split; [| split].
    + unfold swapIn.
      apply (swapExactIn_sends w this wallet route tokenAddress amount
               gasPrice d trade contract Hrouter Hd Hrange Htrade).
    + reflexivity.
    + rewrite Hbuilt.
      pose proof (exactIn_shape _ _ _ Htrade) as (_ & Htype & _).
      unfold counterAmount. now rewrite Htype.
  - intros d trade contract Hrouter Hd Hrange Htrade.
    eexists. split; [| split].
    + unfold swapOut.
      apply (swapExactOut_sends w this wallet route tokenAddress amount
               gasPrice d trade contract Hrouter Hd Hrange Htrade).
    + reflexivity.
    + rewrite Hbuilt.
      pose proof (exactOut_shape _ _ _ Htrade) as (_ & Htype & _).
      unfold counterAmount. now rewrite Htype.
Qed.

Lemma zero_slippage_bound_is_counter_amount_witness :
  (exists call,
      Uniswap.sent_calls
        (trace_of (Uniswap.swapExactIn this_kovan wallet0 route_dai_mkr
                     dai_address 1000 1) chain_direct) = [call]
      /\ bound_of (Uniswap.call_method call) (Uniswap.call_args call)
                  (Uniswap.call_value call) = Some 1992)
  /\ (exists call,
         Uniswap.sent_calls
           (trace_of (Uniswap.swapExactOut this_kovan wallet0 route_dai_mkr
                        mkr_address 1992 1) chain_direct) = [call]
         /\ bound_of (Uniswap.call_method call) (Uniswap.call_args call)
                     (Uniswap.call_value call) = Some 1000)
  /\ bound_of (Uniswap.call_method call_mkr_exact)
              (Uniswap.call_args call_mkr_exact)
              (Uniswap.call_value call_mkr_exact) = Some 1000.
Proof.
  pose proof (proj2 (zero_slippage_bound_is_counter_amount
                       env0 (Some "kovan") this_kovan eq_refl)
                    chain_direct wallet0 route_dai_mkr) as Hswaps.
  assert (Hrange : forall n, 0 <= n <= 2000 -> 0 <= n <= MaxUint256).
  { intros n Hn. assert (2000 <= MaxUint256) by (vm_compute; discriminate).
    lia. }
  split; [| split].
  - destruct (Hswaps dai_address 1000 1) as (_ & _ & Hsends & _).
    destruct (exactIn route_dai_mkr
                (mkAmount (TOKEN (mkToken KOVAN dai_address 18 None)) 1000))
      as [trade | e] eqn:Htrade; [| vm_compute in Htrade; discriminate].
    destruct (Hsends 18 trade _ eq_refl eq_refl (Hrange 1000 ltac:(lia))
                Htrade) as (call & Hsent & _ & Hbound).
    exists call. split; [exact Hsent |]. rewrite Hbound.
    vm_compute in Htrade. injection Htrade as <-. reflexivity.
  - destruct (Hswaps mkr_address 1992 1) as (_ & _ & _ & Hsends).
    destruct (exactOut route_dai_mkr
                (mkAmount (TOKEN (mkToken KOVAN mkr_address 18 None)) 1992))
      as [trade | e] eqn:Htrade; [| vm_compute in Htrade; discriminate].
    destruct (Hsends 18 trade _ eq_refl eq_refl (Hrange 1992 ltac:(lia))
                Htrade) as (call & Hsent & _ & Hbound).
    exists call. split; [exact Hsent |]. rewrite Hbound.
    vm_compute in Htrade. injection Htrade as <-. reflexivity.
  - destruct (Hswaps mkr_address 1992 1) as (_ & Hevery & _).
    destruct (Hevery call_mkr_exact) as (d & trade & Hd & Htrade & _ & Hbound).
    + vm_compute. left. reflexivity.
    + rewrite Hbound. injection Hd as <-.
      vm_compute in Htrade. injection Htrade as <-. reflexivity.
Defined.

(** The scenario in numbers: 1,000 units in give 1,992 units out, and 1,992
    is the minimum output the call carries. *)
Example zero_slippage_scenario :
  (exists trade,
      exactIn route_dai_mkr (mkAmount (TOKEN dai) 1000) = Returns trade
      /\ counterAmount trade = 1992)
  /\ bound_of (Uniswap.call_method call_dai_mkr)
              (Uniswap.call_args call_dai_mkr)
              (Uniswap.call_value call_dai_mkr) = Some 1992
  /\ Uniswap.sent_calls
       (trace_of (Uniswap.swapExactIn this_kovan wallet0 route_dai_mkr
                    dai_address 1000 1) chain_direct) = [call_dai_mkr]
  /\ Uniswap.sent_calls
       (trace_of (Uniswap.swapExactOut this_kovan wallet0 route_dai_mkr
                    mkr_address 1992 1) chain_direct) = [call_mkr_exact].
Proof.
  split; [| split; [| split]].
  - eexists. split; [vm_compute; reflexivity | reflexivity].
  - reflexivity.
  - vm_compute. reflexivity.
  - vm_compute. reflexivity.
Qed.

(** ** Failures of the Ethereum service *)

(** C4, as the code has it. When the call behind [getETHBalance],
    [getERC20Balance], [getERC20Allowance], [approveERC20] or [deposit]
    fails, the operation logs the error and resolves to a string: the
    error's [reason] if it has a non-empty one, otherwise a fixed message
    naming the operation.  [getETHBalance], [approveERC20] and [deposit],
    which do all their work inside the [try], never throw. *)
Theorem service_failures_become_strings :
  forall (w : Ethereum.World) (wallet : Wallet)
         (spender tokenAddress : string) (decimals : option Z)
         (amount gasPrice : Z) (e : JsError),
    let owner := wallet_address wallet in
    let approval :=
      {| Ethereum.approve_token := tokenAddress;
         Ethereum.approve_signer := wallet;
         Ethereum.approve_spender := spender;
         Ethereum.approve_amount := amount;
         Ethereum.approve_gasPrice := gasPrice * 10 ^ 9;
         Ethereum.approve_gasLimit := Ethereum.APPROVAL_GAS_LIMIT w |} in
    let payment :=
      {| Ethereum.deposit_token := tokenAddress;
         Ethereum.deposit_signer := wallet;
         Ethereum.deposit_value := amount;
         Ethereum.deposit_gasPrice := gasPrice * 10 ^ 9;
         Ethereum.deposit_gasLimit := Ethereum.APPROVAL_GAS_LIMIT w |} in
    let failed (op : Ethereum.Promise Ethereum.Answer)
               (asked : Ethereum.Event) (dflt : string) :=
      exec op w
      = (Returns (Ethereum.Text (or_string (reason e) dflt)),
         {| journal := [asked; Ethereum.LoggerError e]; ticks := 0 |}) in
    let connected := Ethereum.new_Contract w tokenAddress = Returns tt in
    (Ethereum.wallet_getBalance w wallet = Throws e ->
     failed (Ethereum.getETHBalance wallet)
            (Ethereum.GetBalance wallet) "error ETH balance lookup")
    /\ (connected ->
        Ethereum.contract_balanceOf w tokenAddress owner = Throws e ->
        failed (Ethereum.getERC20Balance wallet tokenAddress decimals)
               (Ethereum.BalanceOf tokenAddress owner) "error balance lookup")
    /\ (connected ->
        Ethereum.contract_allowance w tokenAddress owner spender = Throws e ->
        failed (Ethereum.getERC20Allowance wallet spender tokenAddress decimals)
               (Ethereum.Allowance tokenAddress owner spender)
               "error allowance lookup")
    /\ (connected ->
        Ethereum.contract_approve w approval = Throws e ->
        failed (Ethereum.approveERC20 wallet spender tokenAddress amount
                  gasPrice)
               (Ethereum.Approve approval) "error approval")
    /\ (connected ->
        Ethereum.contract_deposit w payment = Throws e ->
        failed (Ethereum.deposit wallet tokenAddress amount gasPrice)
               (Ethereum.Deposit payment) "error deposit")
    /\ (exists a, result_of (Ethereum.getETHBalance wallet) w = Returns a)
    /\ (exists a, result_of (Ethereum.approveERC20 wallet spender
                               tokenAddress amount gasPrice) w = Returns a)
    /\ (exists a, result_of (Ethereum.deposit wallet tokenAddress amount
                               gasPrice) w = Returns a).
Proof.
  intros w wallet spender tokenAddress decimals amount gasPrice e owner
         approval payment failed connected.
  unfold failed, connected, Ethereum.getETHBalance, Ethereum.getERC20Balance,
         Ethereum.getERC20Allowance, Ethereum.approveERC20, Ethereum.deposit,
         Ethereum.return_reason.
  fold owner.
  repeat apply conj.
  - intros H. run. now rewrite H.
  - intros Hc H. run. now rewrite Hc, H.
  - intros Hc H. run. now rewrite Hc, H.
  - intros Hc H.
    unfold exec, start, bind, try_catch, ask, emit, lift_world, ret.
    cbn -[Ethereum.APPROVAL_GAS_LIMIT Z.mul Z.pow].
    fold approval. now rewrite Hc, H.
  - intros Hc H.
    unfold exec, start, bind, try_catch, ask, emit, lift_world, ret.
    cbn -[Ethereum.APPROVAL_GAS_LIMIT Z.mul Z.pow].
    fold payment. now rewrite Hc, H.
  - run. destruct (Ethereum.wallet_getBalance w wallet); eexists; reflexivity.
  - run. destruct (Ethereum.new_Contract w tokenAddress);
      [destruct (Ethereum.contract_approve w _) |]; eexists; reflexivity.
  - run. destruct (Ethereum.new_Contract w tokenAddress);
      [destruct (Ethereum.contract_deposit w _) |]; eexists; reflexivity.
Qed.

Lemma service_failures_become_strings_witness :
  exec (Ethereum.getETHBalance wallet0) eth_down
  = (Returns (Ethereum.Text "error ETH balance lookup"),
     {| journal := [Ethereum.GetBalance wallet0;
                    Ethereum.LoggerError connection_refused];
        ticks := 0 |}).
Proof.
  exact (proj1 (service_failures_become_strings
                  eth_down wallet0 "0x7a250d5630B4cF539739dF2C5dAcb4c659F2488D"
                  dai_address None 1 1 connection_refused)
               eq_refl).
Defined.

(** C4, as the specification words it, fails: against a node that cannot
    be reached, the balance look-up and the approval do not fail with a
    typed result but resolve to the bare strings 'error ETH balance
    lookup' and 'error approval'. *)
Lemma service_failure_is_generic_string :
  Ethereum.wallet_getBalance eth_down wallet0 = Throws connection_refused
  /\ result_of (Ethereum.getETHBalance wallet0) eth_down
     = Returns (Ethereum.Text "error ETH balance lookup")
  /\ result_of (Ethereum.approveERC20 wallet0
                  "0x7a250d5630B4cF539739dF2C5dAcb4c659F2488D"
                  dai_address 1 1) eth_down
     = Returns (Ethereum.Text "error approval")
  /\ ~ Spec.typed_failures
         (result_of (Ethereum.getETHBalance wallet0) eth_down).
Proof.
  split; [reflexivity |]. split; [reflexivity |]. split; [reflexivity |].
  unfold Spec.typed_failures. intros H.
  apply (H "error ETH balance lookup"). reflexivity.
Qed.

(** ** Polling a receipt *)

(** What a poll does, whatever the node answers. *)
Lemma poll_run (w : Routes.World) (req : Routes.Body)
  (answer : option TransactionReceipt) :
  Routes.getTransactionReceipt w (Routes.txHash req) = Returns answer ->
  let body :=
    {| Routes.p_network := Routes.networkName w;
       Routes.p_timestamp := Routes.clock w 0;
       Routes.p_latency := Routes.latency (Routes.clock w 0) (Routes.clock w 1);
       Routes.p_txHash := Routes.txHash req;
       Routes.p_confirmed := Routes.is_confirmed answer;
       Routes.p_receipt :=
         match answer with
         | Some r => if Routes.is_confirmed answer
                     then Routes.Full r else Routes.EmptyObject
         | None => Routes.EmptyObject
         end |} in
  exec (Routes.poll req) w
  = (Returns tt,
     {| journal := [Routes.GetTransactionReceipt (Routes.txHash req);
                    Routes.Respond 200 (Routes.PollJson body)];
        ticks := 2 |}).
Proof.
  intros H body. unfold Routes.poll, Routes.respond. run. rewrite H.
  reflexivity.
Qed.

(** C8. A poll asks the node for the receipt and answers; it does nothing
    else.  While the node has no receipt for the hash, or one without a
    block number, every poll reports [confirmed: false] with the empty
    receipt.  Once the node has the receipt of an inclusion (its block
    number is not 0: the blocks that hold transactions are numbered from
    1), every poll reports [confirmed: true] with that very receipt.  Two
    polls to which the node gives the same answer report the same, at
    whatever times they are made. *)
Theorem poll_is_idempotent :
  forall (w : Routes.World) (req : Routes.Body),
    let h := Routes.txHash req in
    let reported (w : Routes.World) :=
      option_map (fun b => (Routes.p_confirmed b, Routes.p_receipt b))
                 (Routes.poll_response w req) in
    (* a read and a response, nothing more *)
    (forall answer,
        Routes.getTransactionReceipt w h = Returns answer ->
        exists body,
          trace_of (Routes.poll req) w
          = [Routes.GetTransactionReceipt h;
             Routes.Respond 200 (Routes.PollJson body)]
          /\ Routes.p_txHash body = h)
    (* before inclusion: pending *)
    /\ (Routes.getTransactionReceipt w h = Returns None ->
        reported w = Some (false, Routes.EmptyObject))
    /\ (forall r,
           Routes.getTransactionReceipt w h = Returns (Some r) ->
           blockNumber r = None ->
           reported w = Some (false, Routes.EmptyObject))
    (* after inclusion: the receipt *)
    /\ (forall r n,
           Routes.getTransactionReceipt w h = Returns (Some r) ->
           blockNumber r = Some n -> n <> 0 ->
           reported w = Some (true, Routes.Full r))
    (* the same answer from the node, the same report *)
    /\ (forall w' answer,
           Routes.getTransactionReceipt w h = Returns answer ->
           Routes.getTransactionReceipt w' h = Returns answer ->
           reported w' = reported w).
Proof.
  intros w req h reported.
  assert (Hreported :
    forall w0 answer,
      Routes.getTransactionReceipt w0 h = Returns answer ->
      reported w0
      = Some (Routes.is_confirmed answer,
              match answer with
              | Some r => if Routes.is_confirmed answer
                          then Routes.Full r else Routes.EmptyObject
              | None => Routes.EmptyObject
              end)).
  { intros w0 answer H. unfold reported, Routes.poll_response, trace_of.
    rewrite (poll_run w0 req answer H). reflexivity. }
  split; [| split; [| split; [| split]]].
  - intros answer H. eexists. unfold trace_of.
    rewrite (poll_run w req answer H). split; reflexivity.
  - intros H. now rewrite (Hreported w None H).
  - intros r H Hblock. rewrite (Hreported w (Some r) H).
    unfold Routes.is_confirmed. now rewrite Hblock.
  - intros r n H Hblock Hpos. rewrite (Hreported w (Some r) H).
    unfold Routes.is_confirmed, truthy_number. rewrite Hblock.
    destruct (Z.eqb_spec n 0) as [-> | _]; [contradiction | reflexivity].
  - intros w' answer H H'.
    now rewrite (Hreported w answer H), (Hreported w' answer H').
Qed.

Lemma poll_is_idempotent_witness :
  option_map (fun b => (Routes.p_confirmed b, Routes.p_receipt b))
             (Routes.poll_response (api None) poll_abc)
  = Some (false, Routes.EmptyObject)
  /\ option_map (fun b => (Routes.p_confirmed b, Routes.p_receipt b))
                (Routes.poll_response (api (Some receipt7)) poll_abc)
     = Some (true, Routes.Full receipt7).
Proof.
  split.
  - exact (proj1 (proj2 (poll_is_idempotent (api None) poll_abc)) eq_refl).
  - apply (proj1 (proj2 (proj2 (proj2 (poll_is_idempotent
                                         (api (Some receipt7)) poll_abc))))
                 receipt7 7); [reflexivity | reflexivity | discriminate].
Defined.

(** ** Approving a spender *)

(** The amount an approve request asks for, from the body and the token. *)
Lemma approval_amount_run (w : Routes.World) (req : Routes.Body)
  (info : Routes.TokenERC20Info) (s : Run Routes.Event) :
  Routes.approval_amount req info w s
  = (match Routes.amount req with
     | Some a => if (a =? EmptyString)%string then Returns MaxUint256
                 else Routes.parseUnits w a (Routes.decimals info)
     | None => Returns MaxUint256
     end, s).
Proof.
  unfold Routes.approval_amount.
  destruct (Routes.amount req) as [a |]; [| reflexivity].
  destruct (a =? EmptyString)%string; reflexivity.
Qed.

(** Which amounts an approve request hands to the service. *)
Lemma approve_amounts (w : Routes.World) (req : Routes.Body) :
  Routes.approved_amounts (trace_of (Routes.approve req) w)
  = match Routes.getWallet w (Routes.privateKey req) with
    | Throws _ => []
    | Returns _ =>
        match Routes.getERC20TokenAddress w (Routes.token req) with
        | Returns (Some info) =>
            match result_of (Routes.approval_amount req info) w with
            | Returns a => [a]
            | Throws _ => []
            end
        | _ => []
        end
    end.
Proof.
  unfold result_of, trace_of, exec, Routes.approve, bind, try_catch.
  unfold Date_now at 1. unfold lift_world at 1. cbv beta iota.
  destruct (truthy_string (Routes.spenders w (Routes.connector req)));
    cbn [negb]; unfold Routes.respond, emit, ret, ask; cbn [existsb journal
      ticks start app Routes.is_response orb];
    (destruct (Routes.getWallet w (Routes.privateKey req)) as [wallet | e];
     [| reflexivity]);
    (destruct (Routes.getERC20TokenAddress w (Routes.token req))
       as [[info |] | e]; [| reflexivity | reflexivity]);
    unfold lift_world at 1; cbv beta iota;
    rewrite !approval_amount_run;
    (destruct (Routes.amount req) as [a |];
     [destruct (a =? EmptyString)%string;
      [| destruct (Routes.parseUnits w a (Routes.decimals info));
         [| reflexivity]] |]);
    cbv beta iota;
    destruct (Routes.approveERC20 w _ _ _ _ _); reflexivity.
Qed.

(** C9. Without an amount in the request (none, or the empty string) the
    only amount the handler asks the service to approve is the largest
    256-bit unsigned integer, 2^256 - 1, and it does ask for it once the
    wallet and the token resolve.  With an amount, what it asks to approve
    is [parseUnits(amount, decimals)] for the decimals of the token, and
    nothing if that conversion fails. *)
Theorem approve_defaults_to_MaxUint256 :
  forall (w : Routes.World) (req : Routes.Body),
    let asked := Routes.approved_amounts (trace_of (Routes.approve req) w) in
    MaxUint256 = 2 ^ 256 - 1
    /\ (truthy_string (Routes.amount req) = false ->
        (forall a, In a asked -> a = MaxUint256)
        /\ (forall wallet info,
               Routes.getWallet w (Routes.privateKey req) = Returns wallet ->
               Routes.getERC20TokenAddress w (Routes.token req)
               = Returns (Some info) ->
               asked = [MaxUint256]))
    /\ (forall a wallet info,
           Routes.amount req = Some a -> a <> EmptyString ->
           Routes.getWallet w (Routes.privateKey req) = Returns wallet ->
           Routes.getERC20TokenAddress w (Routes.token req)
           = Returns (Some info) ->
           asked = match Routes.parseUnits w a (Routes.decimals info) with
                   | Returns scaled => [scaled]
                   | Throws _ => []
                   end).
Proof.
  intros w req asked. unfold asked. rewrite approve_amounts.
  split; [reflexivity |]. split.
  - intros Hnone.
    assert (Hamount : forall info,
               result_of (Routes.approval_amount req info) w
               = Returns MaxUint256).
    { intros info. unfold result_of, exec.
      rewrite approval_amount_run. cbn [fst].
      unfold truthy_string in Hnone.
      destruct (Routes.amount req) as [a |]; [| reflexivity].
      destruct (a =? EmptyString)%string; [reflexivity | discriminate]. }
    split.
    + destruct (Routes.getWallet w _) as [wallet | e0]; [| contradiction].
      destruct (Routes.getERC20TokenAddress w _) as [[info |] | e];
        try contradiction.
      rewrite Hamount. intros a [<- | []]. reflexivity.
    + intros wallet info -> ->. now rewrite Hamount.
  - intros a wallet info Ha Hne -> ->.
    unfold result_of, exec. rewrite approval_amount_run, Ha. cbn [fst].
    destruct (String.eqb_spec a EmptyString) as [-> | _];
      [contradiction | reflexivity].
Qed.

Lemma approve_defaults_to_MaxUint256_witness :
  Routes.approved_amounts
    (trace_of (Routes.approve (approve_dai None)) (api None))
  = [MaxUint256]
  /\ Routes.approved_amounts
       (trace_of (Routes.approve (approve_dai (Some "2"))) (api None))
     = [2 * 10 ^ 18].
Proof.
  split.
  - exact (proj2 (proj1 (proj2 (approve_defaults_to_MaxUint256
                                  (api None) (approve_dai None)))
                        eq_refl)
                 wallet0 dai_info eq_refl eq_refl).
  - apply (proj2 (proj2 (approve_defaults_to_MaxUint256
                           (api None) (approve_dai (Some "2"))))
                 "2" wallet0 dai_info);
      [reflexivity | discriminate | reflexivity | reflexivity].
Defined.

(** ** Edges of the claims above *)

(** The truthiness test of the poll handler takes block number 0 for no
    block number: such a receipt would be reported as pending. *)
Remark poll_block_zero_is_pending :
  Routes.poll_response
    (api (Some {| transactionHash := "0xabc"; blockNumber := Some 0;
                  status := Some 1 |})) poll_abc
  = Some {| Routes.p_network := "kovan";
            Routes.p_timestamp := 1600000000000;
            Routes.p_latency := Routes.latency 1600000000000 1600000000025;
            Routes.p_txHash := Some "0xabc";
            Routes.p_confirmed := false;
            Routes.p_receipt := Routes.EmptyObject |}.
Proof. reflexivity. Qed.

(** Before a token list is loaded, [erc20TokenList] is the empty object and
    both look-ups throw a [TypeError]. *)
Remark lookup_without_token_list :
  forall (this : Ethereum.Instance) (q : string),
    Ethereum.tokens (Ethereum.erc20TokenList this) = None ->
    (exists e, Ethereum.getERC20TokenAddresses this q = Throws e
               /\ name e = "TypeError")
    /\ (exists e, Ethereum.getERC20TokenByAddress this q = Throws e
                  /\ name e = "TypeError").
Proof.
  intros this q H.
  unfold Ethereum.getERC20TokenAddresses, Ethereum.getERC20TokenByAddress,
         Ethereum.first_match.
  rewrite H. split; eexists; split; reflexivity.
Qed.

(** An omitted network argument stands for 'kovan'. *)
Remark constructor_default_network (env : Uniswap.Env) :
  Uniswap.constructor env None = Uniswap.constructor env (Some "kovan").
Proof. reflexivity. Qed.

(** A missing spender is answered with status 500, yet the handler goes on
    and asks for the approval; its own response then fails twice, and the
    request ends with the error of the second failure. *)
Remark approve_without_spender_goes_on :
  let req := {| Routes.connector := Some "balancer";
                Routes.privateKey := Some "0xkey";
                Routes.token := Some "DAI";
                Routes.gasPrice := None;
                Routes.amount := None;
                Routes.txHash := None |} in
  Routes.response_of (trace_of (Routes.approve req) (api None))
  = Some (500, Routes.Plain "Wrong connector")
  /\ Routes.approved_amounts (trace_of (Routes.approve req) (api None))
     = [MaxUint256]
  /\ exists e, result_of (Routes.approve req) (api None) = Throws e.
Proof.
  cbv zeta. split; [reflexivity |]. split; [reflexivity |].
  eexists. reflexivity.
Qed.

Example toUpperCase_mixed : toUpperCase "wEth-0x4f" = "WETH-0X4F".
Proof. reflexivity. Qed.

Example two_hop_trade :
  exists r trade,
    new_Route [mkPair dai (WETH KOVAN) 1000000 2000000;
               mkPair mkr (WETH KOVAN) 1000000 2000000]
              (TOKEN dai) (TOKEN mkr) = Returns r
    /\ path r = [dai; WETH KOVAN; mkr]
    /\ exactIn r (mkAmount (TOKEN dai) 1000) = Returns trade
    /\ raw (outputAmount trade) = 992.
Proof.
  eexists. eexists. split; [reflexivity |]. split; [reflexivity |].
  split; [vm_compute; reflexivity | reflexivity].
Qed.

(* ================================================================== *)
(** * Further properties of the code *)
(* ================================================================== *)

(** ** The swap service *)

Lemma encode_args_recipient_and_path (trade : Trade) (options : TradeOptions)
  (d : Z) :
  In (Address (recipient options)) (args (encode trade options d))
  /\ In (AddressList (map address (path (route trade))))
        (args (encode trade options d)).
Proof.
  unfold encode.
  destruct (tradeType trade),
           (is_ether (currency (inputAmount trade))),
           (is_ether (currency (outputAmount trade))); cbn; tauto.
Qed.

Lemma swapExactIn_cases_route (w : Uniswap.World) (this : Uniswap.Instance)
  (wallet : Wallet) (route0 : Route) (tokenAddress : string)
  (amount gasPrice : Z) :
  let c := Uniswap.chainID this in
  let swap := Uniswap.swapExactIn this wallet route0 tokenAddress
                amount gasPrice in
  (exists e,
      exec swap w
      = (Throws e, {| journal := [Uniswap.FetchTokenData c tokenAddress];
                      ticks := 0 |}))
  \/ (exists (d : Z) trade,
         route trade = route0
         /\ exec swap w
            = Uniswap.call_router this wallet
                (encode trade (Uniswap.options this wallet)
                        (Uniswap.clock w 0 / 1000 + Uniswap.TTL))
                gasPrice w
                {| journal := [Uniswap.FetchTokenData c tokenAddress];
                   ticks := 1 |}).
Proof.
  intros c swap.
  destruct (swapExactIn_cases w this wallet route0 tokenAddress amount
              gasPrice) as [H | (d & trade & _ & Htrade & H)].
  - left. exact H.
  - right. exists d, trade. split; [| exact H].
    now apply exactIn_shape in Htrade.
Qed.

Lemma swapExactOut_cases_route (w : Uniswap.World) (this : Uniswap.Instance)
  (wallet : Wallet) (route0 : Route) (tokenAddress : string)
  (amount gasPrice : Z) :
  let c := Uniswap.chainID this in
  let swap := Uniswap.swapExactOut this wallet route0 tokenAddress
                amount gasPrice in
  (exists e,
      exec swap w
      = (Throws e, {| journal := [Uniswap.FetchTokenData c tokenAddress];
                      ticks := 0 |}))
  \/ (exists (d : Z) trade,
         route trade = route0
         /\ exec swap w
            = Uniswap.call_router this wallet
                (encode trade (Uniswap.options this wallet)
                        (Uniswap.clock w 0 / 1000 + Uniswap.TTL))
                gasPrice w
                {| journal := [Uniswap.FetchTokenData c tokenAddress];
                   ticks := 1 |}).
Proof.
  intros c swap.
  destruct (swapExactOut_cases w this wallet route0 tokenAddress amount
              gasPrice) as [H | (d & trade & _ & Htrade & H)].
  - left. exact H.
  - right. exists d, trade. split; [| exact H].
    now apply exactOut_shape in Htrade.
Qed.

(** X1. Every call a swap hands to the node goes to the configured router
    contract, is signed by the caller's wallet, carries the fixed gas limit
    1,200,000 and the gas price times 10^9, names the wallet's own address
    as recipient and lists the addresses along the route it was given. *)
Theorem swap_call_is_addressed_and_priced :
  forall (w : Uniswap.World) (this : Uniswap.Instance) (wallet : Wallet)
         (route0 : Route) (tokenAddress : string) (amount gasPrice : Z)
         (call : Uniswap.ContractCall),
    In call (Uniswap.sent_calls
               (trace_of (Uniswap.swapExactIn this wallet route0 tokenAddress
                            amount gasPrice) w))
    \/ In call (Uniswap.sent_calls
                  (trace_of (Uniswap.swapExactOut this wallet route0
                               tokenAddress amount gasPrice) w)) ->
    Uniswap.router this = Some (Uniswap.call_contract call)
    /\ Uniswap.call_signer call = wallet
    /\ Uniswap.call_gasLimit call = 1200000
    /\ Uniswap.call_gasPrice call = gasPrice * 1000000000
    /\ In (Address (wallet_address wallet)) (Uniswap.call_args call)
    /\ In (AddressList (map address (path route0))) (Uniswap.call_args call).
Proof.
  intros w this wallet route0 tokenAddress amount gasPrice call Hsent.
  assert (Hcall : exists trade contract deadline,
             route trade = route0
             /\ Uniswap.router this = Some contract
             /\ call = Uniswap.router_call contract wallet
                         (encode trade (Uniswap.options this wallet) deadline)
                         gasPrice).
  { destruct Hsent as [Hsent | Hsent].
    - destruct (swap_sent w this wallet tokenAddress gasPrice _
                  (fun _ trade => route trade = route0)
                  (swapExactIn_cases_route w this wallet route0 tokenAddress
                     amount gasPrice) call Hsent)
        as (d & trade & contract & Hroute & Hrouter & Hcall & _).
      now exists trade, contract, (Uniswap.clock w 0 / 1000 + Uniswap.TTL).
    - destruct (swap_sent w this wallet tokenAddress gasPrice _
                  (fun _ trade => route trade = route0)
                  (swapExactOut_cases_route w this wallet route0 tokenAddress
                     amount gasPrice) call Hsent)
        as (d & trade & contract & Hroute & Hrouter & Hcall & _).
      now exists trade, contract, (Uniswap.clock w 0 / 1000 + Uniswap.TTL). }
  destruct Hcall as (trade & contract & deadline & Hroute & Hrouter & ->).
  cbn [Uniswap.router_call Uniswap.call_contract Uniswap.call_signer
       Uniswap.call_gasLimit Uniswap.call_gasPrice Uniswap.call_args].
  destruct (encode_args_recipient_and_path trade
              (Uniswap.options this wallet) deadline) as [Hto Hpath].
  rewrite Hroute in Hpath.
  repeat apply conj; try assumption; reflexivity.
Qed.

Lemma swap_call_is_addressed_and_priced_witness :
  Uniswap.router this_kovan = Some (Uniswap.call_contract call_dai_mkr)
  /\ Uniswap.call_signer call_dai_mkr = wallet0
  /\ Uniswap.call_gasLimit call_dai_mkr = 1200000
  /\ Uniswap.call_gasPrice call_dai_mkr = 1 * 1000000000
  /\ In (Address (wallet_address wallet0)) (Uniswap.call_args call_dai_mkr)
  /\ In (AddressList (map address (path route_dai_mkr)))
        (Uniswap.call_args call_dai_mkr).
Proof.
  apply (swap_call_is_addressed_and_priced
           chain_direct this_kovan wallet0 route_dai_mkr dai_address 1000 1
           call_dai_mkr).
  left. vm_compute. left. reflexivity.
Defined.

(** X2. A swap hands at most one transaction to the node.  Without a
    configured router address it hands over none and fails; and when the
    token cannot be resolved it fails with that error before anything else
    happens: nothing is sent and the clock is not read. *)
Theorem swap_sends_at_most_one_transaction :
  forall (w : Uniswap.World) (this : Uniswap.Instance) (wallet : Wallet)
         (route0 : Route) (tokenAddress : string) (amount gasPrice : Z),
    let c := Uniswap.chainID this in
    let swapIn := Uniswap.swapExactIn this wallet route0 tokenAddress
                    amount gasPrice in
    let swapOut := Uniswap.swapExactOut this wallet route0 tokenAddress
                     amount gasPrice in
    let once (swap : Uniswap.Promise TxValue) :=
      (List.length (Uniswap.sent_calls (trace_of swap w)) <= 1)%nat
      /\ (Uniswap.router this = None ->
          Uniswap.sent_calls (trace_of swap w) = []
          /\ exists e, result_of swap w = Throws e)
      /\ (forall e,
             Uniswap.decimals_on_chain w c tokenAddress = Throws e ->
             exec swap w
             = (Throws e,
                {| journal := [Uniswap.FetchTokenData c tokenAddress];
                   ticks := 0 |})) in
    once swapIn /\ once swapOut.
Proof.
  intros w this wallet route0 tokenAddress amount gasPrice c swapIn swapOut
         once.
  assert (Hgen : forall swap : Uniswap.Promise TxValue,
    ((exists e,
         exec swap w
         = (Throws e, {| journal := [Uniswap.FetchTokenData c tokenAddress];
                         ticks := 0 |}))
     \/ (exists (d : Z) trade,
            route trade = route0
            /\ exec swap w
               = Uniswap.call_router this wallet
                   (encode trade (Uniswap.options this wallet)
                           (Uniswap.clock w 0 / 1000 + Uniswap.TTL))
                   gasPrice w
                   {| journal := [Uniswap.FetchTokenData c tokenAddress];
                      ticks := 1 |})) ->
    (List.length (Uniswap.sent_calls (trace_of swap w)) <= 1)%nat
    /\ (Uniswap.router this = None ->
        Uniswap.sent_calls (trace_of swap w) = []
        /\ exists e, result_of swap w = Throws e)).
  { intros swap Hcases. unfold trace_of, result_of.
    destruct Hcases as [[e ->] | (d & trade & _ & ->)].
    - cbn. split; [lia |]. intros _. split; [reflexivity | now exists e].
    - destruct (Uniswap.router this) as [contract |] eqn:Hrouter.
      + rewrite (call_router_run _ _ _ _ contract _ _ Hrouter).
        split; [| discriminate].
        destruct (Uniswap.send w _); cbn; lia.
      + destruct (call_router_unconfigured this wallet
                    (encode trade (Uniswap.options this wallet)
                            (Uniswap.clock w 0 / 1000 + Uniswap.TTL))
                    gasPrice w
                    {| journal := [Uniswap.FetchTokenData c tokenAddress];
                       ticks := 1 |} Hrouter) as [e ->].
        cbn. split; [lia |]. intros _. split; [reflexivity | now exists e]. }
  split.
  - destruct (Hgen swapIn (swapExactIn_cases_route w this wallet route0
                             tokenAddress amount gasPrice)) as [H1 H2].
    split; [exact H1 |]. split; [exact H2 |].
    intros e He. unfold swapIn, Uniswap.swapExactIn, exec, bind.
    rewrite fetchTokenData_run. fold c. now rewrite He.
  - destruct (Hgen swapOut (swapExactOut_cases_route w this wallet route0
                              tokenAddress amount gasPrice)) as [H1 H2].
    split; [exact H1 |]. split; [exact H2 |].
    intros e He. unfold swapOut, Uniswap.swapExactOut, exec, bind.
    rewrite fetchTokenData_run. fold c. now rewrite He.
Qed.

Lemma swap_sends_at_most_one_transaction_witness :
  Uniswap.sent_calls
    (trace_of (Uniswap.swapExactIn this_no_router wallet0 route_dai_mkr
                 dai_address 1000 1) chain_direct) = []
  /\ exec (Uniswap.swapExactOut this_kovan wallet0 route_dai_mkr
             mkr_address 1992 1) chain_empty
     = (Throws no_contract,
        {| journal := [Uniswap.FetchTokenData KOVAN mkr_address];
           ticks := 0 |}).
Proof.
  split.
  - exact (proj1 (proj1 (proj2 (proj1 (swap_sends_at_most_one_transaction
                                         chain_direct this_no_router wallet0
                                         route_dai_mkr dai_address 1000 1)))
                        eq_refl)).
  - exact (proj2 (proj2 (proj2 (swap_sends_at_most_one_transaction
                                  chain_empty this_kovan wallet0
                                  route_dai_mkr mkr_address 1992 1)))
                 no_contract eq_refl).
Defined.

(** X3. When the node refuses the transaction, the swap fails with the
    node's error right after the attempt: no hash is logged and nothing is
    waited for. *)
Theorem swap_fails_when_node_refuses :
  forall (w : Uniswap.World) (this : Uniswap.Instance) (wallet : Wallet)
         (route0 : Route) (tokenAddress : string) (amount gasPrice : Z)
         (call : Uniswap.ContractCall) (e : JsError),
    let c := Uniswap.chainID this in
    let refused (swap : Uniswap.Promise TxValue) :=
      In call (Uniswap.sent_calls (trace_of swap w)) ->
      Uniswap.send w call = Throws e ->
      exec swap w
      = (Throws e,
         {| journal := [Uniswap.FetchTokenData c tokenAddress;
                        Uniswap.SendTransaction call];
            ticks := 1 |}) in
    refused (Uniswap.swapExactIn this wallet route0 tokenAddress amount
               gasPrice)
    /\ refused (Uniswap.swapExactOut this wallet route0 tokenAddress amount
                  gasPrice).
Proof.
  intros w this wallet route0 tokenAddress amount gasPrice call e c refused.
  assert (Hgen : forall swap : Uniswap.Promise TxValue,
    ((exists e0,
         exec swap w
         = (Throws e0, {| journal := [Uniswap.FetchTokenData c tokenAddress];
                          ticks := 0 |}))
     \/ (exists (d : Z) trade,
            route trade = route0
            /\ exec swap w
               = Uniswap.call_router this wallet
                   (encode trade (Uniswap.options this wallet)
                           (Uniswap.clock w 0 / 1000 + Uniswap.TTL))
                   gasPrice w
                   {| journal := [Uniswap.FetchTokenData c tokenAddress];
                      ticks := 1 |})) ->
    refused swap).
  { intros swap Hcases. unfold refused, trace_of.
    destruct Hcases as [[e0 ->] | (d & trade & _ & ->)];
      [cbn; contradiction |].
    destruct (Uniswap.router this) as [contract |] eqn:Hrouter.
    - rewrite (call_router_run _ _ _ _ contract _ _ Hrouter).
      destruct (Uniswap.send w (Uniswap.router_call _ _ _ _))
        as [tx | e'] eqn:Hsend; cbn.
      + intros [<- | []] Hsend'. rewrite Hsend in Hsend'. discriminate.
      + intros [<- | []] Hsend'. rewrite Hsend in Hsend'.
        now inversion Hsend'.
    - destruct (call_router_unconfigured this wallet
                  (encode trade (Uniswap.options this wallet)
                          (Uniswap.clock w 0 / 1000 + Uniswap.TTL))
                  gasPrice w
                  {| journal := [Uniswap.FetchTokenData c tokenAddress];
                     ticks := 1 |} Hrouter) as [e0 ->].
      cbn. contradiction. }
  split; apply Hgen;
    [apply swapExactIn_cases_route | apply swapExactOut_cases_route].
Qed.

Lemma swap_fails_when_node_refuses_witness :
  exec swap_1000_dai chain_refusing
  = (Throws insufficient_funds,
     {| journal := [Uniswap.FetchTokenData KOVAN dai_address;
                    Uniswap.SendTransaction call_dai_mkr];
        ticks := 1 |}).
Proof.
  apply (proj1 (swap_fails_when_node_refuses
                  chain_refusing this_kovan wallet0 route_dai_mkr
                  dai_address 1000 1 call_dai_mkr insufficient_funds)).
  - vm_compute. left. reflexivity.
  - reflexivity.
Defined.

(** X4. A resolution whose input token cannot be resolved fails with that
    error without asking for the output token or for any pair; one whose
    output token cannot be resolved fails with that error without asking
    for any pair. *)
Theorem fetch_route_needs_both_tokens :
  forall (w : Uniswap.World) (this : Uniswap.Instance)
         (tokenIn tokenOut : string) (e : JsError),
    let c := Uniswap.chainID this in
    (Uniswap.decimals_on_chain w c tokenIn = Throws e ->
     exec (Uniswap.fetch_route this tokenIn tokenOut) w
     = (Throws e, {| journal := [Uniswap.FetchTokenData c tokenIn];
                     ticks := 0 |}))
    /\ (forall d,
           Uniswap.decimals_on_chain w c tokenIn = Returns d ->
           Uniswap.decimals_on_chain w c tokenOut = Throws e ->
           exec (Uniswap.fetch_route this tokenIn tokenOut) w
           = (Throws e, {| journal := [Uniswap.FetchTokenData c tokenIn;
                                       Uniswap.FetchTokenData c tokenOut];
                           ticks := 0 |})).
Proof.
  intros w this tokenIn tokenOut e c.
  destruct (fetch_route_unresolved w this tokenIn tokenOut) as [HIn HOut].
  split.
  - apply HIn.
  - intros d. apply HOut.
Qed.

Lemma fetch_route_needs_both_tokens_witness :
  exec (Uniswap.fetch_route this_kovan dai_address mkr_address) chain_empty
  = (Throws no_contract,
     {| journal := [Uniswap.FetchTokenData KOVAN dai_address]; ticks := 0 |}).
Proof.
  exact (proj1 (fetch_route_needs_both_tokens
                  chain_empty this_kovan dai_address mkr_address no_contract)
               eq_refl).
Defined.

(** ** The Ethereum service *)

(** X5. [getETHBalance] reports whole ether only: for a balance of [b] wei
    it resolves to the number [n] with n * 10^18 <= b < (n + 1) * 10^18, so
    any balance below one ether is reported as 0. *)
Theorem getETHBalance_reports_whole_ether :
  forall (w : Ethereum.World) (wallet : Wallet) (b : Z),
    Ethereum.wallet_getBalance w wallet = Returns b ->
    0 <= b ->
    exists n,
      exec (Ethereum.getETHBalance wallet) w
      = (Returns (Ethereum.Number n),
         {| journal := [Ethereum.GetBalance wallet]; ticks := 0 |})
      /\ n * 10 ^ 18 <= b < (n + 1) * 10 ^ 18
      /\ (b < 10 ^ 18 -> n = 0).
Proof.
  intros w wallet b Hb Hpos.
  exists (b / 10 ^ 18). split; [| split].
  - unfold Ethereum.getETHBalance. run. rewrite Hb.
    rewrite Z.quot_div_nonneg by lia. reflexivity.
  - pose proof (Z.mul_div_le b (10 ^ 18) ltac:(lia)).
    pose proof (Z.mul_succ_div_gt b (10 ^ 18) ltac:(lia)).
    lia.
  - intros Hlt. apply Z.div_small. lia.
Qed.

Lemma getETHBalance_reports_whole_ether_witness :
  exists n,
    exec (Ethereum.getETHBalance wallet0) eth_funded
    = (Returns (Ethereum.Number n),
       {| journal := [Ethereum.GetBalance wallet0]; ticks := 0 |})
    /\ n * 10 ^ 18 <= 1500000000000000000 < (n + 1) * 10 ^ 18
    /\ (1500000000000000000 < 10 ^ 18 -> n = 0).
Proof.
  apply (getETHBalance_reports_whole_ether eth_funded wallet0
           1500000000000000000); [reflexivity | lia].
Defined.

(** X6. [getERC20Balance] and [getERC20Allowance] divide what the token
    contract reports by 10^decimals, dropping the fraction, for 0 to 20
    decimals; an omitted [decimals] is 18; with more than 20 decimals the
    divisor is no numeral and the operation resolves to a string instead
    of a number. *)
Theorem erc20_amounts_are_scaled_down :
  forall (w : Ethereum.World) (wallet : Wallet)
         (spender tokenAddress : string) (d b : Z),
    let owner := wallet_address wallet in
    let scaled (op : option Z -> Ethereum.Promise Ethereum.Answer) :=
      (0 <= d <= 20 ->
       exists n,
         result_of (op (Some d)) w = Returns (Ethereum.Number n)
         /\ n * 10 ^ d <= b < (n + 1) * 10 ^ d)
      /\ (20 < d -> exists s, result_of (op (Some d)) w
                              = Returns (Ethereum.Text s))
      /\ exec (op None) w = exec (op (Some 18)) w in
    Ethereum.new_Contract w tokenAddress = Returns tt ->
    0 <= b ->
    (Ethereum.contract_balanceOf w tokenAddress owner = Returns b ->
     scaled (Ethereum.getERC20Balance wallet tokenAddress))
    /\ (Ethereum.contract_allowance w tokenAddress owner spender = Returns b ->
        scaled (Ethereum.getERC20Allowance wallet spender tokenAddress)).
Proof.
  intros w wallet spender tokenAddress d b owner scaled Hc Hpos.
  assert (Hbounds : 0 <= d <= 20 ->
                    b / 10 ^ d * 10 ^ d <= b < (b / 10 ^ d + 1) * 10 ^ d).
  { intros Hd.
    assert (0 < 10 ^ d) by (apply Z.pow_pos_nonneg; lia).
    pose proof (Z.mul_div_le b (10 ^ d) ltac:(lia)).
    pose proof (Z.mul_succ_div_gt b (10 ^ d) ltac:(lia)).
    lia. }
  assert (Hquot : 0 <= d <= 20 -> Z.quot b (10 ^ d) = b / 10 ^ d).
  { intros Hd. apply Z.quot_div_nonneg; [lia |].
    apply Z.pow_pos_nonneg; lia. }
  unfold scaled, Ethereum.getERC20Balance, Ethereum.getERC20Allowance,
         Ethereum.pow10_divisor, Ethereum.return_reason.
  fold owner.
  split; intros Hb; (split; [| split]).
  - intros Hd. exists (b / 10 ^ d). split; [| now apply Hbounds].
    run. rewrite Hc, Hb. cbn.
    destruct (Z.leb_spec 0 d); [| lia]. destruct (Z.leb_spec d 20); [| lia].
    cbn. now rewrite Hquot.
  - intros Hd. run. rewrite Hc, Hb. cbn.
    destruct (Z.leb_spec d 20); [lia |].
    rewrite andb_false_r. cbn. eexists. reflexivity.
  - reflexivity.
  - intros Hd. exists (b / 10 ^ d). split; [| now apply Hbounds].
    run. rewrite Hc, Hb. cbn.
    destruct (Z.leb_spec 0 d); [| lia]. destruct (Z.leb_spec d 20); [| lia].
    cbn. now rewrite Hquot.
  - intros Hd. run. rewrite Hc, Hb. cbn.
    destruct (Z.leb_spec d 20); [lia |].
    rewrite andb_false_r. cbn. eexists. reflexivity.
  - reflexivity.
Qed.

Lemma erc20_amounts_are_scaled_down_witness :
  exists n,
    result_of (Ethereum.getERC20Balance wallet0 dai_address (Some 6))
              eth_funded
    = Returns (Ethereum.Number n)
    /\ n * 10 ^ 6 <= 2500000 < (n + 1) * 10 ^ 6.
Proof.
  apply (proj1 (proj1 (erc20_amounts_are_scaled_down
                         eth_funded wallet0 uniswap_router dai_address
                         6 2500000 eq_refl ltac:(lia))
                      eq_refl)).
  lia.
Defined.

Section FirstMatch.

Context {A : Type} (p : A -> bool).

(** The first element of a filtered list is the first element of the list
    that passes the filter. *)
Lemma first_of_filter_is_first (l : list A) (x : A) :
  hd_error (filter p l) = Some x
  <-> exists before after,
        l = (before ++ x :: after)%list
        /\ p x = true
        /\ forall y, In y before -> p y = false.
Proof.
  induction l as [| a tl IH]; cbn.
  - split; [discriminate |].
    intros (before & after & H & _). destruct before; discriminate.
  - destruct (p a) eqn:Hpa; cbn.
    + split.
      * intros H. inversion H; subst a.
        exists [], tl. repeat split; [assumption | contradiction].
      * intros (before & after & Hl & Hpx & Hbefore).
        destruct before as [| y before']; cbn in Hl.
        -- now inversion Hl.
        -- inversion Hl; subst y.
           rewrite (Hbefore a (or_introl eq_refl)) in Hpa. discriminate.
    + rewrite IH. split.
      * intros (before & after & -> & Hpx & Hbefore).
        exists (a :: before), after. repeat split; [assumption |].
        intros y [<- | Hy]; [assumption | now apply Hbefore].
      * intros (before & after & Hl & Hpx & Hbefore).
        destruct before as [| y before']; cbn in Hl.
        -- inversion Hl; subst a. rewrite Hpx in Hpa. discriminate.
        -- inversion Hl; subst y tl.
           exists before', after. repeat split; [assumption |].
           intros z Hz. apply Hbefore. now right.
Qed.

End FirstMatch.

(** X7. With a loaded token list, each look-up returns exactly the first
    entry of the list, in list order, that matches: by symbol, the first
    whose stored symbol is the upper-cased query; by address, the first
    whose address equals the query up to case.  Later entries with the
    same symbol or address are never returned. *)
Theorem token_lookup_returns_first_match :
  forall (this : Ethereum.Instance) (l : list Ethereum.TokenInfo)
         (q : string) (t : Ethereum.TokenInfo),
    Ethereum.tokens (Ethereum.erc20TokenList this) = Some l ->
    (Ethereum.getERC20TokenAddresses this q = Returns (Some t)
     <-> exists before after,
           l = (before ++ t :: after)%list
           /\ Ethereum.symbol t = toUpperCase q
           /\ forall x, In x before -> Ethereum.symbol x <> toUpperCase q)
    /\ (Ethereum.getERC20TokenByAddress this q = Returns (Some t)
        <-> exists before after,
              l = (before ++ t :: after)%list
              /\ toUpperCase (Ethereum.address t) = toUpperCase q
              /\ forall x, In x before ->
                           toUpperCase (Ethereum.address x) <> toUpperCase q).
Proof.
  intros this l q t Hl.
  unfold Ethereum.getERC20TokenAddresses, Ethereum.getERC20TokenByAddress,
         Ethereum.first_match.
  rewrite Hl. split.
  - split.
    + intros H. inversion H as [Hhd].
      apply first_of_filter_is_first in Hhd.
      destruct Hhd as (before & after & Hsplit & Hp & Hbefore).
      exists before, after. split; [exact Hsplit |].
      split; [now apply String.eqb_eq |].
      intros x Hx. apply String.eqb_neq. now apply Hbefore.
    + intros (before & after & Hsplit & Hp & Hbefore). f_equal.
      apply first_of_filter_is_first.
      exists before, after. split; [exact Hsplit |].
      split; [now apply String.eqb_eq |].
      intros x Hx. apply String.eqb_neq. now apply Hbefore.
  - split.
    + intros H. inversion H as [Hhd].
      apply first_of_filter_is_first in Hhd.
      destruct Hhd as (before & after & Hsplit & Hp & Hbefore).
      exists before, after. split; [exact Hsplit |].
      split; [now apply String.eqb_eq |].
      intros x Hx. apply String.eqb_neq. now apply Hbefore.
    + intros (before & after & Hsplit & Hp & Hbefore). f_equal.
      apply first_of_filter_is_first.
      exists before, after. split; [exact Hsplit |].
      split; [now apply String.eqb_eq |].
      intros x Hx. apply String.eqb_neq. now apply Hbefore.
Qed.

Lemma token_lookup_returns_first_match_witness :
  Ethereum.getERC20TokenAddresses eth_duplicates "dai" = Returns (Some DAI)
  /\ Ethereum.getERC20TokenByAddress eth_duplicates
       (Ethereum.address dai_copy) = Returns (Some DAI).
Proof.
  split.
  - apply (proj1 (token_lookup_returns_first_match
                    eth_duplicates [MKR; DAI; dai_copy] "dai" DAI eq_refl)).
    exists [MKR], [dai_copy]. split; [reflexivity |]. split; [reflexivity |].
    intros x [<- | []]. discriminate.
  - apply (proj2 (token_lookup_returns_first_match
                    eth_duplicates [MKR; DAI; dai_copy]
                    (Ethereum.address dai_copy) DAI eq_refl)).
    exists [MKR], [dai_copy]. split; [reflexivity |]. split; [reflexivity |].
    intros x [<- | []]. discriminate.
Defined.

(** What a look-up by symbol returns is an entry of the list. *)
Lemma token_lookup_first_split (this : Ethereum.Instance)
  (l : list Ethereum.TokenInfo) (q : string) (t : Ethereum.TokenInfo) :
  Ethereum.tokens (Ethereum.erc20TokenList this) = Some l ->
  Ethereum.getERC20TokenAddresses this q = Returns (Some t) ->
  exists before after, l = (before ++ t :: after)%list.
Proof.
  intros Hl. unfold Ethereum.getERC20TokenAddresses, Ethereum.first_match.
  rewrite Hl. intros H. inversion H as [Hhd].
  apply first_of_filter_is_first in Hhd.
  destruct Hhd as (before & after & Hsplit & _). now exists before, after.
Qed.

(** X8. The two look-ups compose: when no two entries of the loaded list
    have the same address up to case, a token found by its symbol is found
    again, the very same entry, by the address stored in it, in whatever
    case that address is then written. *)
Theorem token_found_by_symbol_is_found_by_its_address :
  forall (this : Ethereum.Instance) (l : list Ethereum.TokenInfo)
         (q a : string) (t : Ethereum.TokenInfo),
    Ethereum.tokens (Ethereum.erc20TokenList this) = Some l ->
    NoDup (map (fun x => toUpperCase (Ethereum.address x)) l) ->
    Ethereum.getERC20TokenAddresses this q = Returns (Some t) ->
    toUpperCase a = toUpperCase (Ethereum.address t) ->
    Ethereum.getERC20TokenByAddress this a = Returns (Some t).
Proof.
  intros this l q a t Hl Hnodup Hfound Ha.
  destruct (token_lookup_first_split this l q t Hl Hfound)
    as (before & after & Hsplit).
  unfold Ethereum.getERC20TokenByAddress, Ethereum.first_match.
  rewrite Hl. f_equal. apply first_of_filter_is_first.
  exists before, after. split; [exact Hsplit |].
  split; [now apply String.eqb_eq |].
  intros x Hx. apply String.eqb_neq. rewrite Ha. intros Heq.
  rewrite Hsplit, map_app in Hnodup. cbn in Hnodup.
  apply NoDup_remove_2 in Hnodup. apply Hnodup.
  apply in_or_app. left. rewrite <- Heq.
  now apply (in_map (fun y => toUpperCase (Ethereum.address y))).
Qed.

Lemma token_found_by_symbol_is_found_by_its_address_witness :
  Ethereum.getERC20TokenByAddress eth_kovan
    "0X4F96FE3B7A6CF9725F59D353F723C1BDB64CA6AA"
  = Returns (Some DAI).
Proof.
  apply (token_found_by_symbol_is_found_by_its_address
           eth_kovan [DAI; weth_lower] "dai"
           "0X4F96FE3B7A6CF9725F59D353F723C1BDB64CA6AA" DAI eq_refl).
  - repeat constructor; cbn; intuition discriminate.
  - reflexivity.
  - reflexivity.
Defined.

(** ** The Ethereum router *)

(** X9. An approve request for a token the service does not know, made
    with a configured spender and a wallet that opens, is answered with
    status 500 and [Token "<name>" is not supported]; no approval is asked
    for and nothing is logged. *)
Theorem approve_refuses_unknown_token :
  forall (w : Routes.World) (req : Routes.Body) (wallet : Wallet),
    truthy_string (Routes.spenders w (Routes.connector req)) = true ->
    Routes.getWallet w (Routes.privateKey req) = Returns wallet ->
    Routes.getERC20TokenAddress w (Routes.token req) = Returns None ->
    exec (Routes.approve req) w
    = (Returns tt,
       {| journal :=
            [Routes.GetWallet (Routes.privateKey req);
             Routes.GetERC20TokenAddress (Routes.token req);
             Routes.Respond 500
               (Routes.Plain
                  ("Token " ++ Routes.dquote
                   ++ Routes.interpolate (Routes.token req)
                   ++ Routes.dquote ++ " is not supported"))];
          ticks := 1 |}).
Proof.
  intros w req wallet Hspender Hwallet Htoken.
  unfold Routes.approve, Routes.respond. run.
  rewrite Hspender, Hwallet. cbn. rewrite Htoken. reflexivity.
Qed.

Lemma approve_refuses_unknown_token_witness :
  Routes.response_of (trace_of (Routes.approve approve_unknown) (api None))
  = Some (500, Routes.Plain
                 ("Token " ++ Routes.dquote ++ "XYZ" ++ Routes.dquote
                  ++ " is not supported")).
Proof.
  unfold trace_of.
  rewrite (approve_refuses_unknown_token (api None) approve_unknown wallet0
             eq_refl eq_refl eq_refl).
  reflexivity.
Defined.

(** X10. With a configured spender, whatever throws before the approval is
    logged and answered with status 500 and the fixed text [Error getting
    wallet], and no approval is asked for: a wallet that does not open, a
    token look-up that throws, and equally an amount that [parseUnits]
    rejects. *)
Theorem approve_answers_error_getting_wallet :
  forall (w : Routes.World) (req : Routes.Body) (e : JsError),
    let key := Routes.privateKey req in
    let failed (done : list Routes.Event) :=
      exec (Routes.approve req) w
      = (Returns tt,
         {| journal := (done
                        ++ [Routes.LoggerError e;
                            Routes.Respond 500
                              (Routes.Plain "Error getting wallet")])%list;
            ticks := 1 |}) in
    truthy_string (Routes.spenders w (Routes.connector req)) = true ->
    (Routes.getWallet w key = Throws e ->
     failed [Routes.GetWallet key])
    /\ (forall wallet,
           Routes.getWallet w key = Returns wallet ->
           Routes.getERC20TokenAddress w (Routes.token req) = Throws e ->
           failed [Routes.GetWallet key;
                   Routes.GetERC20TokenAddress (Routes.token req)])
    /\ (forall wallet info a,
           Routes.getWallet w key = Returns wallet ->
           Routes.getERC20TokenAddress w (Routes.token req)
           = Returns (Some info) ->
           Routes.amount req = Some a -> a <> EmptyString ->
           Routes.parseUnits w a (Routes.decimals info) = Throws e ->
           failed [Routes.GetWallet key;
                   Routes.GetERC20TokenAddress (Routes.token req)]).
Proof.
  intros w req e key failed Hspender. unfold failed, key.
  split; [| split].
  - intros Hwallet. unfold Routes.approve, Routes.respond. run.
    rewrite Hspender, Hwallet. reflexivity.
  - intros wallet Hwallet Htoken. unfold Routes.approve, Routes.respond. run.
    rewrite Hspender, Hwallet. cbn. rewrite Htoken. reflexivity.
  - intros wallet info a Hwallet Htoken Ha Hne Hparse.
    unfold Routes.approve, Routes.respond, Routes.approval_amount. run.
    rewrite Hspender, Hwallet. cbn. rewrite Htoken. cbn. rewrite Ha.
    destruct (String.eqb_spec a EmptyString) as [-> | _]; [contradiction |].
    cbn. rewrite Hparse. reflexivity.
Qed.

Lemma approve_answers_error_getting_wallet_witness :
  exec (Routes.approve (approve_dai None)) api_bad_key
  = (Returns tt,
     {| journal := [Routes.GetWallet (Some "0xkey");
                    Routes.LoggerError bad_key;
                    Routes.Respond 500 (Routes.Plain "Error getting wallet")];
        ticks := 1 |})
  /\ exec (Routes.approve (approve_dai (Some "1e3"))) (api None)
     = (Returns tt,
        {| journal := [Routes.GetWallet (Some "0xkey");
                       Routes.GetERC20TokenAddress (Some "DAI");
                       Routes.LoggerError
                         {| name := "Error";
                            message := "invalid decimal value";
                            reason := Some "invalid decimal value" |};
                       Routes.Respond 500
                         (Routes.Plain "Error getting wallet")];
           ticks := 1 |}).
Proof.
  split.
  - exact (proj1 (approve_answers_error_getting_wallet
                    api_bad_key (approve_dai None) bad_key eq_refl)
                 eq_refl).
  - apply (proj2 (proj2 (approve_answers_error_getting_wallet
                           (api None) (approve_dai (Some "1e3")) _ eq_refl))
                 wallet0 dai_info "1e3");
      [reflexivity | reflexivity | reflexivity | discriminate | reflexivity].
Defined.

(** X11. With a configured spender, a wallet that opens, a known token and
    an amount that converts, the handler asks the service for the approval
    exactly once, for the token's address, the connector's spender and the
    gas price of the request (the fee service's price when the request has
    none or 0), and answers with status 200 whatever the service does: an
    error the service throws is passed on as the [approval] field. *)
Theorem approve_asks_once_and_answers_200 :
  forall (w : Routes.World) (req : Routes.Body) (wallet : Wallet)
         (info : Routes.TokenERC20Info) (amount : Z),
    let spender := Routes.spenders w (Routes.connector req) in
    let price := match Routes.gasPrice req with
                 | Some g => if g =? 0 then Routes.ethGasPrice w else g
                 | None => Routes.ethGasPrice w
                 end in
    truthy_string spender = true ->
    Routes.getWallet w (Routes.privateKey req) = Returns wallet ->
    Routes.getERC20TokenAddress w (Routes.token req) = Returns (Some info) ->
    result_of (Routes.approval_amount req info) w = Returns amount ->
    exec (Routes.approve req) w
    = (Returns tt,
       {| journal :=
            [Routes.GetWallet (Routes.privateKey req);
             Routes.GetERC20TokenAddress (Routes.token req);
             Routes.ApproveERC20 wallet spender (Routes.address info)
               amount price;
             Routes.Respond 200
               (Routes.ApproveJson
                  {| Routes.a_network := Routes.networkName w;
                     Routes.a_timestamp := Routes.clock w 0;
                     Routes.a_latency :=
                       Routes.latency (Routes.clock w 0) (Routes.clock w 1);
                     Routes.a_tokenAddress := Routes.address info;
                     Routes.a_spender := spender;
                     Routes.a_amount :=
                       Routes.bigNumberWithDecimalToStr w amount
                         (Routes.decimals info);
                     Routes.a_approval :=
                       match Routes.approveERC20 w wallet spender
                               (Routes.address info) amount price with
                       | Returns approval => approval
                       | Throws e => Routes.Thrown e
                       end |})];
          ticks := 2 |}).
Proof.
  intros w req wallet info amount spender price Hspender Hwallet Htoken
         Hamount.
  unfold result_of, exec in Hamount.
  rewrite approval_amount_run in Hamount. cbn [fst] in Hamount.
  unfold Routes.approve, exec, bind, try_catch.
  unfold Date_now at 1. unfold lift_world at 1. cbv beta iota.
  fold spender. rewrite Hspender. cbn [negb].
  unfold ret at 1. cbv beta iota.
  unfold ask at 1. rewrite Hwallet. cbv beta iota.
  unfold ask at 1. rewrite Htoken. cbv beta iota.
  unfold lift_world at 1. cbv beta iota.
  rewrite approval_amount_run, Hamount. cbv beta iota.
  unfold Routes.gasPrice_or_default. fold price.
  unfold ask at 1.
  destruct (Routes.approveERC20 w wallet spender (Routes.address info)
              amount price) as [approval | e]; reflexivity.
Qed.

Lemma approve_asks_once_and_answers_200_witness :
  Routes.response_of
    (trace_of (Routes.approve (approve_dai (Some "2"))) api_throwing)
  = Some (200,
          Routes.ApproveJson
            {| Routes.a_network := "kovan";
               Routes.a_timestamp := 1600000000000;
               Routes.a_latency := Routes.latency 1600000000000 1600000000025;
               Routes.a_tokenAddress := dai_address;
               Routes.a_spender := Some uniswap_router;
               Routes.a_amount := "(amount)";
               Routes.a_approval := Routes.Thrown insufficient_funds |}).
Proof.
  unfold trace_of.
  rewrite (approve_asks_once_and_answers_200
             api_throwing (approve_dai (Some "2")) wallet0 dai_info
             (2 * 10 ^ 18) eq_refl eq_refl eq_refl eq_refl).
  reflexivity.
Defined.

(** X12. A request for a connector without a spender is answered at once
    with status 500 and [Wrong connector], but the handler does not stop
    there: it still opens the wallet and asks the service for the approval,
    with no spender; its own response then cannot be sent any more, the
    attempt is logged, the error response fails as well, and the request
    ends with that error. *)
Theorem approve_goes_on_without_spender :
  forall (w : Routes.World) (req : Routes.Body) (wallet : Wallet)
         (info : Routes.TokenERC20Info) (amount : Z),
    let spender := Routes.spenders w (Routes.connector req) in
    let price := match Routes.gasPrice req with
                 | Some g => if g =? 0 then Routes.ethGasPrice w else g
                 | None => Routes.ethGasPrice w
                 end in
    let already_sent :=
      {| name := "Error";
         message := "Cannot set headers after they are sent to the client";
         reason := None |} in
    truthy_string spender = false ->
    Routes.getWallet w (Routes.privateKey req) = Returns wallet ->
    Routes.getERC20TokenAddress w (Routes.token req) = Returns (Some info) ->
    result_of (Routes.approval_amount req info) w = Returns amount ->
    exec (Routes.approve req) w
    = (Throws already_sent,
       {| journal :=
            [Routes.Respond 500 (Routes.Plain "Wrong connector");
             Routes.GetWallet (Routes.privateKey req);
             Routes.GetERC20TokenAddress (Routes.token req);
             Routes.ApproveERC20 wallet spender (Routes.address info)
               amount price;
             Routes.LoggerError already_sent];
          ticks := 2 |}).
Proof.
  intros w req wallet info amount spender price already_sent Hspender
         Hwallet Htoken Hamount.
  unfold result_of, exec in Hamount.
  rewrite approval_amount_run in Hamount. cbn [fst] in Hamount.
  unfold Routes.approve, exec, bind, try_catch.
  unfold Date_now at 1. unfold lift_world at 1. cbv beta iota.
  fold spender. rewrite Hspender. cbn [negb].
  unfold Routes.respond at 1. cbn [existsb journal start].
  unfold emit at 1. cbv beta iota.
  unfold ask at 1. rewrite Hwallet. cbv beta iota.
  unfold ask at 1. rewrite Htoken. cbv beta iota.
  unfold lift_world at 1. cbv beta iota.
  rewrite approval_amount_run, Hamount. cbv beta iota.
  unfold Routes.gasPrice_or_default. fold price.
  unfold ask at 1.
  destruct (Routes.approveERC20 w wallet spender (Routes.address info)
              amount price) as [approval | e]; reflexivity.
Qed.

Lemma approve_goes_on_without_spender_witness :
  Routes.response_of
    (trace_of (Routes.approve approve_elsewhere) (api None))
  = Some (500, Routes.Plain "Wrong connector")
  /\ Routes.approved_amounts
       (trace_of (Routes.approve approve_elsewhere) (api None))
     = [MaxUint256].
Proof.
  unfold trace_of.
  rewrite (approve_goes_on_without_spender
             (api None) approve_elsewhere wallet0 dai_info MaxUint256
             eq_refl eq_refl eq_refl eq_refl).
  split; reflexivity.
Defined.

(** X13. The poll handler has no error handling: when the receipt query
    throws, the request ends with that error and no response is sent. *)
Theorem poll_leaves_failed_query_unanswered :
  forall (w : Routes.World) (req : Routes.Body) (e : JsError),
    Routes.getTransactionReceipt w (Routes.txHash req) = Throws e ->
    exec (Routes.poll req) w
    = (Throws e,
       {| journal := [Routes.GetTransactionReceipt (Routes.txHash req)];
          ticks := 1 |})
    /\ Routes.response_of (trace_of (Routes.poll req) w) = None.
Proof.
  intros w req e H.
  assert (Hrun : exec (Routes.poll req) w
                 = (Throws e,
                    {| journal := [Routes.GetTransactionReceipt
                                     (Routes.txHash req)];
                       ticks := 1 |})).
  { unfold Routes.poll. run. now rewrite H. }
  split; [exact Hrun |]. unfold trace_of. now rewrite Hrun.
Qed.

Lemma poll_leaves_failed_query_unanswered_witness :
  Routes.response_of (trace_of (Routes.poll poll_abc) api_bad_key) = None.
Proof.
  exact (proj2 (poll_leaves_failed_query_unanswered
                  api_bad_key poll_abc connection_refused eq_refl)).
Defined.

(** ** The gas price and the token list of the Ethereum service *)

(** X14. [getCurrentGasPrice] never hands the gas price to its caller:
    whenever the provider's call returns its promise, whatever that promise
    settles to, the operation resolves to undefined; only a call that
    throws at once is logged and turned into a string. *)
Theorem getCurrentGasPrice_resolves_to_undefined :
  forall (w : EthereumState.World),
    (forall settles,
        EthereumState.provider_getGasPrice w = Returns settles ->
        exec EthereumState.getCurrentGasPrice w
        = (Returns None,
           {| journal := [EthereumState.GetGasPrice]; ticks := 0 |}))
    /\ (forall e,
           EthereumState.provider_getGasPrice w = Throws e ->
           exec EthereumState.getCurrentGasPrice w
           = (Returns (Some (or_string (reason e) "error gas lookup")),
              {| journal := [EthereumState.GetGasPrice;
                             EthereumState.LoggerError e];
                 ticks := 0 |})).
Proof.
  intros w. unfold EthereumState.getCurrentGasPrice.
  split; intros x H; run; now rewrite H.
Qed.

Lemma getCurrentGasPrice_resolves_to_undefined_witness :
  exec EthereumState.getCurrentGasPrice files_and_server
  = (Returns None, {| journal := [EthereumState.GetGasPrice]; ticks := 0 |}).
Proof.
  exact (proj1 (getCurrentGasPrice_resolves_to_undefined files_and_server)
               (Returns 20000000000) eq_refl).
Defined.

(** How the [try] block of the loader ends. *)
Lemma getERC20TokenList_run (w : EthereumState.World)
  (this : EthereumState.Instance) :
  exists this' r,
    result_of (EthereumState.getERC20TokenList this) w = Returns (this', r)
    /\ EthereumState.network this' = EthereumState.network this
    /\ EthereumState.erc20TokenListURL this'
       = EthereumState.erc20TokenListURL this
    /\ (r <> None -> this' = this).
Proof.
  unfold EthereumState.getERC20TokenList, EthereumState.load_token_list.
  destruct (EthereumState.network this =? "kovan")%string eqn:Hk.
  - run.
    destruct (EthereumState.read_token_file w _); cbn;
      eexists; eexists; repeat split; try reflexivity; congruence.
  - destruct (EthereumState.network this =? "mainnet")%string eqn:Hm.
    + run.
      destruct (EthereumState.erc20TokenListURL this) eqn:Hurl; cbn;
        (destruct (EthereumState.list_is_missing
                     (EthereumState.erc20TokenList this)); cbn;
         [destruct (EthereumState.axios_get w _) as [resp | e]; cbn;
          [destruct ((EthereumState.status resp =? 200)
                     && EthereumState.truthy_data
                          (EthereumState.data resp)); cbn |] |]);
        eexists; eexists; repeat split; try reflexivity;
        try congruence; try (cbn; exact Hurl).
    + run.
      eexists; eexists; repeat split; reflexivity.
Qed.

(** X15. [getERC20TokenList] never throws: it always resolves, leaves the
    network and the source of the object as they were, and whenever it
    resolves to an error string the token list is untouched.  For a
    network other than 'kovan' and 'mainnet' that string is [error ERC 20
    Token List], after the error [Invalid network <name>] was logged. *)
Theorem getERC20TokenList_never_throws :
  forall (w : EthereumState.World) (this : EthereumState.Instance),
    (exists this' r,
        result_of (EthereumState.getERC20TokenList this) w
        = Returns (this', r)
        /\ EthereumState.network this' = EthereumState.network this
        /\ EthereumState.erc20TokenListURL this'
           = EthereumState.erc20TokenListURL this
        /\ (r <> None -> this' = this))
    /\ (EthereumState.network this <> "kovan" ->
        EthereumState.network this <> "mainnet" ->
        let invalid :=
          Error ("Invalid network " ++ EthereumState.network this) in
        exec (EthereumState.getERC20TokenList this) w
        = (Returns (this, Some "error ERC 20 Token List"),
           {| journal := [EthereumState.ConsoleLogError invalid;
                          EthereumState.LoggerError invalid];
              ticks := 0 |})).
Proof.
  intros w this. split; [apply getERC20TokenList_run |].
  intros Hk Hm invalid.
  unfold EthereumState.getERC20TokenList, EthereumState.load_token_list.
  run.
  destruct (String.eqb_spec (EthereumState.network this) "kovan");
    [contradiction |].
  destruct (String.eqb_spec (EthereumState.network this) "mainnet");
    [contradiction |].
  reflexivity.
Qed.

Lemma getERC20TokenList_never_throws_witness :
  exec (EthereumState.getERC20TokenList fresh_ropsten) files_and_server
  = (Returns (fresh_ropsten, Some "error ERC 20 Token List"),
     {| journal := [EthereumState.ConsoleLogError
                      (Error "Invalid network ropsten");
                    EthereumState.LoggerError
                      (Error "Invalid network ropsten")];
        ticks := 0 |}).
Proof.
  apply (proj2 (getERC20TokenList_never_throws files_and_server
                  fresh_ropsten)); discriminate.
Defined.

(** X16. On mainnet a token list that is an object is never replaced: the
    loader asks no server and reads no file, and resolves to undefined
    with the object unchanged.  Starting from the empty object of the
    field initialiser, the list therefore stays without tokens and both
    look-ups throw a [TypeError]. *)
Theorem mainnet_token_list_is_never_fetched :
  forall (w : EthereumState.World) (this : EthereumState.Instance)
         (l : Ethereum.TokenList),
    EthereumState.network this = "mainnet" ->
    EthereumState.erc20TokenList this = EthereumState.Object l ->
    result_of (EthereumState.getERC20TokenList this) w = Returns (this, None)
    /\ (forall source,
           ~ In (EthereumState.AxiosGet source)
                (trace_of (EthereumState.getERC20TokenList this) w))
    /\ (forall path,
           ~ In (EthereumState.ReadFile path)
                (trace_of (EthereumState.getERC20TokenList this) w))
    /\ (Ethereum.tokens l = None ->
        exists service,
          EthereumState.as_service this = Some service
          /\ forall q,
               (exists e, Ethereum.getERC20TokenAddresses service q = Throws e
                          /\ name e = "TypeError")
               /\ (exists e, Ethereum.getERC20TokenByAddress service q
                             = Throws e
                             /\ name e = "TypeError")).
Proof.
  intros w this l Hnet Hlist.
  assert (Hrun :
    exec (EthereumState.getERC20TokenList this) w
    = (Returns (this, None),
       {| journal :=
            (match EthereumState.erc20TokenListURL this with
             | None =>
                 [EthereumState.LoggerErrorMessage "ERC20 Token List Error"
                    "Token List source not found";
                  EthereumState.ConsoleLog
                    [Some "eth - Error: "; Some "Token List source not found"]]
             | Some _ => []
             end
             ++ [EthereumState.ConsoleLog
                   [Some "get ERC20 Token List"; Some "mainnet";
                    Some "source"; EthereumState.erc20TokenListURL this]])%list;
          ticks := 0 |})).
  { unfold EthereumState.getERC20TokenList, EthereumState.load_token_list.
    run. rewrite Hnet, Hlist. cbn.
    destruct (EthereumState.erc20TokenListURL this); reflexivity. }
  unfold result_of, trace_of. rewrite Hrun. cbn [fst snd journal].
  split; [reflexivity |]. split; [| split].
  - intros source Hin.
    destruct (EthereumState.erc20TokenListURL this); cbn in Hin;
      intuition discriminate.
  - intros path Hin.
    destruct (EthereumState.erc20TokenListURL this); cbn in Hin;
      intuition discriminate.
  - intros Hnone. unfold EthereumState.as_service. rewrite Hlist.
    eexists. split; [reflexivity |].
    intros q. apply lookup_without_token_list. exact Hnone.
Qed.

Lemma mainnet_token_list_is_never_fetched_witness :
  result_of (EthereumState.getERC20TokenList fresh_mainnet) files_and_server
  = Returns (fresh_mainnet, None).
Proof.
  exact (proj1 (mainnet_token_list_is_never_fetched
                  files_and_server fresh_mainnet
                  {| Ethereum.tokens := None |} eq_refl eq_refl)).
Defined.

(** X17. On Kovan the loader replaces whatever the list held by the parsed
    content of the token file, after which the look-ups answer from the
    tokens of that file; if the file cannot be read or parsed, the list is
    kept and the call resolves to the error's reason, or to [error ERC 20
    Token List]. *)
Theorem kovan_token_list_comes_from_the_file :
  forall (w : EthereumState.World) (this : EthereumState.Instance),
    EthereumState.network this = "kovan" ->
    (forall v,
        EthereumState.read_token_file w EthereumState.kovan_token_file
        = Returns v ->
        result_of (EthereumState.getERC20TokenList this) w
        = Returns (EthereumState.set_erc20TokenList this v, None)
        /\ forall l,
             v = EthereumState.Object {| Ethereum.tokens := Some l |} ->
             exists service,
               EthereumState.as_service
                 (EthereumState.set_erc20TokenList this v) = Some service
               /\ Ethereum.tokens (Ethereum.erc20TokenList service) = Some l)
    /\ (forall e,
           EthereumState.read_token_file w EthereumState.kovan_token_file
           = Throws e ->
           result_of (EthereumState.getERC20TokenList this) w
           = Returns (this,
                      Some (or_string (reason e) "error ERC 20 Token List"))).
Proof.
  intros w this Hnet. split.
  - intros v Hread. split.
    + unfold EthereumState.getERC20TokenList, EthereumState.load_token_list.
      run. rewrite Hnet. cbn. now rewrite Hread.
    + intros l ->. eexists. split; reflexivity.
  - intros e Hread.
    unfold EthereumState.getERC20TokenList, EthereumState.load_token_list.
    run. rewrite Hnet. cbn. now rewrite Hread.
Qed.

Lemma kovan_token_list_comes_from_the_file_witness :
  result_of (EthereumState.getERC20TokenList fresh_kovan) files_and_server
  = Returns (EthereumState.set_erc20TokenList fresh_kovan
               (EthereumState.Object {| Ethereum.tokens := Some [DAI; MKR] |}),
             None).
Proof.
  exact (proj1 (proj1 (kovan_token_list_comes_from_the_file
                         files_and_server fresh_kovan eq_refl)
                      _ eq_refl)).
Defined.

(** X18. On mainnet with an undefined or null list the loader asks the
    configured source once.  A reply that axios resolves with, one of
    status 200 to 299, replaces the list only when its status is 200 and
    its data is truthy; any other such reply is dropped without a word:
    the list stays as it was and the call resolves to undefined.  A reply
    of any other status, which axios rejects, and a request that fails are
    logged; the list stays as it was and the call resolves to the error's
    reason or, as for a rejected reply, to [error ERC 20 Token List]. *)
Theorem mainnet_missing_list_is_fetched_once :
  forall (w : EthereumState.World) (this : EthereumState.Instance)
         (source : string),
    EthereumState.network this = "mainnet" ->
    EthereumState.erc20TokenListURL this = Some source ->
    EthereumState.erc20TokenList this = EthereumState.Undefined
    \/ EthereumState.erc20TokenList this = EthereumState.Null ->
    (forall reply,
        EthereumState.http_get w (Some source) = Returns reply ->
        exec (EthereumState.getERC20TokenList this) w
        = if (200 <=? EthereumState.status reply)
             && (EthereumState.status reply <? 300)
          then
            (Returns
               (if (EthereumState.status reply =? 200)
                   && EthereumState.truthy_data (EthereumState.data reply)
                then EthereumState.set_erc20TokenList this
                       (EthereumState.data reply)
                else this,
                None),
             {| journal := [EthereumState.AxiosGet (Some source);
                            EthereumState.ConsoleLog
                              [Some "get ERC20 Token List"; Some "mainnet";
                               Some "source"; Some source]];
                ticks := 0 |})
          else
            let rejected :=
              EthereumState.request_failed (EthereumState.status reply) in
            (Returns (this, Some "error ERC 20 Token List"),
             {| journal := [EthereumState.AxiosGet (Some source);
                            EthereumState.ConsoleLogError rejected;
                            EthereumState.LoggerError rejected];
                ticks := 0 |}))
    /\ (forall e,
           EthereumState.http_get w (Some source) = Throws e ->
           exec (EthereumState.getERC20TokenList this) w
           = (Returns (this,
                       Some (or_string (reason e) "error ERC 20 Token List")),
              {| journal := [EthereumState.AxiosGet (Some source);
                             EthereumState.ConsoleLogError e;
                             EthereumState.LoggerError e];
                 ticks := 0 |})).
Proof.
  intros w this source Hnet Hurl Hmissing.
  assert (Hmiss : EthereumState.list_is_missing
                    (EthereumState.erc20TokenList this) = true)
    by (destruct Hmissing as [-> | ->]; reflexivity).
  split.
  - intros reply Hget.
    unfold EthereumState.getERC20TokenList, EthereumState.load_token_list.
    run. rewrite Hnet, Hurl. cbn. rewrite Hmiss.
    unfold EthereumState.axios_get. rewrite Hget.
    destruct ((200 <=? EthereumState.status reply)
              && (EthereumState.status reply <? 300)); cbn;
      [| reflexivity].
    destruct ((EthereumState.status reply =? 200)
              && EthereumState.truthy_data (EthereumState.data reply));
      reflexivity.
  - intros e Hget.
    unfold EthereumState.getERC20TokenList, EthereumState.load_token_list.
    run. rewrite Hnet, Hurl. cbn. rewrite Hmiss.
    unfold EthereumState.axios_get. now rewrite Hget.
Qed.

Lemma mainnet_missing_list_is_fetched_once_witness :
  result_of (EthereumState.getERC20TokenList unset_mainnet) files_and_server
  = Returns (unset_mainnet, Some "error ERC 20 Token List")
  /\ In (EthereumState.LoggerError (EthereumState.request_failed 404))
        (trace_of (EthereumState.getERC20TokenList unset_mainnet)
                  files_and_server)
  /\ result_of (EthereumState.getERC20TokenList unset_mainnet)
               (token_server 200 listed_tokens)
     = Returns (EthereumState.set_erc20TokenList unset_mainnet listed_tokens,
                None)
  /\ result_of (EthereumState.getERC20TokenList unset_mainnet)
               (token_server 204 (EthereumState.Text EmptyString))
     = Returns (unset_mainnet, None)
  /\ result_of (EthereumState.getERC20TokenList unset_mainnet)
               (token_server 200 (EthereumState.Text "maintenance"))
     = Returns (EthereumState.set_erc20TokenList unset_mainnet
                  (EthereumState.Text "maintenance"),
                None).
Proof.
  assert (Hrun : forall w reply,
             EthereumState.http_get w
               (Some "https://tokens.example/list.json") = Returns reply ->
             exec (EthereumState.getERC20TokenList unset_mainnet) w = _)
    by (intros w;
        exact (proj1 (mainnet_missing_list_is_fetched_once
                        w unset_mainnet "https://tokens.example/list.json"
                        eq_refl eq_refl (or_intror eq_refl)))).
  unfold result_of, trace_of.
  rewrite (Hrun files_and_server _ eq_refl).
  rewrite (Hrun (token_server 200 listed_tokens) _ eq_refl).
  rewrite (Hrun (token_server 204 (EthereumState.Text EmptyString)) _ eq_refl).
  rewrite (Hrun (token_server 200 (EthereumState.Text "maintenance")) _
             eq_refl).
  cbn. repeat split; try reflexivity. right. right. now left.
Defined.

(** ** Listing balances and allowances *)

Section Objects.

Context {V : Type}.

Lemma get_set (o : Listing.object V) (k k' : string) (v : V) :
  Listing.get (Listing.set k v o) k'
  = if (k =? k')%string then Some v else Listing.get o k'.
Proof.
  induction o as [| [k0 v0] rest IH]; cbn.
  - reflexivity.
  - destruct (String.eqb_spec k0 k) as [-> | Hne]; cbn.
    + destruct (k =? k')%string; reflexivity.
    + rewrite IH.
      destruct (String.eqb_spec k0 k') as [-> | Hne']; [| reflexivity].
      destruct (String.eqb_spec k k') as [-> | _];
        [contradiction | reflexivity].
Qed.

Lemma get_absent (o : Listing.object V) (k : string) :
  ~ In k (map fst o) -> Listing.get o k = None.
Proof.
  induction o as [| [k0 v0] rest IH]; cbn; [reflexivity |].
  intros Hnot. destruct (String.eqb_spec k0 k) as [-> | _].
  - exfalso. apply Hnot. now left.
  - apply IH. intros Hin. apply Hnot. now right.
Qed.

Lemma keys_set (o : Listing.object V) (k : string) (v : V) :
  map fst (Listing.set k v o)
  = if existsb (String.eqb k) (map fst o) then map fst o
    else (map fst o ++ [k])%list.
Proof.
  induction o as [| [k0 v0] rest IH]; cbn; [reflexivity |].
  rewrite (String.eqb_sym k k0).
  destruct (String.eqb_spec k0 k) as [-> | Hne]; cbn; [reflexivity |].
  rewrite IH. destruct (existsb (String.eqb k) (map fst rest)); reflexivity.
Qed.

Lemma keys_set_NoDup (o : Listing.object V) (k : string) (v : V) :
  NoDup (map fst o) -> NoDup (map fst (Listing.set k v o)).
Proof.
  intros Hnodup. rewrite keys_set.
  destruct (existsb (String.eqb k) (map fst o)) eqn:Hex; [exact Hnodup |].
  apply NoDup_app; [exact Hnodup | repeat constructor; intros [] |].
  intros x Hx [Heq | []]. subst x.
  assert (Htrue : existsb (String.eqb k) (map fst o) = true).
  { apply existsb_exists. exists k. split; [exact Hx | apply String.eqb_refl]. }
  rewrite Htrue in Hex. discriminate.
Qed.

(** Assigning the entries of an object with distinct keys, one after the
    other, to another object. *)
Lemma get_assign_all (entries : Listing.object V) :
  forall (acc : Listing.object V) (k : string),
    NoDup (map fst entries) ->
    Listing.get (fold_left (fun o kv => Listing.set (fst kv) (snd kv) o)
                           entries acc) k
    = match Listing.get entries k with
      | Some v => Some v
      | None => Listing.get acc k
      end.
Proof.
  induction entries as [| [k0 v0] rest IH]; intros acc k Hnodup; cbn.
  - reflexivity.
  - inversion Hnodup as [| ? ? Hnotin Hrest]; subst.
    rewrite (IH _ _ Hrest), get_set.
    destruct (String.eqb_spec k0 k) as [-> | _]; [| reflexivity].
    now rewrite (get_absent rest k Hnotin).
Qed.

Lemma get_in (o : Listing.object V) (k : string) (v : V) :
  Listing.get o k = Some v -> In (k, v) o.
Proof.
  induction o as [| [k0 v0] rest IH]; cbn; [discriminate |].
  destruct (String.eqb_spec k0 k) as [-> | _].
  - intros H. inversion H. now left.
  - intros H. right. now apply IH.
Qed.

End Objects.

Lemma get_map_values {V U : Type} (f : string -> V -> U)
  (o : Listing.object V) (k : string) :
  Listing.get (map (fun kv => (fst kv, f (fst kv) (snd kv))) o) k
  = option_map (f k) (Listing.get o k).
Proof.
  induction o as [| [k0 v0] rest IH]; cbn; [reflexivity |].
  destruct (String.eqb_spec k0 k) as [-> | _]; [reflexivity | exact IH].
Qed.

Lemma collected_cons (w : Listing.World) (sym : string)
  (rest : list string) (acc : Listing.object Routes.TokenERC20Info) :
  Listing.collected w (sym :: rest) acc
  = Listing.collected w rest
      match Listing.known w sym with
      | Some info => Listing.set sym info acc
      | None => acc
      end.
Proof. reflexivity. Qed.

Lemma collect_run (w : Listing.World) (symbols : list string) :
  forall (acc : Listing.object Routes.TokenERC20Info)
         (s : Run Listing.Event),
    (forall sym, In sym symbols ->
       exists info, Listing.getERC20TokenAddress w sym = Returns info) ->
    Listing.collect symbols acc w s
    = (Returns (Listing.collected w symbols acc),
       {| journal := (journal s
                      ++ map Listing.GetERC20TokenAddress symbols)%list;
          ticks := ticks s |}).
Proof.
  induction symbols as [| sym rest IH]; intros acc s Hall.
  - cbn. unfold ret. rewrite app_nil_r. now destruct s.
  - rewrite collected_cons. cbn [Listing.collect map].
    unfold bind, ask, Listing.known.
    destruct (Hall sym (or_introl eq_refl)) as [info Hinfo].
    rewrite Hinfo.
    destruct info as [info |];
      (rewrite IH by (intros x Hx; apply Hall; now right));
      cbn [journal ticks]; rewrite <- app_assoc; reflexivity.
Qed.

Lemma collected_NoDup (w : Listing.World) (symbols : list string) :
  forall acc, NoDup (map fst acc) ->
              NoDup (map fst (Listing.collected w symbols acc)).
Proof.
  induction symbols as [| sym rest IH]; intros acc Hacc; [exact Hacc |].
  rewrite collected_cons.
  apply IH. destruct (Listing.known w sym);
    [now apply keys_set_NoDup | exact Hacc].
Qed.

Lemma get_collected (w : Listing.World) (symbols : list string) :
  forall acc k,
    Listing.get (Listing.collected w symbols acc) k
    = if existsb (String.eqb k) symbols
      then match Listing.known w k with
           | Some info => Some info
           | None => Listing.get acc k
           end
      else Listing.get acc k.
Proof.
  induction symbols as [| sym rest IH]; intros acc k; [reflexivity |].
  rewrite collected_cons, IH. cbn [existsb].
  destruct (String.eqb_spec k sym) as [-> | Hne]; cbn [orb].
  - destruct (Listing.known w sym) as [info |] eqn:Hknown.
    + rewrite get_set, String.eqb_refl.
      destruct (existsb (String.eqb sym) rest); reflexivity.
    + destruct (existsb (String.eqb sym) rest); reflexivity.
  - assert (Hsame : Listing.get
                      match Listing.known w sym with
                      | Some info => Listing.set sym info acc
                      | None => acc
                      end k = Listing.get acc k).
    { destruct (Listing.known w sym); [| reflexivity].
      rewrite get_set.
      destruct (String.eqb_spec sym k) as [-> | _];
        [contradiction | reflexivity]. }
    now rewrite Hsame.
Qed.

Lemma start_all_run (call : string -> Routes.TokenERC20Info -> Listing.Event)
  (answer : Listing.World -> string -> Routes.TokenERC20Info -> outcome string)
  (w : Listing.World) (o : Listing.object Routes.TokenERC20Info) :
  forall s : Run Listing.Event,
    Listing.start_all call answer o w s
    = (Returns (map (fun kv => (fst kv, answer w (fst kv) (snd kv))) o),
       {| journal := (journal s
                      ++ map (fun kv => call (fst kv) (snd kv)) o)%list;
          ticks := ticks s |}).
Proof.
  induction o as [| [k info] rest IH]; intros s; cbn.
  - unfold ret. rewrite app_nil_r. now destruct s.
  - unfold bind. rewrite IH. cbn [journal ticks].
    rewrite <- app_assoc. reflexivity.
Qed.

Lemma settle_allowances_run (w : Listing.World)
  (settled : Listing.object (outcome string)) :
  forall (acc : Listing.object string) (s : Run Listing.Event),
    Listing.settle_allowances settled acc w s
    = (Returns (fold_left
                  (fun o kv => Listing.set (fst kv) (snd kv) o)
                  (map (fun kv => (fst kv,
                                   Listing.value_or "invalid ENS name" (snd kv)))
                       settled)
                  acc),
       {| journal := (journal s ++ Listing.rejections settled)%list;
          ticks := ticks s |}).
Proof.
  induction settled as [| [k [v | e]] rest IH]; intros acc s; cbn.
  - unfold ret. rewrite app_nil_r. now destruct s.
  - apply IH.
  - unfold bind, emit. rewrite IH. cbn [journal ticks].
    rewrite <- app_assoc. reflexivity.
Qed.

Lemma settle_balances_run (w : Listing.World)
  (settled : Listing.object (outcome string)) :
  forall (acc : Listing.object string) (s : Run Listing.Event),
    (forall k r, In (k, r) settled -> exists v, r = Returns v) ->
    Listing.settle_balances settled acc w s
    = (Returns (fold_left
                  (fun o kv => Listing.set (fst kv) (snd kv) o)
                  (map (fun kv => (fst kv, Listing.value_or EmptyString (snd kv)))
                       settled)
                  acc), s).
Proof.
  induction settled as [| [k r] rest IH]; intros acc s Hall; cbn.
  - reflexivity.
  - destruct (Hall k r (or_introl eq_refl)) as [v ->]. cbn.
    apply IH. intros k' r' Hin. apply (Hall k' r'). now right.
Qed.

Lemma settle_balances_rejects (w : Listing.World)
  (settled : Listing.object (outcome string)) :
  forall (acc : Listing.object string) (s : Run Listing.Event),
    (exists k e, In (k, Throws e) settled) ->
    exists k e,
      In (k, Throws e) settled
      /\ Listing.settle_balances settled acc w s = (Throws e, s).
Proof.
  induction settled as [| [k [v | e]] rest IH]; intros acc s Hsome; cbn.
  - destruct Hsome as (k & e & []).
  - destruct (IH (Listing.set k v acc) s) as (k' & e' & Hin & Hrun).
    + destruct Hsome as (k' & e' & [Heq | Hin]); [discriminate |].
      now exists k', e'.
    + exists k', e'. split; [now right | exact Hrun].
  - exists k, e. split; [now left | reflexivity].
Qed.

Lemma no_response_in (l : list Listing.Event) :
  Forall (fun e => Listing.is_response e = false) l ->
  existsb Listing.is_response l = false.
Proof.
  induction 1 as [| e rest He _ IH]; cbn; [reflexivity |].
  now rewrite He, IH.
Qed.

Lemma no_response_in_map {A : Type} (f : A -> Listing.Event) (l : list A) :
  (forall a, Listing.is_response (f a) = false) ->
  Forall (fun e => Listing.is_response e = false) (map f l).
Proof.
  intros Hf. induction l; cbn; constructor; [apply Hf | assumption].
Qed.

Lemma no_response_in_rejections
  (settled : Listing.object (outcome string)) :
  Forall (fun e => Listing.is_response e = false)
         (Listing.rejections settled).
Proof.
  unfold Listing.rejections.
  induction settled as [| [k [v | e]] rest IH]; cbn;
    [constructor | exact IH | constructor; [reflexivity | exact IH]].
Qed.

Lemma respond_first (w : Listing.World) (status : Z)
  (payload : Listing.Payload) (s : Run Listing.Event) :
  Forall (fun e => Listing.is_response e = false) (journal s) ->
  Listing.respond status payload w s
  = (Returns tt,
     {| journal := (journal s ++ [Listing.Respond status payload])%list;
        ticks := ticks s |}).
Proof.
  intros H. unfold Listing.respond. now rewrite (no_response_in _ H).
Qed.

Lemma response_of_last (l : list Listing.Event) (status : Z)
  (payload : Listing.Payload) :
  Forall (fun e => Listing.is_response e = false) l ->
  Listing.response_of (l ++ [Listing.Respond status payload])
  = Some (status, payload).
Proof.
  intros H. unfold Listing.response_of. rewrite filter_app.
  assert (Hnone : filter Listing.is_response l = []).
  { induction H as [| e rest He _ IH]; cbn; [reflexivity |].
    now rewrite He. }
  now rewrite Hnone.
Qed.

(** The calls the two handlers make for the tokens they collected. *)
Lemma allowances_run (w : Listing.World) (req : Listing.Body)
  (wallet : Wallet) (symbols : list string) :
  let spender := Listing.spenders w (Listing.connector req) in
  let tokens := Listing.collected w symbols [] in
  let settled :=
    map (fun kv => (fst kv,
                    Listing.getERC20Allowance w wallet spender
                      (Routes.address (snd kv)) (Routes.decimals (snd kv))))
        tokens in
  let asked :=
    (Listing.GetWallet (Listing.privateKey req)
     :: map Listing.GetERC20TokenAddress symbols
     ++ map (fun kv => Listing.GetERC20Allowance wallet spender
                         (Routes.address (snd kv)) (Routes.decimals (snd kv)))
            tokens
     ++ Listing.rejections settled)%list in
  let answer :=
    Listing.AllowancesJson
      {| Listing.al_network := Listing.networkName w;
         Listing.al_timestamp := Listing.clock w 0;
         Listing.al_latency :=
           Routes.latency (Listing.clock w 0) (Listing.clock w 1);
         Listing.al_spender := spender;
         Listing.al_approvals :=
           fold_left (fun o kv => Listing.set (fst kv) (snd kv) o)
                     (map (fun kv => (fst kv,
                                      Listing.value_or "invalid ENS name"
                                        (snd kv)))
                          settled) [] |} in
  truthy_string spender = true ->
  Listing.getWallet w (Listing.privateKey req) = Returns wallet ->
  Listing.tokenList req = Returns symbols ->
  (forall sym, In sym symbols ->
     exists info, Listing.getERC20TokenAddress w sym = Returns info) ->
  exec (Listing.allowances req) w
  = (Returns tt,
     {| journal := (asked ++ [Listing.Respond 200 answer])%list;
        ticks := 2 |})
  /\ Forall (fun e => Listing.is_response e = false) asked.
Proof.
  intros spender tokens settled asked answer Hspender Hwallet Hlist Hknown.
  assert (Hasked : Forall (fun e => Listing.is_response e = false) asked).
  { unfold asked. constructor; [reflexivity |].
    apply Forall_app. split; [now apply no_response_in_map |].
    apply Forall_app. split; [now apply no_response_in_map |].
    apply no_response_in_rejections. }
  split; [| exact Hasked].
  unfold Listing.allowances, exec, bind, try_catch.
  unfold Date_now at 1. unfold lift_world at 1. cbv beta iota.
  fold spender. rewrite Hspender. cbn [negb].
  unfold ret at 1. cbv beta iota.
  unfold ask at 1. rewrite Hwallet. cbv beta iota.
  unfold lift at 1. rewrite Hlist. cbv beta iota.
  rewrite (collect_run w symbols [] _ Hknown). cbv beta iota.
  fold tokens. rewrite start_all_run. cbv beta iota. fold settled.
  rewrite settle_allowances_run. cbv beta iota.
  unfold lift_world at 1. cbv beta iota.
  unfold Date_now at 1. cbv beta iota.
  cbn [journal ticks start app].
  rewrite respond_first.
  - cbn [journal ticks]. unfold asked, answer.
    rewrite <- !app_assoc. reflexivity.
  - cbn [journal]. rewrite <- !app_assoc. exact Hasked.
Qed.

(** X19. For a configured spender, a wallet that opens and a token list
    that parses and whose symbols the service can look up, /allowances
    always answers with status 200.  Its [approvals] have an entry exactly
    for the listed symbols the service knows; symbols it does not know are
    skipped.  The entry is the allowance the service reports, and an
    allowance query that throws does not fail the request: it is logged
    and the entry reads [invalid ENS name]. *)
Theorem allowances_lists_every_known_token :
  forall (w : Listing.World) (req : Listing.Body) (wallet : Wallet)
         (symbols : list string),
    let spender := Listing.spenders w (Listing.connector req) in
    truthy_string spender = true ->
    Listing.getWallet w (Listing.privateKey req) = Returns wallet ->
    Listing.tokenList req = Returns symbols ->
    (forall sym, In sym symbols ->
       exists info, Listing.getERC20TokenAddress w sym = Returns info) ->
    exists answer,
      result_of (Listing.allowances req) w = Returns tt
      /\ Listing.response_of (trace_of (Listing.allowances req) w)
         = Some (200, Listing.AllowancesJson answer)
      /\ Listing.al_spender answer = spender
      /\ (forall sym,
             Listing.get (Listing.al_approvals answer) sym
             = if existsb (String.eqb sym) symbols
               then match Listing.getERC20TokenAddress w sym with
                    | Returns (Some info) =>
                        Some
                          match Listing.getERC20Allowance w wallet spender
                                  (Routes.address info)
                                  (Routes.decimals info) with
                          | Returns allowance => allowance
                          | Throws _ => "invalid ENS name"
                          end
                    | _ => None
                    end
               else None)
      /\ (forall sym info e,
             In sym symbols ->
             Listing.getERC20TokenAddress w sym = Returns (Some info) ->
             Listing.getERC20Allowance w wallet spender
               (Routes.address info) (Routes.decimals info) = Throws e ->
             In (Listing.LoggerError e)
                (trace_of (Listing.allowances req) w)).
Proof.
  intros w req wallet symbols spender Hspender Hwallet Hlist Hknown.
  destruct (allowances_run w req wallet symbols Hspender Hwallet Hlist Hknown)
    as [Hrun Hasked].
  fold spender in Hrun, Hasked.
  eexists. unfold result_of, trace_of. rewrite Hrun. cbn [fst snd journal].
  split; [reflexivity |].
  split; [apply response_of_last; exact Hasked |].
  split; [reflexivity |]. split.
  - intros sym. cbn [Listing.al_approvals].
    rewrite get_assign_all.
    + rewrite (get_map_values
                 (fun _ r => Listing.value_or "invalid ENS name" r)).
      rewrite (get_map_values
                 (fun _ info =>
                    Listing.getERC20Allowance w wallet spender
                      (Routes.address info) (Routes.decimals info))).
      rewrite get_collected. cbn [Listing.get]. unfold Listing.known.
      destruct (existsb (String.eqb sym) symbols); [| reflexivity].
      destruct (Listing.getERC20TokenAddress w sym) as [[info |] | e];
        reflexivity.
    + rewrite !map_map. cbn [fst].
      apply (collected_NoDup w symbols []). constructor.
  - intros sym info e Hin Hinfo Hthrows.
    apply in_or_app. left. right.
    apply in_or_app. right. apply in_or_app. right.
    unfold Listing.rejections. apply in_flat_map.
    exists (sym, Throws e). split; [| now left].
    apply in_map_iff. exists (sym, info). cbn [fst snd].
    split; [now rewrite Hthrows |].
    apply get_in. rewrite get_collected. unfold Listing.known.
    rewrite Hinfo.
    assert (Hex : existsb (String.eqb sym) symbols = true).
    { apply existsb_exists. exists sym.
      split; [exact Hin | apply String.eqb_refl]. }
    now rewrite Hex.
Qed.

Lemma allowances_lists_every_known_token_witness :
  exists answer,
    result_of (Listing.allowances (list_request ["DAI"; "XYZ"; "MKR"; "DAI"]))
              listing = Returns tt
    /\ Listing.response_of
         (trace_of (Listing.allowances
                      (list_request ["DAI"; "XYZ"; "MKR"; "DAI"])) listing)
       = Some (200, Listing.AllowancesJson answer)
    /\ Listing.al_spender answer = Some uniswap_router
    /\ Listing.get (Listing.al_approvals answer) "DAI" = Some "1000"
    /\ Listing.get (Listing.al_approvals answer) "XYZ" = None
    /\ Listing.get (Listing.al_approvals answer) "MKR"
       = Some "invalid ENS name".
Proof.
  destruct (allowances_lists_every_known_token
              listing (list_request ["DAI"; "XYZ"; "MKR"; "DAI"]) wallet0
              ["DAI"; "XYZ"; "MKR"; "DAI"] eq_refl eq_refl eq_refl)
    as (answer & Hresult & Hresponse & Hspender & Hget & _).
  - intros sym _. cbn.
    destruct (sym =? "DAI")%string; [eexists; reflexivity |].
    destruct (sym =? "MKR")%string; eexists; reflexivity.
  - exists answer. split; [exact Hresult |]. split; [exact Hresponse |].
    split; [exact Hspender |].
    split; [exact (Hget "DAI") |].
    split; [exact (Hget "XYZ") | exact (Hget "MKR")].
Defined.

(** X20. With a configured spender, /allowances answers a wallet that
    does not open, and equally a token list that does not parse, with
    status 500 and [Error getting wallet] after logging the error; it then
    has looked up no token and asked for no allowance. *)
Theorem allowances_answers_error_getting_wallet :
  forall (w : Listing.World) (req : Listing.Body) (e : JsError),
    let failed :=
      exec (Listing.allowances req) w
      = (Returns tt,
         {| journal := [Listing.GetWallet (Listing.privateKey req);
                        Listing.LoggerError e;
                        Listing.Respond 500
                          (Listing.Plain "Error getting wallet")];
            ticks := 1 |}) in
    truthy_string (Listing.spenders w (Listing.connector req)) = true ->
    (Listing.getWallet w (Listing.privateKey req) = Throws e -> failed)
    /\ (forall wallet,
           Listing.getWallet w (Listing.privateKey req) = Returns wallet ->
           Listing.tokenList req = Throws e -> failed).
Proof.
  intros w req e failed Hspender. unfold failed. split.
  - intros Hwallet. unfold Listing.allowances, Listing.respond. run.
    now rewrite Hspender, Hwallet.
  - intros wallet Hwallet Hlist.
    unfold Listing.allowances, Listing.respond. run.
    rewrite Hspender, Hwallet. cbn. now rewrite Hlist.
Qed.

Lemma allowances_answers_error_getting_wallet_witness :
  exec (Listing.allowances bad_list_request) listing
  = (Returns tt,
     {| journal := [Listing.GetWallet None;
                    Listing.LoggerError unparsable;
                    Listing.Respond 500
                      (Listing.Plain "Error getting wallet")];
        ticks := 1 |}).
Proof.
  exact (proj2 (allowances_answers_error_getting_wallet
                  listing bad_list_request unparsable eq_refl)
               wallet0 eq_refl eq_refl).
Defined.

Lemma settle_balances_state (w : Listing.World)
  (settled : Listing.object (outcome string)) :
  forall (acc : Listing.object string) (s : Run Listing.Event),
    snd (Listing.settle_balances settled acc w s) = s.
Proof.
  induction settled as [| [k [v | e]] rest IH]; intros acc s; cbn;
    [reflexivity | apply IH | reflexivity].
Qed.

(** How /balances runs once the wallet is open, the tokens are collected
    and the ETH balance is known. *)
Lemma balances_run (w : Listing.World) (req : Listing.Body)
  (wallet : Wallet) (symbols : list string) (eth : string) :
  let key := Some (or_string (Listing.privateKey req) EmptyString) in
  let tokens := Listing.collected w symbols [] in
  let settled :=
    map (fun kv => (fst kv,
                    Listing.getERC20Balance w wallet
                      (Routes.address (snd kv)) (Routes.decimals (snd kv))))
        tokens in
  let asked :=
    (Listing.GetWallet key
     :: map Listing.GetERC20TokenAddress symbols
     ++ Listing.GetETHBalance wallet
     :: map (fun kv => Listing.GetERC20Balance wallet
                         (Routes.address (snd kv)) (Routes.decimals (snd kv)))
            tokens)%list in
  Listing.getWallet w key = Returns wallet ->
  Listing.tokenList req = Returns symbols ->
  (forall sym, In sym symbols ->
     exists info, Listing.getERC20TokenAddress w sym = Returns info) ->
  Listing.getETHBalance w wallet = Returns eth ->
  Forall (fun e => Listing.is_response e = false) asked
  /\ forall s,
       exec (Listing.balances req) w
       = match fst (Listing.settle_balances settled
                      (Listing.set "ETH" eth []) w s) with
         | Returns balances =>
             (Returns tt,
              {| journal :=
                   (asked
                    ++ [Listing.Respond 200
                          (Listing.BalancesJson
                             {| Listing.ba_network := Listing.networkName w;
                                Listing.ba_timestamp := Listing.clock w 0;
                                Listing.ba_latency :=
                                  Routes.latency (Listing.clock w 0)
                                                 (Listing.clock w 1);
                                Listing.ba_balances := balances |})])%list;
                 ticks := 2 |})
         | Throws e =>
             (Returns tt,
              {| journal := (asked
                             ++ [Listing.LoggerError e;
                                 Listing.Respond 500 (Listing.Failure e)])%list;
                 ticks := 1 |})
         end.
Proof.
  intros key tokens settled asked Hwallet Hlist Hknown Heth.
  assert (Hasked : Forall (fun e => Listing.is_response e = false) asked).
  { unfold asked. constructor; [reflexivity |].
    apply Forall_app. split; [now apply no_response_in_map |].
    constructor; [reflexivity | now apply no_response_in_map]. }
  split; [exact Hasked |]. intros s.
  assert (Hresult : forall s1 s2,
             fst (Listing.settle_balances settled
                    (Listing.set "ETH" eth []) w s1)
             = fst (Listing.settle_balances settled
                      (Listing.set "ETH" eth []) w s2)).
  { generalize (Listing.set "ETH" eth []).
    induction settled as [| [k [v | e]] rest IH]; intros acc s1 s2; cbn;
      [reflexivity | apply IH | reflexivity]. }
  unfold Listing.balances, exec, bind, try_catch.
  unfold Date_now at 1. cbv beta iota zeta.
  fold key. unfold ask at 1. rewrite Hwallet. cbv beta iota.
  unfold lift at 1. rewrite Hlist. cbv beta iota.
  rewrite (collect_run w symbols [] _ Hknown). cbv beta iota.
  fold tokens. unfold ask at 1. rewrite Heth. cbv beta iota.
  rewrite start_all_run. cbv beta iota. fold settled.
  cbn [journal ticks start app].
  match goal with
  | |- context [Listing.settle_balances settled ?acc w ?s0] =>
      pose proof (settle_balances_state w settled acc s0) as Hstate;
      rewrite (Hresult s s0);
      destruct (Listing.settle_balances settled acc w s0) as [o s'] eqn:Hrun
  end.
  cbn [fst snd] in *. subst s'.
  assert (Hjournal :
    (Listing.GetWallet key
     :: (map Listing.GetERC20TokenAddress symbols
         ++ [Listing.GetETHBalance wallet])
        ++ map (fun kv => Listing.GetERC20Balance wallet
                            (Routes.address (snd kv))
                            (Routes.decimals (snd kv)))
               tokens)%list
    = asked).
  { unfold asked. rewrite <- app_assoc. reflexivity. }
  destruct o as [balances | e].
  - unfold lift_world at 1. cbv beta iota.
    unfold Date_now at 1. cbv beta iota. cbn [journal ticks].
    rewrite respond_first; cbn [journal ticks]; rewrite Hjournal;
      [reflexivity | exact Hasked].
  - unfold emit at 1. cbv beta iota. cbn [journal ticks].
    rewrite respond_first; cbn [journal ticks]; rewrite Hjournal.
    + rewrite <- app_assoc. reflexivity.
    + apply Forall_app. split; [exact Hasked |].
      constructor; [reflexivity | constructor].
Qed.

Lemma in_get {V : Type} (o : Listing.object V) (k : string) (v : V) :
  NoDup (map fst o) -> In (k, v) o -> Listing.get o k = Some v.
Proof.
  induction o as [| [k0 v0] rest IH]; cbn; [intros _ [] |].
  intros Hnodup [Heq | Hin].
  - inversion Heq; subst. now rewrite String.eqb_refl.
  - inversion Hnodup as [| ? ? Hnotin Hrest]; subst.
    destruct (String.eqb_spec k0 k) as [-> | _]; [| now apply IH].
    exfalso. apply Hnotin. apply in_map_iff. now exists (k, v).
Qed.

(** The collected tokens are the listed symbols the service knows. *)
Lemma in_collected (w : Listing.World) (symbols : list string)
  (k : string) (info : Routes.TokenERC20Info) :
  In (k, info) (Listing.collected w symbols []) <->
  In k symbols /\ Listing.known w k = Some info.
Proof.
  assert (Hget : Listing.get (Listing.collected w symbols []) k = Some info
                 <-> In k symbols /\ Listing.known w k = Some info).
  { rewrite get_collected. cbn [Listing.get].
    destruct (existsb (String.eqb k) symbols) eqn:Hex.
    - apply existsb_exists in Hex. destruct Hex as (x & Hin & Heq).
      apply String.eqb_eq in Heq. subst x.
      destruct (Listing.known w k); split.
      + intros H. now split.
      + now intros [_ H].
      + discriminate.
      + now intros [_ H].
    - split; [discriminate |]. intros [Hin _].
      assert (Htrue : existsb (String.eqb k) symbols = true).
      { apply existsb_exists. exists k.
        split; [exact Hin | apply String.eqb_refl]. }
      rewrite Htrue in Hex. discriminate. }
  rewrite <- Hget. split.
  - apply in_get. apply (collected_NoDup w symbols []). constructor.
  - apply get_in.
Qed.

Lemma known_Some (w : Listing.World) (sym : string)
  (info : Routes.TokenERC20Info) :
  Listing.known w sym = Some info <->
  Listing.getERC20TokenAddress w sym = Returns (Some info).
Proof.
  unfold Listing.known.
  destruct (Listing.getERC20TokenAddress w sym) as [[i |] | e]; split;
    intros H; inversion H; reflexivity.
Qed.

(** X21. /balances, when the wallet opens, the token list parses and no
    balance query fails, answers 200 with one balance for each listed
    symbol the service knows, as the service reports it, and the ETH
    balance under the key ETH; symbols the service does not know are left
    out.  A listed token with the symbol ETH replaces the ETH balance. *)
Theorem balances_lists_ETH_and_every_known_token :
  forall (w : Listing.World) (req : Listing.Body) (wallet : Wallet)
         (symbols : list string) (eth : string),
    Listing.getWallet w
      (Some (or_string (Listing.privateKey req) EmptyString))
    = Returns wallet ->
    Listing.tokenList req = Returns symbols ->
    (forall sym, In sym symbols ->
       exists info, Listing.getERC20TokenAddress w sym = Returns info) ->
    Listing.getETHBalance w wallet = Returns eth ->
    (forall sym info,
       In sym symbols ->
       Listing.getERC20TokenAddress w sym = Returns (Some info) ->
       exists balance,
         Listing.getERC20Balance w wallet (Routes.address info)
           (Routes.decimals info) = Returns balance) ->
    exists answer,
      result_of (Listing.balances req) w = Returns tt
      /\ Listing.response_of (trace_of (Listing.balances req) w)
         = Some (200, Listing.BalancesJson answer)
      /\ (forall sym info balance,
             In sym symbols ->
             Listing.getERC20TokenAddress w sym = Returns (Some info) ->
             Listing.getERC20Balance w wallet (Routes.address info)
               (Routes.decimals info) = Returns balance ->
             Listing.get (Listing.ba_balances answer) sym = Some balance)
      /\ (forall sym,
             ~ In sym symbols
             \/ Listing.getERC20TokenAddress w sym = Returns None ->
             Listing.get (Listing.ba_balances answer) sym
             = if ("ETH" =? sym)%string then Some eth else None).
Proof.
  intros w req wallet symbols eth Hwallet Hlist Hknown Heth Hbalances.
  destruct (balances_run w req wallet symbols eth Hwallet Hlist Hknown Heth)
    as [Hasked Hrun].
  specialize (Hrun {| journal := []; ticks := 0 |}).
  rewrite settle_balances_run in Hrun.
  - cbn [fst] in Hrun.
    eexists. unfold result_of, trace_of. rewrite Hrun. cbn [fst snd journal].
    split; [reflexivity |].
    split; [apply response_of_last; exact Hasked |].
    cbn [Listing.ba_balances].
    assert (Hget : forall sym,
      Listing.get
        (fold_left (fun o kv => Listing.set (fst kv) (snd kv) o)
           (map (fun kv => (fst kv, Listing.value_or EmptyString (snd kv)))
              (map (fun kv => (fst kv,
                               Listing.getERC20Balance w wallet
                                 (Routes.address (snd kv))
                                 (Routes.decimals (snd kv))))
                 (Listing.collected w symbols [])))
           (Listing.set "ETH" eth [])) sym
      = match Listing.get (Listing.collected w symbols []) sym with
        | Some info =>
            Some (Listing.value_or EmptyString
                    (Listing.getERC20Balance w wallet (Routes.address info)
                       (Routes.decimals info)))
        | None => if ("ETH" =? sym)%string then Some eth else None
        end).
    { intros sym. rewrite get_assign_all.
      - rewrite (get_map_values (fun _ r => Listing.value_or EmptyString r)).
        rewrite (get_map_values
                   (fun _ info =>
                      Listing.getERC20Balance w wallet
                        (Routes.address info) (Routes.decimals info))).
        destruct (Listing.get (Listing.collected w symbols []) sym);
          reflexivity.
      - rewrite !map_map. cbn [fst].
        apply (collected_NoDup w symbols []). constructor. }
    split.
    + intros sym info balance Hin Hinfo Hbalance. rewrite Hget.
      assert (Hsym : Listing.get (Listing.collected w symbols []) sym
                     = Some info).
      { apply in_get; [apply (collected_NoDup w symbols []); constructor |].
        apply in_collected. split; [exact Hin | now apply known_Some]. }
      rewrite Hsym, Hbalance. reflexivity.
    + intros sym Hnot. rewrite Hget.
      destruct (Listing.get (Listing.collected w symbols []) sym)
        as [info |] eqn:Hsym; [| reflexivity].
      exfalso. apply get_in, in_collected in Hsym.
      destruct Hsym as [Hin Hinfo]. apply known_Some in Hinfo.
      destruct Hnot as [Hnot | Hnone]; [now apply Hnot |].
      rewrite Hnone in Hinfo. discriminate.
  - intros k r Hin. apply in_map_iff in Hin.
    destruct Hin as ([k' info] & Heq & Hin). cbn [fst snd] in Heq.
    inversion Heq; subst. apply in_collected in Hin.
    destruct Hin as [Hin Hinfo]. apply known_Some in Hinfo.
    destruct (Hbalances k info Hin Hinfo) as [balance Hbalance].
    now exists balance.
Qed.

Lemma balances_lists_ETH_and_every_known_token_witness :
  exists answer,
    result_of (Listing.balances (list_request ["DAI"; "XYZ"])) listing
    = Returns tt
    /\ Listing.response_of
         (trace_of (Listing.balances (list_request ["DAI"; "XYZ"])) listing)
       = Some (200, Listing.BalancesJson answer)
    /\ Listing.get (Listing.ba_balances answer) "DAI" = Some "250"
    /\ Listing.get (Listing.ba_balances answer) "ETH" = Some "1.5"
    /\ Listing.get (Listing.ba_balances answer) "XYZ" = None.
Proof.
  destruct (balances_lists_ETH_and_every_known_token
              listing (list_request ["DAI"; "XYZ"]) wallet0 ["DAI"; "XYZ"]
              "1.5" eq_refl eq_refl)
    as (answer & Hresult & Hresponse & Hlisted & Hother).
  - intros sym _. cbn.
    destruct (sym =? "DAI")%string; [eexists; reflexivity |].
    destruct (sym =? "MKR")%string; eexists; reflexivity.
  - reflexivity.
  - intros sym info [<- | [<- | []]] Hinfo.
    + inversion Hinfo; subst. now exists "250".
    + discriminate.
  - exists answer. split; [exact Hresult |]. split; [exact Hresponse |].
    split; [apply (Hlisted "DAI" dai_info); [now left | |]; reflexivity |].
    split.
    + apply (Hother "ETH"). left. intros [H | [H | []]]; discriminate.
    + apply (Hother "XYZ"). right. reflexivity.
Defined.

(** X22. /balances fails as a whole when one token's balance query fails:
    with the wallet open, the tokens collected and the ETH balance known,
    a failing balance query of a listed known token makes the answer
    status 500 with the error of such a query as its body, after that
    error is logged; every collected token's balance has been asked for
    all the same. *)
Theorem balances_fails_when_one_token_fails :
  forall (w : Listing.World) (req : Listing.Body) (wallet : Wallet)
         (symbols : list string) (eth : string),
    Listing.getWallet w
      (Some (or_string (Listing.privateKey req) EmptyString))
    = Returns wallet ->
    Listing.tokenList req = Returns symbols ->
    (forall sym, In sym symbols ->
       exists info, Listing.getERC20TokenAddress w sym = Returns info) ->
    Listing.getETHBalance w wallet = Returns eth ->
    (exists sym info e,
       In sym symbols
       /\ Listing.getERC20TokenAddress w sym = Returns (Some info)
       /\ Listing.getERC20Balance w wallet (Routes.address info)
            (Routes.decimals info) = Throws e) ->
    exists sym info e,
      (In sym symbols
       /\ Listing.getERC20TokenAddress w sym = Returns (Some info)
       /\ Listing.getERC20Balance w wallet (Routes.address info)
            (Routes.decimals info) = Throws e)
      /\ result_of (Listing.balances req) w = Returns tt
      /\ Listing.response_of (trace_of (Listing.balances req) w)
         = Some (500, Listing.Failure e)
      /\ In (Listing.LoggerError e) (trace_of (Listing.balances req) w)
      /\ (forall sym' info',
             In sym' symbols ->
             Listing.getERC20TokenAddress w sym' = Returns (Some info') ->
             In (Listing.GetERC20Balance wallet (Routes.address info')
                   (Routes.decimals info'))
                (trace_of (Listing.balances req) w)).
Proof.
  intros w req wallet symbols eth Hwallet Hlist Hknown Heth
         (sym0 & info0 & e0 & Hin0 & Hinfo0 & Hthrows0).
  destruct (balances_run w req wallet symbols eth Hwallet Hlist Hknown Heth)
    as [Hasked Hrun].
  specialize (Hrun {| journal := []; ticks := 0 |}).
  match type of Hrun with
  | context [Listing.settle_balances ?settled ?acc w ?s] =>
      destruct (settle_balances_rejects w settled acc s)
        as (k & e & Hin & Hrejects)
  end.
  { exists sym0, e0. apply in_map_iff. exists (sym0, info0). cbn [fst snd].
    split; [now rewrite Hthrows0 |].
    apply in_collected. split; [exact Hin0 | now apply known_Some]. }
  rewrite Hrejects in Hrun. cbn [fst] in Hrun.
  apply in_map_iff in Hin. destruct Hin as ([k' info] & Heq & Hin).
  cbn [fst snd] in Heq. inversion Heq as [[Hk He]]. subst k'.
  apply in_collected in Hin. destruct Hin as [Hin Hinfo].
  apply known_Some in Hinfo.
  exists k, info, e.
  split; [split; [exact Hin | split; [exact Hinfo | exact He]] |].
  unfold result_of, trace_of. rewrite Hrun. cbn [fst snd journal].
  split; [reflexivity |]. split.
  - change [Listing.LoggerError e; Listing.Respond 500 (Listing.Failure e)]
      with ([Listing.LoggerError e]
            ++ [Listing.Respond 500 (Listing.Failure e)])%list.
    rewrite app_assoc. apply response_of_last.
    apply Forall_app. split; [exact Hasked |].
    constructor; [reflexivity | constructor].
  - split; [apply in_or_app; right; now left |].
    intros sym' info' Hin' Hinfo'.
    apply in_or_app. left. right. apply in_or_app. right. right.
    apply in_map_iff. exists (sym', info'). split; [reflexivity |].
    apply in_collected. split; [exact Hin' | now apply known_Some].
Qed.

Lemma balances_fails_when_one_token_fails_witness :
  exists sym info e,
    (In sym ["MKR"; "DAI"]
     /\ Listing.getERC20TokenAddress listing sym = Returns (Some info)
     /\ Listing.getERC20Balance listing wallet0 (Routes.address info)
          (Routes.decimals info) = Throws e)
    /\ result_of (Listing.balances (list_request ["MKR"; "DAI"])) listing
       = Returns tt
    /\ Listing.response_of
         (trace_of (Listing.balances (list_request ["MKR"; "DAI"])) listing)
       = Some (500, Listing.Failure e)
    /\ In (Listing.LoggerError e)
          (trace_of (Listing.balances (list_request ["MKR"; "DAI"])) listing)
    /\ In (Listing.GetERC20Balance wallet0 dai_address 18)
          (trace_of (Listing.balances (list_request ["MKR"; "DAI"])) listing).
Proof.
  destruct (balances_fails_when_one_token_fails
              listing (list_request ["MKR"; "DAI"]) wallet0 ["MKR"; "DAI"]
              "1.5" eq_refl eq_refl)
    as (sym & info & e & Hfails & Hresult & Hresponse & Hlogged & Hasked).
  - intros sym _. cbn.
    destruct (sym =? "DAI")%string; [eexists; reflexivity |].
    destruct (sym =? "MKR")%string; eexists; reflexivity.
  - reflexivity.
  - exists "MKR", mkr_info, no_contract.
    split; [now left | split; reflexivity].
  - exists sym, info, e. split; [exact Hfails |]. split; [exact Hresult |].
    split; [exact Hresponse |]. split; [exact Hlogged |].
    apply (Hasked "DAI" dai_info); [right; now left | reflexivity].
Defined.

(** X23. /balances answers a wallet that does not open, a token list that
    does not parse and an ETH balance query that fails alike: the error is
    logged and sent as the body of a 500 response, and no token balance
    has been asked for. *)
Theorem balances_sends_the_error_itself :
  forall (w : Listing.World) (req : Listing.Body) (e : JsError),
    let key := Some (or_string (Listing.privateKey req) EmptyString) in
    (Listing.getWallet w key = Throws e ->
     exec (Listing.balances req) w
     = (Returns tt,
        {| journal := [Listing.GetWallet key; Listing.LoggerError e;
                       Listing.Respond 500 (Listing.Failure e)];
           ticks := 1 |}))
    /\ (forall wallet,
           Listing.getWallet w key = Returns wallet ->
           Listing.tokenList req = Throws e ->
           exec (Listing.balances req) w
           = (Returns tt,
              {| journal := [Listing.GetWallet key; Listing.LoggerError e;
                             Listing.Respond 500 (Listing.Failure e)];
                 ticks := 1 |}))
    /\ (forall wallet symbols,
           Listing.getWallet w key = Returns wallet ->
           Listing.tokenList req = Returns symbols ->
           (forall sym, In sym symbols ->
              exists info, Listing.getERC20TokenAddress w sym = Returns info) ->
           Listing.getETHBalance w wallet = Throws e ->
           exec (Listing.balances req) w
           = (Returns tt,
              {| journal :=
                   (Listing.GetWallet key
                    :: map Listing.GetERC20TokenAddress symbols
                    ++ [Listing.GetETHBalance wallet; Listing.LoggerError e;
                        Listing.Respond 500 (Listing.Failure e)])%list;
                 ticks := 1 |})).
Proof.
  intros w req e key. split; [| split].
  - intros Hwallet. unfold Listing.balances, Listing.respond. fold key. run.
    now rewrite Hwallet.
  - intros wallet Hwallet Hlist.
    unfold Listing.balances, Listing.respond. fold key. run.
    rewrite Hwallet. cbn. now rewrite Hlist.
  - intros wallet symbols Hwallet Hlist Hknown Heth.
    unfold Listing.balances, exec, bind, try_catch.
    unfold Date_now at 1. cbv beta iota zeta.
    fold key. unfold ask at 1. rewrite Hwallet. cbv beta iota.
    unfold lift at 1. rewrite Hlist. cbv beta iota.
    rewrite (collect_run w symbols [] _ Hknown). cbv beta iota.
    unfold ask at 1. rewrite Heth. cbv beta iota.
    unfold emit at 1. cbv beta iota. cbn [journal ticks start app].
    rewrite respond_first; cbn [journal ticks].
    + cbn [app]. rewrite <- !app_assoc. reflexivity.
    + constructor; [reflexivity |]. apply Forall_app. split.
      * apply Forall_app. split; [now apply no_response_in_map |].
        constructor; [reflexivity | constructor].
      * constructor; [reflexivity | constructor].
Qed.

Lemma balances_sends_the_error_itself_witness :
  exec (Listing.balances bad_list_request) listing
  = (Returns tt,
     {| journal := [Listing.GetWallet (Some EmptyString);
                    Listing.LoggerError unparsable;
                    Listing.Respond 500 (Listing.Failure unparsable)];
        ticks := 1 |}).
Proof.
  exact (proj1 (proj2 (balances_sends_the_error_itself
                         listing bad_list_request unparsable))
               wallet0 eq_refl eq_refl).
Defined.

(** X24. /allowances for a connector without a spender answers at once
    with status 500 and [Wrong connector], but does not stop there: it
    still opens the wallet and asks for the allowance of every listed
    known token, with no spender; its own response then cannot be sent any
    more, nor can the error response, and the request ends with that
    error. *)
Theorem allowances_goes_on_without_spender :
  forall (w : Listing.World) (req : Listing.Body) (wallet : Wallet)
         (symbols : list string),
    let spender := Listing.spenders w (Listing.connector req) in
    let already_sent :=
      {| name := "Error";
         message := "Cannot set headers after they are sent to the client";
         reason := None |} in
    truthy_string spender = false ->
    Listing.getWallet w (Listing.privateKey req) = Returns wallet ->
    Listing.tokenList req = Returns symbols ->
    (forall sym, In sym symbols ->
       exists info, Listing.getERC20TokenAddress w sym = Returns info) ->
    result_of (Listing.allowances req) w = Throws already_sent
    /\ Listing.response_of (trace_of (Listing.allowances req) w)
       = Some (500, Listing.Plain "Wrong connector")
    /\ In (Listing.LoggerError already_sent)
          (trace_of (Listing.allowances req) w)
    /\ (forall sym info,
           In sym symbols ->
           Listing.getERC20TokenAddress w sym = Returns (Some info) ->
           In (Listing.GetERC20Allowance wallet spender
                 (Routes.address info) (Routes.decimals info))
              (trace_of (Listing.allowances req) w)).
Proof.
  intros w req wallet symbols spender already_sent Hspender Hwallet Hlist
         Hknown.
  assert (Hrun :
    exec (Listing.allowances req) w
    = (Throws already_sent,
       {| journal :=
            (Listing.Respond 500 (Listing.Plain "Wrong connector")
             :: ((([Listing.GetWallet (Listing.privateKey req)]
                   ++ map Listing.GetERC20TokenAddress symbols)
                  ++ map (fun kv =>
                            Listing.GetERC20Allowance wallet spender
                              (Routes.address (snd kv))
                              (Routes.decimals (snd kv)))
                         (Listing.collected w symbols []))
                 ++ Listing.rejections
                      (map (fun kv =>
                              (fst kv,
                               Listing.getERC20Allowance w wallet spender
                                 (Routes.address (snd kv))
                                 (Routes.decimals (snd kv))))
                           (Listing.collected w symbols [])))
                ++ [Listing.LoggerError already_sent])%list;
          ticks := 2 |})).
  { unfold Listing.allowances, exec, bind, try_catch.
    unfold Date_now at 1. unfold lift_world at 1. cbv beta iota.
    fold spender. rewrite Hspender. cbn [negb].
    unfold Listing.respond at 1. cbn [existsb journal start].
    unfold emit at 1. cbv beta iota.
    unfold ask at 1. rewrite Hwallet. cbv beta iota.
    unfold lift at 1. rewrite Hlist. cbv beta iota.
    rewrite (collect_run w symbols [] _ Hknown). cbv beta iota.
    rewrite start_all_run. cbv beta iota.
    rewrite settle_allowances_run. cbv beta iota.
    unfold lift_world at 1. cbv beta iota.
    unfold Date_now at 1. cbv beta iota.
    cbn [journal ticks start app].
    unfold Listing.respond at 1.
    cbn [journal existsb Listing.is_response orb]. cbv beta iota.
    unfold emit at 1. cbv beta iota.
    unfold Listing.respond at 1.
    cbn [journal ticks app existsb Listing.is_response orb].
    reflexivity. }
  unfold result_of, trace_of. rewrite Hrun. cbn [fst snd journal].
  split; [reflexivity |]. split; [reflexivity |]. split.
  - right. apply in_or_app. right. now left.
  - intros sym info Hin Hinfo. right.
    apply in_or_app. left. apply in_or_app. left. apply in_or_app. right.
    apply in_map_iff. exists (sym, info). split; [reflexivity |].
    apply in_collected. split; [exact Hin | now apply known_Some].
Qed.

Lemma allowances_goes_on_without_spender_witness :
  Listing.response_of
    (trace_of (Listing.allowances elsewhere_request) listing)
  = Some (500, Listing.Plain "Wrong connector")
  /\ In (Listing.GetERC20Allowance wallet0 None dai_address 18)
        (trace_of (Listing.allowances elsewhere_request) listing).
Proof.
  destruct (allowances_goes_on_without_spender
              listing elsewhere_request wallet0 ["DAI"]
              eq_refl eq_refl eq_refl)
    as (_ & Hresponse & _ & Hasked).
  - intros sym _. cbn.
    destruct (sym =? "DAI")%string; [eexists; reflexivity |].
    destruct (sym =? "MKR")%string; eexists; reflexivity.
  - split; [exact Hresponse |].
    apply (Hasked "DAI" dai_info); [now left | reflexivity].
Defined.
